(** * tap-airtable: catalog builder, selection resolver and record mapper

    A shallow embedding of [tap_airtable/services/__init__.py] (class
    [Airtable]) and the properties of its discovery and sync paths.

    The program works on parsed JSON: the metadata and record pages of the
    upstream API ([response.json()]) and the catalog handed to sync
    ([properties]).  Python values are embedded as the inductive type
    [Py.value]; Python text is [string], read as a sequence of code points
    below 256; a Python float is carried by its [repr] text, which
    identifies it (no floating-point arithmetic occurs in the program);
    dictionaries are association lists in insertion order.  Operations that
    raise in Python return [Raise] with the exception. *)

From Stdlib Require Import String Ascii List ZArith Bool Lia.
From Stdlib Require Import DecimalString DecimalZ.
Import ListNotations.
Set Warnings "-register-all".
Open Scope string_scope.

(* ================================================================= *)
(** ** Python values and the operations the program uses on them *)

Module Py.

Inductive value : Type :=
| VNone
| VBool (b : bool)
| VInt (n : Z)
| VFloat (repr : string)
| VStr (s : string)
| VList (l : list value)
| VDict (d : list (string * value)).

Inductive exn : Type :=
| KeyError (k : value)
| IndexError
| TypeError
| AttributeError
| PyException (msg : string)
| HTTPError (status : Z)
| RetryError
| JSONDecodeError.

Inductive res (A : Type) : Type :=
| Ok (a : A)
| Raise (e : exn).

Arguments Ok {A} a.
Arguments Raise {A} e.

Definition bind {A B} (c : res A) (k : A -> res B) : res B :=
  match c with
  | Ok a => k a
  | Raise e => Raise e
  end.

Notation "x <- c ;; k" := (bind c (fun x => k))
  (at level 61, c at next level, right associativity).

(** [for x in xs: acc = body(acc, x)], stopping at the first exception. *)
Fixpoint foldM {A B} (body : A -> B -> res A) (acc : A) (xs : list B) : res A :=
  match xs with
  | [] => Ok acc
  | x :: xs' => acc' <- body acc x ;; foldM body acc' xs'
  end.

(** [[f(x) for x in xs]], stopping at the first exception. *)
Fixpoint mapM {A B} (f : A -> res B) (xs : list A) : res (list B) :=
  match xs with
  | [] => Ok []
  | x :: xs' => y <- f x ;; ys <- mapM f xs' ;; Ok (y :: ys)
  end.

(** *** Dictionaries: association lists with unique keys, insertion order *)

Section Dict.
Context {V : Type}.

Fixpoint dict_get (d : list (string * V)) (k : string) : option V :=
  match d with
  | [] => None
  | (k', v) :: d' => if String.eqb k' k then Some v else dict_get d' k
  end.

Definition dict_has (d : list (string * V)) (k : string) : bool :=
  match dict_get d k with Some _ => true | None => false end.

(** [d[k] = v]: an existing key keeps its position, a new one goes last. *)
Fixpoint dict_set (d : list (string * V)) (k : string) (v : V)
  : list (string * V) :=
  match d with
  | [] => [(k, v)]
  | (k', v') :: d' =>
      if String.eqb k' k then (k', v) :: d' else (k', v') :: dict_set d' k v
  end.

End Dict.

(** *** Truth value, [==] against text, [in], subscript, iteration, [.get] *)

Definition truthy (v : value) : bool :=
  match v with
  | VNone => false
  | VBool b => b
  | VInt n => negb (Z.eqb n 0)
  | VFloat r => negb (String.eqb r "0.0" || String.eqb r "-0.0")
  | VStr s => negb (String.eqb s "")
  | VList l => match l with [] => false | _ => true end
  | VDict d => match d with [] => false | _ => true end
  end.

(** [a or b] *)
Definition py_or (a b : value) : value := if truthy a then a else b.

(** [v == s] for a text [s]: only a text can equal a text. *)
Definition eq_str (v : value) (s : string) : bool :=
  match v with
  | VStr t => String.eqb t s
  | _ => false
  end.

(** [v in [s1, ..., sn]] for a list of text constants. *)
Definition in_strs (v : value) (l : list string) : bool :=
  existsb (eq_str v) l.

(** [s in t] on text: [s] occurs in [t]. *)
Fixpoint substring_of (s t : string) : bool :=
  if String.prefix s t then true
  else match t with
       | EmptyString => false
       | String _ t' => substring_of s t'
       end.

(** [s in c] for a text [s]: key of a dict, element of a list, substring of
    a text; the other values are not containers. *)
Definition str_in (s : string) (c : value) : res bool :=
  match c with
  | VDict d => Ok (dict_has d s)
  | VList l => Ok (existsb (fun x => eq_str x s) l)
  | VStr t => Ok (substring_of s t)
  | _ => Raise TypeError
  end.

Fixpoint str_nth (s : string) (n : nat) : option ascii :=
  match s, n with
  | EmptyString, _ => None
  | String c _, O => Some c
  | String _ s', S n' => str_nth s' n'
  end.

(** A sequence index: negative indices count from the end. *)
Definition seq_index (len : nat) (i : Z) : option nat :=
  let j := if (i <? 0)%Z then (i + Z.of_nat len)%Z else i in
  if ((0 <=? j) && (j <? Z.of_nat len))%Z then Some (Z.to_nat j) else None.

Definition as_index (k : value) : option Z :=
  match k with
  | VInt i => Some i
  | VBool b => Some (if b then 1%Z else 0%Z)
  | _ => None
  end.

(** [c[k]] *)
Definition getitem (c k : value) : res value :=
  match c with
  | VDict d =>
      match k with
      | VStr s => match dict_get d s with
                  | Some v => Ok v
                  | None => Raise (KeyError k)
                  end
      | VList _ | VDict _ => Raise TypeError
      | _ => Raise (KeyError k)
      end
  | VList l =>
      match as_index k with
      | Some i => match seq_index (List.length l) i with
                  | Some n => match nth_error l n with
                              | Some v => Ok v
                              | None => Raise IndexError
                              end
                  | None => Raise IndexError
                  end
      | None => Raise TypeError
      end
  | VStr s =>
      match as_index k with
      | Some i => match seq_index (String.length s) i with
                  | Some n => match str_nth s n with
                              | Some ch => Ok (VStr (String ch EmptyString))
                              | None => Raise IndexError
                              end
                  | None => Raise IndexError
                  end
      | None => Raise TypeError
      end
  | _ => Raise TypeError
  end.

Definition getkey (c : value) (k : string) : res value := getitem c (VStr k).

Fixpoint chars (s : string) : list value :=
  match s with
  | EmptyString => []
  | String c s' => VStr (String c EmptyString) :: chars s'
  end.

(** [for x in c]: the elements of a list, the keys of a dict, the
    characters of a text. *)
Definition iterate (c : value) : res (list value) :=
  match c with
  | VList l => Ok l
  | VDict d => Ok (map (fun kv => VStr (fst kv)) d)
  | VStr s => Ok (chars s)
  | _ => Raise TypeError
  end.

(** [d.get(k)]: a method of dicts only; an unhashable key raises, a key that
    is not a text is never found in a parsed JSON object. *)
Definition get_method (d k : value) : res value :=
  match d with
  | VDict kvs =>
      match k with
      | VStr s => Ok (match dict_get kvs s with Some v => v | None => VNone end)
      | VList _ | VDict _ => Raise TypeError
      | _ => Ok VNone
      end
  | _ => Raise AttributeError
  end.

(** A key of a dict the program builds.  Column names are text; a list or a
    dict is unhashable.  (A number, a boolean or null reaches a store only
    when [properties] is not a JSON object; the embedding stops there.) *)
Definition as_key (k : value) : res string :=
  match k with
  | VStr s => Ok s
  | _ => Raise TypeError
  end.

Definition is_str (v : value) : bool :=
  match v with VStr _ => true | _ => false end.

(** [a + b] with a text on the left. *)
Definition str_add (a : string) (b : value) : res value :=
  match b with
  | VStr s => Ok (VStr (a ++ s))
  | _ => Raise TypeError
  end.

(** *** [str.isdigit] *)

(** Code points below 256 with Numeric_Type Digit or Decimal: the ASCII
    digits and the superscripts two, three and one. *)
Definition isdigit_char (c : ascii) : bool :=
  let n := N_of_ascii c in
  ((48 <=? n) && (n <=? 57) || (n =? 178) || (n =? 179) || (n =? 185))%N.

Fixpoint all_digits (s : string) : bool :=
  match s with
  | EmptyString => true
  | String c s' => isdigit_char c && all_digits s'
  end.

(** [v.isdigit()]: every character is a digit and there is at least one. *)
Definition isdigit (v : value) : res bool :=
  match v with
  | VStr s => Ok (negb (String.eqb s "") && all_digits s)
  | _ => Raise AttributeError
  end.

(** *** [str] and [json.dumps] *)

Definition str_of_int (n : Z) : string := NilEmpty.string_of_int (Z.to_int n).

Definition dquote : ascii := "034"%char.

Definition hex_digit (n : N) : ascii :=
  if (n <? 10)%N then ascii_of_N (48 + n) else ascii_of_N (87 + n).

(** One character of [json.dumps] output for text ([ensure_ascii]). *)
Definition json_escape_char (c : ascii) : string :=
  let n := N_of_ascii c in
  if (n =? 34)%N then String "\" (String dquote EmptyString)
  else if (n =? 92)%N then "\\"
  else if (n =? 8)%N then "\b"
  else if (n =? 12)%N then "\f"
  else if (n =? 10)%N then "\n"
  else if (n =? 13)%N then "\r"
  else if (n =? 9)%N then "\t"
  else if ((32 <=? n) && (n <=? 126))%N then String c EmptyString
  else "\u00" ++ String (hex_digit (n / 16)) (String (hex_digit (n mod 16)) EmptyString).

Fixpoint json_escape (s : string) : string :=
  match s with
  | EmptyString => EmptyString
  | String c s' => json_escape_char c ++ json_escape s'
  end.

Definition json_string (s : string) : string :=
  String dquote (json_escape s ++ String dquote EmptyString).

Definition json_float (r : string) : string :=
  if String.eqb r "nan" then "NaN"
  else if String.eqb r "inf" then "Infinity"
  else if String.eqb r "-inf" then "-Infinity"
  else r.

(** [json.dumps(v)] with the default separators [", "] and [": "]. *)
Fixpoint json_dumps (v : value) : string :=
  match v with
  | VNone => "null"
  | VBool true => "true"
  | VBool false => "false"
  | VInt n => str_of_int n
  | VFloat r => json_float r
  | VStr s => json_string s
  | VList l =>
      "[" ++ (fix items (l : list value) : string :=
                match l with
                | [] => ""
                | [x] => json_dumps x
                | x :: l' => json_dumps x ++ ", " ++ items l'
                end) l ++ "]"
  | VDict d =>
      "{" ++ (fix members (d : list (string * value)) : string :=
                match d with
                | [] => ""
                | [(k, x)] => json_string k ++ ": " ++ json_dumps x
                | (k, x) :: d' =>
                    json_string k ++ ": " ++ json_dumps x ++ ", " ++ members d'
                end) d ++ "}"
  end.

End Py.

(* ================================================================= *)
(** ** The parts of singer-python the program calls *)

Module Singer.
Import Py.

(** [singer.schema.Schema]: an attribute that was not given is [None]. *)
Record Schema : Type := mkSchema {
  schema_type : value;
  schema_format : value;
  schema_inclusion : value
}.

Definition set_format (s : Schema) (f : value) : Schema :=
  mkSchema (schema_type s) f (schema_inclusion s).

(** A breadcrumb of compiled metadata: the text ['database_name'], or a
    tuple such as [()] and [('properties', name)]. *)
Inductive breadcrumb : Type :=
| BStr (s : string)
| BTuple (l : list string).

Definition list_eqb (l1 l2 : list string) : bool :=
  (Nat.eqb (List.length l1) (List.length l2))
  && forallb (fun p => String.eqb (fst p) (snd p)) (combine l1 l2).

Definition breadcrumb_eqb (a b : breadcrumb) : bool :=
  match a, b with
  | BStr s, BStr t => String.eqb s t
  | BTuple l1, BTuple l2 => list_eqb l1 l2
  | _, _ => false
  end.

Definition compiled : Type := list (breadcrumb * list (string * value)).

Fixpoint compiled_get (meta : compiled) (bc : breadcrumb)
  : option (list (string * value)) :=
  match meta with
  | [] => None
  | (b, md) :: meta' =>
      if breadcrumb_eqb b bc then Some md else compiled_get meta' bc
  end.

Fixpoint compiled_update (meta : compiled) (bc : breadcrumb) (k : string)
  (val : value) : compiled :=
  match meta with
  | [] => [(bc, [(k, val)])]
  | (b, md) :: meta' =>
      if breadcrumb_eqb b bc then (b, dict_set md k val) :: meta'
      else (b, md) :: compiled_update meta' bc k val
  end.

(** [metadata.write(compiled_metadata, breadcrumb, k, val)]: raises on a
    [None] value; otherwise updates the dict stored under the breadcrumb, or
    stores a new one. *)
Definition write (meta : compiled) (bc : breadcrumb) (k : string)
  (val : value) : res compiled :=
  match val with
  | VNone => Raise (PyException "")
  | _ => Ok (compiled_update meta bc k val)
  end.

(** A tuple is a list here: the program tests membership and subscripts
    it, and the JSON catalog stores it as an array. *)
Definition breadcrumb_value (bc : breadcrumb) : value :=
  match bc with
  | BStr s => VStr s
  | BTuple l => VList (map VStr l)
  end.

(** [metadata.to_list(compiled_metadata)] *)
Definition to_list (meta : compiled) : list value :=
  map (fun e => VDict [("breadcrumb", breadcrumb_value (fst e));
                       ("metadata", VDict (snd e))]) meta.

(** [singer.catalog.CatalogEntry] as the program fills it; [schema] is
    [Schema(type='object', properties=schema_cols)]. *)
Record CatalogEntry : Type := mkCatalogEntry {
  tap_stream_id : value;
  database : value;
  table : value;
  stream : value;
  metadata : list value;
  key_properties : list value;
  schema_properties : list (string * Schema)
}.

End Singer.

(* ================================================================= *)
(** ** class Airtable *)

Module Airtable.
Import Py Singer.

Definition pk_types : list string := ["autoNumber"].

(** *** Catalog builder *)

(** [discover_base], lines 107-110: the output column name of a field. *)
Definition field_name (airtable_field : value) : res value :=
  first <- getitem airtable_field (VInt 0) ;;
  digit <- isdigit first ;;
  if digit then str_add "c_" airtable_field else Ok airtable_field.

(** ["config" in field and "type" in field["config"]] *)
Definition has_config_type (field : value) : res bool :=
  has_config <- str_in "config" field ;;
  if has_config then
    config <- getkey field "config" ;;
    str_in "type" config
  else Ok false.

(** [field["config"]["type"]] *)
Definition config_type (field : value) : res value :=
  config <- getkey field "config" ;;
  getkey config "type".

Definition column_schema (col_info : value) : res Schema :=
  let date_types := ["dateTime"] in
  let number_types := ["number"; "autoNumber"] in
  has_type <- has_config_type col_info ;;
  air_type <- (if has_type then config_type col_info else Ok (VStr "string")) ;;
  let singer_type := if in_strs air_type number_types then "number" else "string" in
  let schema := mkSchema (VList [VStr "null"; VStr singer_type]) VNone VNone in
  let schema :=
    if in_strs air_type date_types then set_format schema (VStr "date-time")
    else schema in
  let schema :=
    if in_strs air_type ["date"] then set_format schema (VStr "date")
    else schema in
  Ok schema.

(** The body of [for field in table["fields"]], lines 104-126, on the pair
    of [schema_cols] and [meta]. *)
Definition discover_field (st : list (string * Schema) * compiled)
  (field : value) : res (list (string * Schema) * compiled) :=
  let '(schema_cols, meta) := st in
  airtable_field <- getkey field "name" ;;
  name <- field_name airtable_field ;;
  col_schema <- column_schema field ;;
  name <- as_key name ;;
  let schema_cols := dict_set schema_cols name col_schema in
  has_type <- has_config_type field ;;
  meta <- (if has_type then
             ty <- config_type field ;;
             if in_strs ty pk_types then
               write meta (BTuple ["properties"; name]) "inclusion"
                     (VStr "available")
             else Ok meta
           else Ok meta) ;;
  ty <- config_type field ;;
  meta <- write meta (BTuple ["properties"; name]) "airtable_type"
                (py_or ty VNone) ;;
  meta <- write meta (BTuple ["properties"; name]) "airtable_field"
                airtable_field ;;
  Ok (schema_cols, meta).

(** The body of [for table in response.json()["tables"]], lines 96-138. *)
Definition discover_table (base_id : string) (base_name : value)
  (table : value) : res CatalogEntry :=
  let schema_cols :=
    [("id", mkSchema (VList [VStr "null"; VStr "string"]) VNone
                     (VStr "automatic"))] in
  table_name <- getkey table "name" ;;
  let keys := [] in
  meta <- write [] (BTuple []) "inclusion" (VStr "available") ;;
  meta <- write meta (BStr "database_name") "base_id" (VStr base_id) ;;
  fields <- getkey table "fields" ;;
  fields <- iterate fields ;;
  st <- foldM discover_field (schema_cols, meta) fields ;;
  let '(schema_cols, meta) := st in
  id <- getkey table "id" ;;
  Ok (mkCatalogEntry id (py_or base_name (VStr base_id)) table_name table_name
                     (to_list meta) keys schema_cols).

(** [discover_base] on the body of the metadata response. *)
Definition discover_base (body : value) (base_id : string) (base_name : value)
  : res (list CatalogEntry) :=
  tables <- getkey body "tables" ;;
  tables <- iterate tables ;;
  mapM (discover_table base_id base_name) tables.

(** *** Selection resolver *)

Definition _find_base_id (schema : value) : res value :=
  metadata <- getkey schema "metadata" ;;
  metadata <- iterate metadata ;;
  (fix scan (ms : list value) : res value :=
     match ms with
     | [] => Raise (PyException "catalog schema is missing base id")
     | m :: ms' =>
         has_bc <- str_in "breadcrumb" m ;;
         hit <- (if has_bc then
                   bc <- getkey m "breadcrumb" ;; Ok (eq_str bc "database_name")
                 else Ok false) ;;
         if hit then
           md <- getkey m "metadata" ;; getkey md "base_id"
         else scan ms'
     end) metadata.

(** ["selected" in m["metadata"] and m["metadata"]["selected"] and
    "airtable_field" in m["metadata"]] *)
Definition selected_with_field (m : value) : res bool :=
  md <- getkey m "metadata" ;;
  has_selected <- str_in "selected" md ;;
  if has_selected then
    md <- getkey m "metadata" ;;
    selected <- getkey md "selected" ;;
    if truthy selected then
      md <- getkey m "metadata" ;;
      str_in "airtable_field" md
    else Ok false
  else Ok false.

(** The body of the loop of [_find_selected_columns] on the pair of
    [selected_cols] and [airtable_fields]. *)
Definition select_column (schema : value)
  (acc : list (string * value) * list value) (m : value)
  : res (list (string * value) * list value) :=
  let '(selected_cols, airtable_fields) := acc in
  bc <- getkey m "breadcrumb" ;;
  is_property <- str_in "properties" bc ;;
  if negb is_property then Ok acc
  else
    pick <- selected_with_field m ;;
    if pick then
      bc <- getkey m "breadcrumb" ;;
      column_name <- getitem bc (VInt 1) ;;
      md <- getkey m "metadata" ;;
      airtable_field <- getkey md "airtable_field" ;;
      sch <- getkey schema "schema" ;;
      properties <- getkey sch "properties" ;;
      fragment <- getitem properties column_name ;;
      key <- as_key column_name ;;
      Ok (dict_set selected_cols key fragment,
          (airtable_fields ++ [airtable_field])%list)
    else Ok acc.

Definition _find_selected_columns (schema : value)
  : res (list (string * value) * list value) :=
  metadata <- getkey schema "metadata" ;;
  metadata <- iterate metadata ;;
  foldM (select_column schema) ([], []) metadata.

(** ["breadcrumb" in m and "properties" in m["breadcrumb"] and
    m["breadcrumb"][1] == col] *)
Definition annotates (m : value) (col : string) : res bool :=
  has_bc <- str_in "breadcrumb" m ;;
  if has_bc then
    bc <- getkey m "breadcrumb" ;;
    is_property <- str_in "properties" bc ;;
    if is_property then
      bc <- getkey m "breadcrumb" ;;
      name <- getitem bc (VInt 1) ;;
      Ok (eq_str name col)
    else Ok false
  else Ok false.

(** ["metadata" in m and "airtable_field" in m["metadata"]] *)
Definition has_airtable_field (m : value) : res bool :=
  has_md <- str_in "metadata" m ;;
  if has_md then
    md <- getkey m "metadata" ;;
    str_in "airtable_field" md
  else Ok false.

Fixpoint find_column_in (col : string) (ms : list value) : res value :=
  match ms with
  | [] => Ok VNone
  | m :: ms' =>
      hit <- annotates m col ;;
      if hit then
        has_field <- has_airtable_field m ;;
        if has_field then
          md <- getkey m "metadata" ;; getkey md "airtable_field"
        else Ok VNone
      else find_column_in col ms'
  end.

Definition _find_column (col : string) (meta_data : value) : res value :=
  ms <- iterate meta_data ;;
  find_column_in col ms.

(** *** Record mapper *)

Definition cast_type (val requested_type : value) : value :=
  if eq_str requested_type "string" && negb (is_str val) then
    match val with
    | VFloat r => VStr r
    | VInt n => VStr (str_of_int n)
    | _ => VStr (json_dumps val)
    end
  else val.

(** Lines 242-248: the value computed for column [col] of record [r]. *)
Definition column_value (schema metadata r col : value) : res value :=
  col_def <- getitem schema col ;;
  ty <- getkey col_def "type" ;;
  requested_type <- getitem ty (VInt 1) ;;
  name <- as_key col ;;
  found <- _find_column name metadata ;;
  let col_name := py_or found col in
  fields <- getkey r "fields" ;;
  val <- get_method fields col_name ;;
  match val with
  | VNone => Ok VNone
  | _ => Ok (cast_type val requested_type)
  end.

(** The body of [for col in schema], ending in [row[col] = val]. *)
Definition map_column (schema metadata r : value)
  (row : list (string * value)) (col : value) : res (list (string * value)) :=
  val <- column_value schema metadata r col ;;
  name <- as_key col ;;
  Ok (dict_set row name val).

(** The body of [for r in records]. *)
Definition map_record (schema metadata r : value) : res value :=
  cols <- iterate schema ;;
  row <- foldM (map_column schema metadata r) [] cols ;;
  id <- getkey r "id" ;;
  Ok (VDict (dict_set row "id" id)).

Definition _map_records (stream records : value) : res (list value) :=
  sch <- getkey stream "schema" ;;
  schema <- getkey sch "properties" ;;
  metadata <- getkey stream "metadata" ;;
  records <- iterate records ;;
  mapM (map_record schema metadata) records.

(** *** Sync driver *)

(** What one run of sync does to the outside: page requests to the upstream
    API and the two calls of the stream writer.  (Log lines are left out.) *)
Record request : Type := mkRequest {
  req_base : value;
  req_table : string;
  req_params : list (string * value);
  req_counter : nat
}.

Record response : Type := mkResponse {
  status_code : Z;
  body : option value
}.

(** [init_session], lines 13-22: the adapters mounted on the session repeat
    a request whose answer has a status of [status_forcelist], up to ten
    times, and end the call with [RetryError] when the last answer still
    has one. *)
Definition status_forcelist : list Z := [500; 502; 503; 504; 429]%Z.

(** [cls.session.get(...)] seen from its caller, given the answer that
    ended the call: a status of the force list there means the repetitions
    ran out. *)
Definition session_result (r : response) : res response :=
  if existsb (Z.eqb (status_code r)) status_forcelist
  then Raise RetryError
  else Ok r.

Inductive event : Type :=
| Get (r : request)
| WriteSchema (stream_name : string) (schema : value) (key_properties : value)
| WriteRecords (stream_name : string) (records : list value).

(** The outcome of a run with its events.  [OutOfFuel] is the embedding's
    bound on the iterations of [while offset], not a Python exception. *)
Inductive outcome (A : Type) : Type :=
| Done (a : A)
| Failed (e : exn)
| OutOfFuel.

Arguments Done {A} a.
Arguments Failed {A} e.
Arguments OutOfFuel {A}.

Definition io (A : Type) : Type := list event * outcome A.

Definition io_bind {A B} (c : io A) (k : A -> io B) : io B :=
  match snd c with
  | Done a => ((fst c ++ fst (k a))%list, snd (k a))
  | Failed e => (fst c, Failed e)
  | OutOfFuel => (fst c, OutOfFuel)
  end.

Notation "x <~ c ;; k" := (io_bind c (fun x => k))
  (at level 61, c at next level, right associativity).

Definition lift {A} (r : res A) : io A :=
  match r with
  | Ok a => ([], Done a)
  | Raise e => ([], Failed e)
  end.

Definition emit (e : event) : io unit := ([e], Done tt).

Section Sync.
(** [slugify] of python-slugify, the configured [records_url], and the
    responses of the upstream API in this run: [responses n] is the answer
    that ends the call of [session.get] with page counter [n], after the
    session's own repetitions of the request. *)
Variable slugify : string -> string.
Variable records_url : string.
Variable responses : nat -> response.

Definition get_response (base_id : value) (table : string)
  (fields : list value) (offset : value) (counter : nat) : io response :=
  base <~ lift (str_add records_url base_id) ;;
  let params :=
    ((if truthy (VList fields) then [("fields[]", VList fields)] else [])
     ++ (if truthy offset then [("offset", offset)] else []))%list in
  _ <~ emit (Get (mkRequest base table params counter)) ;;
  response <~ lift (session_result (responses counter)) ;;
  if ((400 <=? status_code response) && (status_code response <? 600))%Z
  then lift (Raise (HTTPError (status_code response)))
  else lift (Ok response).

(** [response.json().get(key)] *)
Definition json_get (r : response) (key : string) : res value :=
  match body r with
  | Some v => get_method v (VStr key)
  | None => Raise JSONDecodeError
  end.

(** [while offset: ...], lines 226-232; one unit of fuel per iteration. *)
Fixpoint paginate (fuel : nat) (stream : value) (base_id : value)
  (table table_slug : string) (fields : list value) (offset : value)
  (counter : nat) : io unit :=
  if truthy offset then
    match fuel with
    | O => ([], OutOfFuel)
    | S fuel' =>
        let counter := S counter in
        response <~ get_response base_id table fields offset counter ;;
        records <~ lift (json_get response "records") ;;
        if truthy records then
          rows <~ lift (_map_records stream records) ;;
          _ <~ emit (WriteRecords table_slug rows) ;;
          offset <~ lift (json_get response "offset") ;;
          paginate fuel' stream base_id table table_slug fields offset counter
        else
          paginate fuel' stream base_id table table_slug fields offset counter
    end
  else ([], Done tt).

(** The body of [for stream in streams], lines 206-232. *)
Definition sync_stream (fuel : nat) (stream : value) : io unit :=
  sch <~ lift (getkey stream "schema") ;;
  schema <~ lift (getkey sch "properties") ;;
  base_id <~ lift (_find_base_id stream) ;;
  table <~ lift (getkey stream "table_name") ;;
  table <~ lift (as_key table) ;;
  let table_slug := slugify table in
  selection <~ lift (_find_selected_columns stream) ;;
  let '(col_defs, fields) := selection in
  let counter := O in
  response <~ get_response base_id table fields VNone counter ;;
  records <~ lift (json_get response "records") ;;
  if truthy records then
    id_schema <~ lift (getkey schema "id") ;;
    let col_schema := dict_set col_defs "id" id_schema in
    key_properties <~ lift (getkey stream "key_properties") ;;
    _ <~ emit (WriteSchema table_slug (VDict [("properties", VDict col_schema)])
                           key_properties) ;;
    rows <~ lift (_map_records stream records) ;;
    _ <~ emit (WriteRecords table_slug rows) ;;
    offset <~ lift (json_get response "offset") ;;
    paginate fuel stream base_id table table_slug fields offset counter
  else ([], Done tt).
End Sync.

(** *** Discovery run *)

(** The class attributes that the configuration sets. *)
Record settings : Type := mkSettings {
  cls_metadata_url : value;
  cls_records_url : value;
  cls_selected_by_default : value;
  cls_remove_emojis : value;
  cls_token : value
}.

Definition class_defaults : settings :=
  mkSettings (VStr "https://api.airtable.com/v2/meta/")
             (VStr "https://api.airtable.com/v0/")
             (VBool false) (VBool false) VNone.

(** [if key in config: cls.attribute = config[key]] *)
Definition override (config : value) (key : string) (current : value)
  : res value :=
  present <- str_in key config ;;
  if present then getkey config key else Ok current.

Definition __apply_config (s : settings) (config : value) : res settings :=
  metadata_url <- override config "metadata_url" (cls_metadata_url s) ;;
  records_url <- override config "records_url" (cls_records_url s) ;;
  selected_by_default <-
    override config "selected_by_default" (cls_selected_by_default s) ;;
  remove_emojis <- override config "remove_emojis" (cls_remove_emojis s) ;;
  token <- getkey config "token" ;;
  Ok (mkSettings metadata_url records_url selected_by_default remove_emojis
                 token).

(** A request to the metadata API: its URL, and the token that
    [__get_auth_header] puts after [Bearer] in the Authorization header. *)
Record meta_request : Type := mkMetaRequest {
  meta_url : value;
  meta_token : value
}.

(** A step of a discovery run: from the number of requests made so far to
    the requests it makes and its result with the new number. *)
Definition disc (A : Type) : Type := nat -> list meta_request * res (A * nat).

Definition disc_ret {A} (a : A) : disc A := fun n => ([], Ok (a, n)).

Definition disc_bind {A B} (c : disc A) (k : A -> disc B) : disc B :=
  fun n =>
    match snd (c n) with
    | Ok (a, n') => ((fst (c n) ++ fst (k a n'))%list, snd (k a n'))
    | Raise e => (fst (c n), Raise e)
    end.

Notation "x <-- c ;; k" := (disc_bind c (fun x => k))
  (at level 61, c at next level, right associativity).

Definition disc_lift {A} (r : res A) : disc A :=
  fun n => ([], match r with
                | Ok a => Ok (a, n)
                | Raise e => Raise e
                end).

(** [response.raise_for_status()] *)
Definition raise_for_status (r : response) : res unit :=
  if ((400 <=? status_code r) && (status_code r <? 600))%Z
  then Raise (HTTPError (status_code r))
  else Ok tt.

(** [response.json()] *)
Definition json (r : response) : res value :=
  match body r with
  | Some v => Ok v
  | None => Raise JSONDecodeError
  end.

Section Discovery.
(** The responses of the metadata API in this run: [meta_responses n] is
    the answer that ends the call of [session.get] made after [n] others,
    after the session's own repetitions of the request. *)
Variable meta_responses : nat -> response.

(** [cls.session.get(url, headers=cls.__get_auth_header())] *)
Definition session_get (url token : value) : disc response :=
  fun n => ([mkMetaRequest url token],
            match session_result (meta_responses n) with
            | Ok response => Ok (response, S n)
            | Raise e => Raise e
            end).

Definition __get_base_ids (s : settings) : disc (list (value * value)) :=
  response <-- session_get (cls_metadata_url s) (cls_token s) ;;
  _ <-- disc_lift (raise_for_status response) ;;
  content <-- disc_lift (json response) ;;
  bases <-- disc_lift (getkey content "bases") ;;
  bases <-- disc_lift (iterate bases) ;;
  disc_lift (mapM (fun base => id <- getkey base "id" ;;
                               name <- getkey base "name" ;;
                               Ok (id, name)) bases).

(** [discover_base] with its request, lines 85-88. *)
Definition discover_base_request (s : settings) (base_id base_name : value)
  : disc (list CatalogEntry) :=
  _ <-- disc_lift (str_add "discover base " base_id) ;;
  url <-- disc_lift (match cls_metadata_url s with
                     | VStr u => str_add u base_id
                     | _ => Raise TypeError
                     end) ;;
  response <-- session_get url (cls_token s) ;;
  _ <-- disc_lift (raise_for_status response) ;;
  content <-- disc_lift (json response) ;;
  disc_lift (discover_base content
                           (match base_id with VStr b => b | _ => "" end)
                           base_name).

(** [for base_id in args.config["base_ids"]: entries.extend(...)] *)
Fixpoint discover_given (s : settings) (base_ids : list value)
  (entries : list CatalogEntry) : disc (list CatalogEntry) :=
  match base_ids with
  | [] => disc_ret entries
  | base_id :: rest =>
      found <-- discover_base_request s base_id VNone ;;
      discover_given s rest (entries ++ found)%list
  end.

(** [for base in bases: entries.extend(...); if validate_only: break] *)
Fixpoint discover_listed (s : settings) (config : value)
  (bases : list (value * value)) (entries : list CatalogEntry)
  : disc (list CatalogEntry) :=
  match bases with
  | [] => disc_ret entries
  | (id, name) :: rest =>
      found <-- discover_base_request s id name ;;
      validate_only <-- disc_lift (get_method config (VStr "validate_only")) ;;
      if truthy validate_only then disc_ret (entries ++ found)%list
      else discover_listed s config rest (entries ++ found)%list
  end.

(** [run_discovery] up to [Catalog(entries).dump()]: the entries of the
    catalog. *)
Definition run_discovery (config : value) : disc (list CatalogEntry) :=
  s <-- disc_lift (__apply_config class_defaults config) ;;
  explicit <-- disc_lift (str_in "base_ids" config) ;;
  if explicit then
    base_ids <-- disc_lift (getkey config "base_ids") ;;
    base_ids <-- disc_lift (iterate base_ids) ;;
    discover_given s base_ids []
  else
    bases <-- __get_base_ids s ;;
    discover_listed s config bases [].
End Discovery.

End Airtable.

(* ================================================================= *)
(** ** The vocabulary of the specification and sample inputs *)

Module Spec.
Import Py Singer Airtable.

(** *** Catalog builder *)

(** A field definition: a JSON object whose [config], when present, is a
    JSON object. *)
Definition field_definition (f : list (string * value)) : bool :=
  match dict_get f "config" with
  | None => true
  | Some (VDict _) => true
  | Some _ => false
  end.

(** The source-type tag of a field definition, when it has one. *)
Definition source_type_tag (f : list (string * value)) : option value :=
  match dict_get f "config" with
  | Some (VDict config) => dict_get config "type"
  | _ => None
  end.

Definition declared (ty : string) (format : value) : Schema :=
  mkSchema (VList [VStr "null"; VStr ty]) format VNone.

(** "The name starts with a digit": it has a first character, and
    [str.isdigit] holds of it. *)
Definition starts_with_digit (name : string) : bool :=
  match name with
  | EmptyString => false
  | String c _ => isdigit_char c
  end.

Definition field (name : string) (ty : string) : value :=
  VDict [("name", VStr name); ("config", VDict [("type", VStr ty)])].

Definition untyped_field : value :=
  VDict [("name", VStr "Notes"); ("config", VDict [])].

Definition table_of (fields : list value) : value :=
  VDict [("id", VStr "tbl1"); ("name", VStr "Orders"); ("fields", VList fields)].

Definition id_schema : Schema :=
  mkSchema (VList [VStr "null"; VStr "string"]) VNone (VStr "automatic").

(** No field of the table is itself named [id]. *)
Definition not_named_id (f : value) : bool :=
  match getkey f "name" with
  | Ok name => negb (eq_str name "id")
  | Raise _ => true
  end.

Definition no_id_field (table : value) : bool :=
  match getkey table "fields" with
  | Ok fields => match iterate fields with
                 | Ok fs => forallb not_named_id fs
                 | Raise _ => true
                 end
  | Raise _ => true
  end.

(** A field as the metadata endpoint describes it: a non-empty name and a
    config with a type tag that is not null or empty. *)
Definition typed_field (f : value) : bool :=
  match f with
  | VDict d =>
      match dict_get d "name", source_type_tag d with
      | Some (VStr name), Some tag => negb (String.eqb name "") && truthy tag
      | _, _ => false
      end
  | _ => false
  end.

Definition well_formed_table (t : value) : bool :=
  match t with
  | VDict d =>
      match dict_get d "name", dict_get d "id", dict_get d "fields" with
      | Some _, Some _, Some (VList fs) => forallb typed_field fs
      | _, _, _ => false
      end
  | _ => false
  end.

Definition table_with_id_field : value :=
  table_of [field "id" "autoNumber"; field "Amount" "number"].

(** *** Selection resolver *)

(** The annotation marks the column selected (a truthy [selected]). *)
Definition marked_selected (md : list (string * value)) : bool :=
  match dict_get md "selected" with
  | Some v => truthy v
  | None => false
  end.

(** The annotation records a source-field-name. *)
Definition records_source_field (md : list (string * value)) : bool :=
  dict_has md "airtable_field".

(** [m] is the annotation entry of output column [c], with annotations
    [md]: its breadcrumb is a [properties] breadcrumb that names [c]. *)
Definition column_annotation (m : value) (c : string)
  (md : list (string * value)) : Prop :=
  exists e bc,
    m = VDict e
    /\ dict_get e "breadcrumb" = Some bc
    /\ str_in "properties" bc = Ok true
    /\ getitem bc (VInt 1) = Ok (VStr c)
    /\ dict_get e "metadata" = Some (VDict md).

(** An entry of the metadata list of a stream with columns [props]: a
    breadcrumb and a metadata object; a [properties] breadcrumb names a
    column, which is one of [props] when the entry selects it. *)
Definition annotation_entry (props : list (string * value)) (m : value) : bool :=
  match m with
  | VDict e =>
      match dict_get e "breadcrumb", dict_get e "metadata" with
      | Some bc, Some (VDict md) =>
          match str_in "properties" bc with
          | Ok false => true
          | Ok true =>
              match getitem bc (VInt 1) with
              | Ok (VStr c) =>
                  negb (marked_selected md && records_source_field md)
                  || dict_has props c
              | _ => false
              end
          | Raise _ => false
          end
      | _, _ => false
      end
  | _ => false
  end.

Definition metadata_of (s : value) : list value :=
  match getkey s "metadata" with
  | Ok (VList ms) => ms
  | _ => []
  end.

Definition properties_of (s : value) : list (string * value) :=
  match getkey s "schema" with
  | Ok sch => match getkey sch "properties" with
              | Ok (VDict props) => props
              | _ => []
              end
  | Raise _ => []
  end.

(** A stream descriptor: a metadata list of annotation entries and a schema
    with its [properties]. *)
Definition stream_descriptor (s : value) : bool :=
  match s with
  | VDict d =>
      match dict_get d "metadata", dict_get d "schema" with
      | Some (VList ms), Some (VDict sch) =>
          match dict_get sch "properties" with
          | Some (VDict props) => forallb (annotation_entry props) ms
          | _ => false
          end
      | _, _ => false
      end
  | _ => false
  end.

Definition string_column : value :=
  VDict [("type", VList [VStr "null"; VStr "string"])].

Definition number_column : value :=
  VDict [("type", VList [VStr "null"; VStr "number"])].

Definition annotation (column : string) (md : list (string * value)) : value :=
  VDict [("breadcrumb", VList [VStr "properties"; VStr column]);
         ("metadata", VDict md)].

(** The catalog entry of a table with fields [Amount] and [1Code], with
    only [Amount] selected. *)
Definition orders_stream : value :=
  VDict
    [("table_name", VStr "Orders");
     ("key_properties", VList []);
     ("schema",
      VDict [("properties",
              VDict [("id", string_column); ("Amount", number_column);
                     ("c_1Code", string_column)])]);
     ("metadata",
      VList
        [VDict [("breadcrumb", VList []);
                ("metadata", VDict [("inclusion", VStr "available")])];
         VDict [("breadcrumb", VStr "database_name");
                ("metadata", VDict [("base_id", VStr "app1")])];
         annotation "Amount"
           [("airtable_type", VStr "number");
            ("airtable_field", VStr "Amount"); ("selected", VBool true)];
         annotation "c_1Code"
           [("airtable_type", VStr "singleLineText");
            ("airtable_field", VStr "1Code")]])].

(** *** Record mapper *)

(** The columns of the declared schema of a stream, in schema order. *)
Definition schema_columns (s : value) : list value :=
  match getkey s "schema" with
  | Ok sch => match getkey sch "properties" with
              | Ok props => match iterate props with
                            | Ok cols => cols
                            | Raise _ => []
                            end
              | Raise _ => []
              end
  | Raise _ => []
  end.

(** The value of column [col] when the raw value is read from the record's
    fields under the name [source]. *)
Definition read_under (schema r : value) (col : string) (source : value)
  : res value :=
  col_def <- getitem schema (VStr col) ;;
  ty <- getkey col_def "type" ;;
  requested_type <- getitem ty (VInt 1) ;;
  fields <- getkey r "fields" ;;
  val <- get_method fields source ;;
  match val with
  | VNone => Ok VNone
  | _ => Ok (cast_type val requested_type)
  end.

(** A schema fragment with a declared type: [type] holds a second entry. *)
Definition column_def (cd : value) : bool :=
  match cd with
  | VDict c => match dict_get c "type" with
               | Some ty => match getitem ty (VInt 1) with
                            | Ok _ => true
                            | Raise _ => false
                            end
               | None => false
               end
  | _ => false
  end.

(** The source-field-name an entry records, if any, is a text. *)
Definition text_source_field (m : value) : bool :=
  match m with
  | VDict e => match dict_get e "metadata" with
               | Some (VDict md) => match dict_get md "airtable_field" with
                                    | Some (VStr _) | None => true
                                    | Some _ => false
                                    end
               | _ => true
               end
  | _ => true
  end.

(** A stream descriptor the mapper can work on. *)
Definition mappable_stream (s : value) : bool :=
  stream_descriptor s
  && forallb (fun kv => column_def (snd kv)) (properties_of s)
  && forallb text_source_field (metadata_of s).

(** A raw record: an [id] and an object of [fields]. *)
Definition raw_record (r : value) : bool :=
  match r with
  | VDict d => match dict_get d "id", dict_get d "fields" with
               | Some _, Some (VDict _) => true
               | _, _ => false
               end
  | _ => false
  end.

Definition record (id : string) (fields : list (string * value)) : value :=
  VDict [("id", VStr id); ("fields", VDict fields)].

(** The catalog entry of a table that has a field named [id], selected. *)
Definition stream_with_id_field : value :=
  VDict
    [("table_name", VStr "Orders");
     ("key_properties", VList []);
     ("schema",
      VDict [("properties",
              VDict [("id", string_column); ("Amount", number_column)])]);
     ("metadata",
      VList
        [VDict [("breadcrumb", VList []);
                ("metadata", VDict [("inclusion", VStr "available")])];
         VDict [("breadcrumb", VStr "database_name");
                ("metadata", VDict [("base_id", VStr "app1")])];
         annotation "id"
           [("airtable_type", VStr "singleLineText");
            ("airtable_field", VStr "id"); ("selected", VBool true)];
         annotation "Amount"
           [("airtable_type", VStr "number");
            ("airtable_field", VStr "Amount"); ("selected", VBool true)]])].

Definition records_of (records : value) : list value :=
  match iterate records with
  | Ok rs => rs
  | Raise _ => []
  end.

(** A raw value that is absent from the record's fields or null there. *)
Definition absent_or_null (fd : list (string * value)) (source : string) : Prop :=
  dict_get fd source = None \/ dict_get fd source = Some VNone.

(** A catalog entry whose column [Notes] has no annotation entry. *)
Definition stream_without_annotation : value :=
  VDict
    [("table_name", VStr "Orders");
     ("key_properties", VList []);
     ("schema",
      VDict [("properties",
              VDict [("id", string_column); ("Notes", string_column)])]);
     ("metadata",
      VList
        [VDict [("breadcrumb", VList []);
                ("metadata", VDict [("inclusion", VStr "available")])];
         VDict [("breadcrumb", VStr "database_name");
                ("metadata", VDict [("base_id", VStr "app1")])]])].

(** *** Sync driver *)

Definition page (records : list value) (offset : value) : response :=
  mkResponse 200 (Some (VDict [("records", VList records); ("offset", offset)])).

Definition last_page (records : list value) : response :=
  mkResponse 200 (Some (VDict [("records", VList records)])).

(** An upstream that answers the first request with one record and a
    continuation token, and every later request with an empty page that
    carries a token. *)
Definition stalled_api (n : nat) : response :=
  match n with
  | O => page [record "rec1" [("Amount", VInt 10)]] (VStr "itr1")
  | S _ => page [] (VStr "itr2")
  end.

(** Two records and a token, then one record and no token. *)
Definition two_pages_api (n : nat) : response :=
  match n with
  | O => page [record "rec1" [("Amount", VInt 10)];
               record "rec2" [("Amount", VInt 20)]] (VStr "itr1")
  | S _ => last_page [record "rec3" [("Amount", VInt 30)]]
  end.

(** The page request of [orders_stream] with the given parameters. *)
Definition orders_request (records_url : string) (offset : list (string * value))
  (counter : nat) : request :=
  mkRequest (VStr (records_url ++ "app1")) "Orders"
            (("fields[]", VList [VStr "Amount"]) :: offset) counter.

Definition orders_schema : value :=
  VDict [("properties",
          VDict [("Amount", number_column); ("id", string_column)])].

Definition orders_row (id : string) (amount : Z) : value :=
  VDict [("id", VStr id); ("Amount", VInt amount); ("c_1Code", VNone)].

(** The page requests the loop keeps issuing against [stalled_api]. *)
Definition retries (records_url : string) (first count : nat) : list event :=
  map (fun n => Get (orders_request records_url [("offset", VStr "itr1")] n))
      (seq first count).

(** *** Vocabulary for the catalog that discovery produces *)

(** The output column name of a field definition. *)
Definition output_name (f : value) : res value :=
  name <- getkey f "name" ;;
  field_name name.

(** The breadcrumb of the annotations of column [c]. *)
Definition column_breadcrumb (c : string) : breadcrumb :=
  BTuple ["properties"; c].

(** The breadcrumbs discovery writes under. *)
Definition catalog_breadcrumb (bc : breadcrumb) : bool :=
  match bc with
  | BStr s => String.eqb s "database_name"
  | BTuple [] => true
  | BTuple [p; _] => String.eqb p "properties"
  | BTuple _ => false
  end.

(** The annotation stored under [k] for column [c] in compiled metadata. *)
Definition column_annotation_of (meta : compiled) (c k : string) : value :=
  match compiled_get meta (column_breadcrumb c) with
  | Some md => match dict_get md k with
               | Some v => v
               | None => VNone
               end
  | None => VNone
  end.

(** The field definitions of a table, in source order. *)
Definition table_fields (table : value) : list value :=
  match getkey table "fields" with
  | Ok fields => match iterate fields with
                 | Ok fs => fs
                 | Raise _ => []
                 end
  | Raise _ => []
  end.

(** A stream descriptor that carries the metadata of a catalog entry. *)
Definition carries_metadata (stream : value) (e : CatalogEntry) : Prop :=
  getkey stream "metadata" = Ok (VList (metadata e)).

Definition two_field_table : value :=
  table_of [field "Amount" "number"; field "1Code" "singleLineText"].

(** Two fields with the same output column name [c_1Code]. *)
Definition colliding_table : value :=
  table_of [field "c_1Code" "number"; field "1Code" "singleLineText"].

(** A metadata entry that is a JSON object and does not carry the
    [database_name] breadcrumb. *)
Definition other_entry (m : value) : bool :=
  match m with
  | VDict e => match dict_get e "breadcrumb" with
               | Some bc => negb (eq_str bc "database_name")
               | None => true
               end
  | _ => false
  end.

(** *** Vocabulary for the list of selected source fields *)

(** The source-field-name a metadata entry contributes to the selection,
    if it selects a column. *)
Definition selecting_entry (m : value) : option value :=
  match m with
  | VDict e =>
      match dict_get e "breadcrumb", dict_get e "metadata" with
      | Some bc, Some (VDict md) =>
          match str_in "properties" bc with
          | Ok true => if marked_selected md
                       then dict_get md "airtable_field" else None
          | _ => None
          end
      | _, _ => None
      end
  | _ => None
  end.

Definition selected_source_fields (ms : list value) : list value :=
  flat_map (fun m => match selecting_entry m with
                     | Some fld => [fld]
                     | None => []
                     end) ms.

(** *** Vocabulary for runs of the sync driver *)

(** The steps of [sync_stream] before its first request succeed: the schema
    is there, the base id and the table name are texts, and the selection
    resolves to [cols] and [fields]. *)
Definition sync_ready (stream schema : value) (base table : string)
  (cols : list (string * value)) (fields : list value) : Prop :=
  (exists sch, getkey stream "schema" = Ok sch
               /\ getkey sch "properties" = Ok schema)
  /\ _find_base_id stream = Ok (VStr base)
  /\ getkey stream "table_name" = Ok (VStr table)
  /\ _find_selected_columns stream = Ok (cols, fields).

(** The statuses [raise_for_status] raises on. *)
Definition error_status (r : response) : bool :=
  ((400 <=? status_code r) && (status_code r <? 600))%Z.

(** The statuses the session repeats a request on, and gives up on when
    the last answer still has one. *)
Definition gave_up (r : response) : bool :=
  existsb (Z.eqb (status_code r)) status_forcelist.

(** The request for one page: the fields when some are selected, the token
    when there is one. *)
Definition page_request (records_url base table : string)
  (fields : list value) (token : value) (counter : nat) : request :=
  mkRequest (VStr (records_url ++ base)) table
            ((if truthy (VList fields) then [("fields[]", VList fields)] else [])
             ++ (if truthy token then [("offset", token)] else []))%list
            counter.

(** A response that carries records, mapped to [rows], and the continuation
    token [token] (null when the response has none). *)
Definition page_ok (stream : value) (r : response) (rows : list value)
  (token : value) : Prop :=
  error_status r = false
  /\ exists records,
      json_get r "records" = Ok records
      /\ truthy records = true
      /\ _map_records stream records = Ok rows
      /\ json_get r "offset" = Ok token.

(** The events of pages [first], ..., [first + count - 1]: each is requested
    with the token of the page before it and its rows are written. *)
Definition later_pages (records_url base table table_slug : string)
  (fields : list value) (rows : nat -> list value) (tokens : nat -> value)
  (first count : nat) : list event :=
  flat_map (fun k =>
              [Get (page_request records_url base table fields
                                 (tokens (Nat.pred k)) k);
               WriteRecords table_slug (rows k)])
           (seq first count).

(** A trace in order: the schema is registered at most once, and records
    are written only after it. *)
Fixpoint ordered (registered : bool) (t : list event) : bool :=
  match t with
  | [] => true
  | Get _ :: t' => ordered registered t'
  | WriteSchema _ _ _ :: t' => negb registered && ordered true t'
  | WriteRecords _ _ :: t' => registered && ordered registered t'
  end.

(** A trace that registers no schema. *)
Definition quiet (t : list event) : bool :=
  forallb (fun ev => match ev with WriteSchema _ _ _ => false | _ => true end) t.

(** *** Vocabulary for discovery runs *)

(** The value the configuration gives a setting: the configured one, or
    else the default. *)
Definition configured (d : list (string * value)) (key : string)
  (default : value) : value :=
  match dict_get d key with
  | Some v => v
  | None => default
  end.

(** The settings a configuration object with token [token] leaves. *)
Definition settings_of (d : list (string * value)) (token : value) : settings :=
  mkSettings
    (configured d "metadata_url" (cls_metadata_url class_defaults))
    (configured d "records_url" (cls_records_url class_defaults))
    (configured d "selected_by_default" (cls_selected_by_default class_defaults))
    (configured d "remove_emojis" (cls_remove_emojis class_defaults))
    token.

(** The request for the metadata of base [b]. *)
Definition base_request (metadata_url : string) (token : value) (b : string)
  : meta_request :=
  mkMetaRequest (VStr (metadata_url ++ b)) token.

Definition bases_response (bases : list value) : response :=
  mkResponse 200 (Some (VDict [("bases", VList bases)])).

Definition tables_response (tables : list value) : response :=
  mkResponse 200 (Some (VDict [("tables", VList tables)])).

Definition base (id name : string) : value :=
  VDict [("id", VStr id); ("name", VStr name)].

(** An upstream that lists two bases and then answers with one table. *)
Definition two_bases_api (n : nat) : response :=
  match n with
  | O => bases_response [base "app1" "Sales"; base "app2" "Stock"]
  | S _ => tables_response [two_field_table]
  end.

(* SPEC-DEFINITIONS-END *)
End Spec.

(* ================================================================= *)
(** ** Facts about the Python operations *)

Module PyFacts.
Import Py.

Lemma bind_Ok {A B} (c : res A) (k : A -> res B) (b : B) :
  bind c k = Ok b -> exists a, c = Ok a /\ k a = Ok b.
Proof.
  destruct c as [a|e]; simpl; intros H; [eauto | discriminate].
Qed.

Ltac inv_bind H :=
  repeat match type of H with
         | bind _ _ = Ok _ =>
             let a := fresh "a" in
             let Ha := fresh "H" a in
             apply bind_Ok in H; destruct H as (a & Ha & H); cbv beta in H
         end.

Lemma getkey_dict (d : list (string * value)) (k : string) (v : value) :
  dict_get d k = Some v -> getkey (VDict d) k = Ok v.
Proof. unfold getkey, getitem. now intros ->. Qed.

Section DictFacts.
Context {V : Type}.
Implicit Types (d : list (string * V)) (k : string) (v : V).

Lemma dict_get_set_same d k v : dict_get (dict_set d k v) k = Some v.
Proof.
  induction d as [|[k' v'] d IH]; simpl.
  - now rewrite String.eqb_refl.
  - destruct (String.eqb k' k) eqn:E; simpl; rewrite E; auto.
Qed.

Lemma dict_get_set_other d k k' v :
  k <> k' -> dict_get (dict_set d k v) k' = dict_get d k'.
Proof.
  intros Hne. induction d as [|[k0 v0] d IH]; simpl.
  - apply String.eqb_neq in Hne. now rewrite Hne.
  - destruct (String.eqb k0 k) eqn:E; simpl.
    + apply String.eqb_eq in E. subst k0.
      apply String.eqb_neq in Hne. now rewrite Hne.
    + now rewrite IH.
Qed.

Lemma dict_has_set d k k' v :
  dict_has (dict_set d k v) k' = String.eqb k k' || dict_has d k'.
Proof.
  unfold dict_has. destruct (String.eqb k k') eqn:E.
  - apply String.eqb_eq in E. subst. now rewrite dict_get_set_same.
  - apply String.eqb_neq in E. now rewrite dict_get_set_other.
Qed.
End DictFacts.

Lemma foldM_invariant {A B} (P : A -> Prop) (Q : B -> Prop)
  (body : A -> B -> res A) :
  (forall a b a', P a -> Q b -> body a b = Ok a' -> P a') ->
  forall xs a a', Forall Q xs -> P a -> foldM body a xs = Ok a' -> P a'.
Proof.
  intros Hstep xs. induction xs as [|x xs IH]; simpl; intros a a' HQ HP H.
  - now injection H as <-.
  - apply bind_Ok in H. destruct H as (a1 & H1 & H2).
    inversion HQ; subst. eauto.
Qed.

Lemma mapM_Forall2 {A B} (f : A -> res B) (xs : list A) (ys : list B) :
  mapM f xs = Ok ys -> Forall2 (fun x y => f x = Ok y) xs ys.
Proof.
  revert ys. induction xs as [|x xs IH]; simpl; intros ys H.
  - injection H as <-. constructor.
  - apply bind_Ok in H. destruct H as (y & Hy & H).
    apply bind_Ok in H. destruct H as (ys' & Hys & H).
    injection H as <-. constructor; auto.
Qed.

Lemma mapM_total {A B} (f : A -> res B) (xs : list A) :
  Forall (fun x => exists y, f x = Ok y) xs ->
  exists ys, mapM f xs = Ok ys /\ List.length ys = List.length xs.
Proof.
  induction 1 as [|x xs [y Hy] _ [ys [IH Hlen]]]; simpl.
  - exists []. auto.
  - rewrite Hy, IH. simpl. exists (y :: ys). simpl. auto.
Qed.

(** The statuses of the force list are error statuses: an answer that
    [raise_for_status] lets through was not one the session gave up on. *)
Lemma session_result_ok (r : Airtable.response) :
  ((400 <=? Airtable.status_code r)
   && (Airtable.status_code r <? 600))%Z = false ->
  Airtable.session_result r = Ok r.
Proof.
  intros H. unfold Airtable.session_result, Airtable.status_forcelist.
  cbn [existsb].
  repeat match goal with
         | |- context [Z.eqb ?a ?b] =>
             destruct (Z.eqb_spec a b) as [E|_];
             [rewrite E in H; discriminate H|]
         end.
  reflexivity.
Qed.

Lemma not_gave_up (r : Airtable.response) :
  Spec.error_status r = false -> Spec.gave_up r = false.
Proof.
  intros H. pose proof (session_result_ok r H) as Hok.
  unfold Airtable.session_result in Hok. unfold Spec.gave_up.
  destruct (existsb (Z.eqb (Airtable.status_code r))
                    Airtable.status_forcelist);
    [discriminate Hok | reflexivity].
Qed.

Lemma str_of_int_decimal (n : Z) :
  option_map Z.of_int (NilEmpty.int_of_string (str_of_int n)) = Some n.
Proof.
  unfold str_of_int. rewrite NilEmpty.isi. simpl. now rewrite DecimalZ.of_to.
Qed.

End PyFacts.

(* ================================================================= *)
(** ** The catalog builder *)

Module CatalogBuilder.
Import Py Singer Airtable Spec PyFacts.

Lemma has_config_type_field (f : list (string * value)) :
  field_definition f = true ->
  has_config_type (VDict f)
  = Ok (match source_type_tag f with Some _ => true | None => false end).
Proof.
  unfold field_definition, has_config_type, source_type_tag, getkey, dict_has.
  simpl. unfold dict_has.
  destruct (dict_get f "config") as [c|] eqn:Hc; simpl; [|reflexivity].
  destruct c; try discriminate. intros _. simpl. unfold dict_has.
  now destruct (dict_get d "type").
Qed.

Lemma config_type_field (f : list (string * value)) (tag : value) :
  source_type_tag f = Some tag -> config_type (VDict f) = Ok tag.
Proof.
  unfold source_type_tag, config_type, getkey. simpl.
  destruct (dict_get f "config") as [c|]; [|discriminate].
  destruct c; try discriminate. simpl. now intros ->.
Qed.

(** What [column_schema] computes from the tag it reads. *)
Lemma column_schema_tag (f : list (string * value)) :
  field_definition f = true ->
  column_schema (VDict f)
  = Ok (let air_type := match source_type_tag f with
                        | Some tag => tag
                        | None => VStr "string"
                        end in
        let ty := if in_strs air_type ["number"; "autoNumber"]
                  then "number" else "string" in
        let s := declared ty VNone in
        let s := if in_strs air_type ["dateTime"]
                 then set_format s (VStr "date-time") else s in
        if in_strs air_type ["date"] then set_format s (VStr "date") else s).
Proof.
  intros Hf. unfold column_schema. rewrite (has_config_type_field f Hf).
  destruct (source_type_tag f) as [tag|] eqn:Ht; simpl.
  - now rewrite (config_type_field f tag Ht).
  - reflexivity.
Qed.

(** C1.  The declared type of a column follows the fixed lookup on the
    field's source-type tag: [number] and [autoNumber] give type number;
    [dateTime] gives type string with format date-time; [date] gives type
    string with format date; any other tag, and a missing tag, give type
    string with no format. *)
Theorem column_schema_lookup (f : list (string * value)) :
  field_definition f = true ->
  (source_type_tag f = Some (VStr "number")
   \/ source_type_tag f = Some (VStr "autoNumber") ->
   column_schema (VDict f) = Ok (declared "number" VNone))
  /\ (source_type_tag f = Some (VStr "dateTime") ->
      column_schema (VDict f) = Ok (declared "string" (VStr "date-time")))
  /\ (source_type_tag f = Some (VStr "date") ->
      column_schema (VDict f) = Ok (declared "string" (VStr "date")))
  /\ ((forall tag, source_type_tag f = Some tag ->
                  in_strs tag ["number"; "autoNumber"; "dateTime"; "date"]
                  = false) ->
      column_schema (VDict f) = Ok (declared "string" VNone)).
Proof.
  intros Hf. rewrite (column_schema_tag f Hf).
  split; [|split; [|split]].
  - intros [H|H]; rewrite H; reflexivity.
  - intros H; rewrite H; reflexivity.
  - intros H; rewrite H; reflexivity.
  - intros H. destruct (source_type_tag f) as [tag|]; [|reflexivity].
    specialize (H tag eq_refl). unfold in_strs in *. simpl in *.
    repeat (apply orb_false_elim in H; destruct H as [? H]).
    cbv zeta.
    repeat match goal with
           | E : eq_str tag _ = false |- _ => rewrite E; clear E
           end.
    reflexivity.
Qed.

Lemma column_schema_lookup_witness :
  column_schema (field "Amount" "number") = Ok (declared "number" VNone)
  /\ column_schema (field "When" "dateTime")
     = Ok (declared "string" (VStr "date-time"))
  /\ column_schema (field "Day" "date") = Ok (declared "string" (VStr "date"))
  /\ column_schema (field "Code" "singleLineText")
     = Ok (declared "string" VNone)
  /\ column_schema (VDict [("name", VStr "Notes")])
     = Ok (declared "string" VNone).
Proof.
  split; [|split; [|split; [|split]]].
  - apply (column_schema_lookup
             [("name", VStr "Amount"); ("config", VDict [("type", VStr "number")])]);
      [reflexivity | left; reflexivity].
  - apply (column_schema_lookup
             [("name", VStr "When"); ("config", VDict [("type", VStr "dateTime")])]);
      reflexivity.
  - apply (column_schema_lookup
             [("name", VStr "Day"); ("config", VDict [("type", VStr "date")])]);
      reflexivity.
  - apply (column_schema_lookup
             [("name", VStr "Code");
              ("config", VDict [("type", VStr "singleLineText")])]);
      [reflexivity |].
    intros tag H. injection H as <-. reflexivity.
  - apply (column_schema_lookup [("name", VStr "Notes")]); [reflexivity |].
    intros tag H. discriminate H.
Defined.

(** *** Output column names *)

Lemma field_name_text (name : string) :
  name <> "" ->
  field_name (VStr name)
  = Ok (VStr (if starts_with_digit name then "c_" ++ name else name)).
Proof.
  destruct name as [|c rest]; [congruence | intros _].
  unfold field_name, getitem, seq_index. simpl.
  rewrite andb_true_r.
  destruct (isdigit_char c); reflexivity.
Qed.

(** C2, as amended.  For every field with a non-empty source name: when the
    name starts with a digit the output column name is [c_] followed by the
    name, and otherwise it is the name unchanged. *)
Theorem output_column_name (name : string) :
  name <> "" ->
  (starts_with_digit name = true ->
   field_name (VStr name) = Ok (VStr ("c_" ++ name)))
  /\ (starts_with_digit name = false ->
      field_name (VStr name) = Ok (VStr name)).
Proof.
  intros Hne. rewrite (field_name_text name Hne).
  split; intros ->; reflexivity.
Qed.

Lemma output_column_name_witness :
  field_name (VStr "1Code") = Ok (VStr "c_1Code")
  /\ field_name (VStr "Amount") = Ok (VStr "Amount").
Proof.
  split.
  - apply (output_column_name "1Code"); [discriminate | reflexivity].
  - apply (output_column_name "Amount"); [discriminate | reflexivity].
Defined.

(** C2, as stated, fails on the empty name: it does not start with a digit,
    and [airtable_field[0]] raises instead of giving the name back. *)
Lemma output_column_name_empty :
  starts_with_digit "" = false
  /\ field_name (VStr "") = Raise IndexError
  /\ field_name (VStr "") <> Ok (VStr "").
Proof.
  split; [reflexivity | split; [reflexivity | discriminate]].
Qed.

(** *** One field of a table *)

(** A field that is discovered leaves [schema_cols] with one more
    assignment, under its output column name. *)
Lemma discover_field_column cols meta (f : value) cols' meta' :
  discover_field (cols, meta) f = Ok (cols', meta') ->
  exists airtable_field name col_schema,
    getkey f "name" = Ok airtable_field
    /\ field_name airtable_field = Ok (VStr name)
    /\ column_schema f = Ok col_schema
    /\ cols' = dict_set cols name col_schema.
Proof.
  unfold discover_field. intros H. inv_bind H.
  injection H as <- _.
  destruct a0; try discriminate. simpl in Ha2. injection Ha2 as <-.
  eauto 8.
Qed.

Lemma field_name_not_id (airtable_field : value) (name : string) :
  field_name airtable_field = Ok (VStr name) ->
  eq_str airtable_field "id" = false -> name <> "id".
Proof.
  unfold field_name. intros H Hid. inv_bind H.
  destruct a0.
  - unfold str_add in H. destruct airtable_field; try discriminate.
    injection H as <-. discriminate.
  - injection H as ->. simpl in Hid. now apply String.eqb_neq in Hid.
Qed.

Lemma discover_field_keeps_id cols meta (f : value) cols' meta' :
  not_named_id f = true ->
  discover_field (cols, meta) f = Ok (cols', meta') ->
  dict_get cols' "id" = dict_get cols "id".
Proof.
  intros Hid H.
  destruct (discover_field_column _ _ _ _ _ H)
    as (af & name & sch & Hname & Hfn & _ & ->).
  unfold not_named_id in Hid. rewrite Hname in Hid.
  apply negb_true_iff in Hid.
  apply dict_get_set_other.
  exact (field_name_not_id af name Hfn Hid).
Qed.

(** C9 fails on the code.  A field whose config has no type tag, or that has
    no config, is not discovered: reading [field["config"]["type"]] for the
    [airtable_type] annotation raises [KeyError], although the two tests
    before it guard the same read. *)
Theorem missing_type_raises (f : list (string * value)) (name : string)
  (st : list (string * Schema) * compiled) :
  field_definition f = true ->
  source_type_tag f = None ->
  dict_get f "name" = Some (VStr name) ->
  name <> "" ->
  discover_field st (VDict f)
  = Raise (KeyError (VStr (if dict_has f "config" then "type" else "config"))).
Proof.
  intros Hf Htag Hname Hne. destruct st as [cols meta].
  unfold discover_field, getkey at 1, getitem. rewrite Hname. simpl.
  rewrite (field_name_text name Hne). simpl.
  rewrite (column_schema_tag f Hf). simpl.
  rewrite (has_config_type_field f Hf), Htag. simpl.
  unfold config_type, getkey, getitem, dict_has.
  unfold field_definition in Hf. unfold source_type_tag in Htag.
  destruct (dict_get f "config") as [c|]; simpl; [|reflexivity].
  destruct c; try discriminate. simpl. now rewrite Htag.
Qed.

Lemma missing_type_raises_witness :
  discover_field ([("id", id_schema)], []) untyped_field
  = Raise (KeyError (VStr "type")).
Proof.
  apply (missing_type_raises
           [("name", VStr "Notes"); ("config", VDict [])] "Notes");
    [reflexivity | reflexivity | reflexivity | discriminate].
Defined.

(** The table that holds such a field is not discovered either. *)
Lemma untyped_field_table :
  discover_table "app1" VNone (table_of [untyped_field])
  = Raise (KeyError (VStr "type"))
  /\ discover_table "app1" VNone (table_of [VDict [("name", VStr "Notes")]])
     = Raise (KeyError (VStr "config")).
Proof. split; reflexivity. Qed.

(** A tag that is present but null or empty does not become a null
    annotation: [metadata.write] refuses the [None] it is given. *)
Lemma null_type_raises :
  discover_table "app1" VNone
    (table_of [VDict [("name", VStr "Notes");
                      ("config", VDict [("type", VNone)])]])
  = Raise (PyException "").
Proof. reflexivity. Qed.

(** *** One table *)

Lemma discover_table_columns (base_id : string) (base_name table : value)
  (e : CatalogEntry) :
  discover_table base_id base_name table = Ok e ->
  exists fields fs meta,
    getkey table "fields" = Ok fields
    /\ iterate fields = Ok fs
    /\ foldM discover_field
             ([("id", id_schema)],
              [(BTuple [], [("inclusion", VStr "available")]);
               (BStr "database_name", [("base_id", VStr base_id)])]) fs
       = Ok (schema_properties e, meta).
Proof.
  unfold discover_table. intros H. simpl in H. inv_bind H.
  destruct a2 as [cols meta]. inv_bind H. injection H as <-. simpl.
  eauto 6.
Qed.

(** The [id] column stays as declared when no field is named [id]. *)
Lemma discover_table_id_column (base_id : string) (base_name table : value)
  (e : CatalogEntry) :
  no_id_field table = true ->
  discover_table base_id base_name table = Ok e ->
  dict_get (schema_properties e) "id" = Some id_schema.
Proof.
  intros Hno H.
  destruct (discover_table_columns _ _ _ _ H) as (fields & fs & meta & Hf & Hi & Hfold).
  unfold no_id_field in Hno. rewrite Hf, Hi in Hno.
  apply (foldM_invariant
           (fun st => dict_get (fst st) "id" = Some id_schema)
           (fun f => not_named_id f = true)
           discover_field) with (a' := (schema_properties e, meta)) in Hfold.
  - exact Hfold.
  - intros [cols m] f [cols' m'] HP HQ Hstep. simpl in *.
    now rewrite (discover_field_keeps_id _ _ _ _ _ HQ Hstep).
  - apply Forall_forall. now apply forallb_forall.
  - reflexivity.
Qed.

Lemma typed_field_discovered (f : value)
  (st : list (string * Schema) * compiled) :
  typed_field f = true -> exists st', discover_field st f = Ok st'.
Proof.
  destruct f as [| | | | | |d]; try discriminate. unfold typed_field.
  destruct (dict_get d "name") as [n|] eqn:Hn; [|discriminate].
  destruct n as [| | | |name| |]; try discriminate.
  destruct (source_type_tag d) as [tag|] eqn:Ht; [|discriminate].
  intros H. apply andb_true_iff in H. destruct H as [Hne Htr].
  apply negb_true_iff, String.eqb_neq in Hne.
  assert (Hf : field_definition d = true).
  { unfold field_definition. unfold source_type_tag in Ht.
    destruct (dict_get d "config") as [c|]; [|discriminate].
    destruct c; try discriminate. reflexivity. }
  destruct st as [cols meta].
  unfold discover_field, getkey at 1, getitem. rewrite Hn. simpl.
  rewrite (field_name_text name Hne). simpl.
  rewrite (column_schema_tag d Hf). simpl.
  rewrite (has_config_type_field d Hf), Ht. simpl.
  rewrite (config_type_field d tag Ht). simpl.
  unfold py_or. rewrite Htr.
  destruct tag; try discriminate Htr; simpl; eauto.
  destruct (String.eqb s "autoNumber"); simpl; eauto.
Qed.

Lemma typed_fields_discovered (fs : list value) :
  forallb typed_field fs = true ->
  forall st, exists st', foldM discover_field st fs = Ok st'.
Proof.
  induction fs as [|f fs IH]; simpl; intros H st; [eauto|].
  apply andb_true_iff in H. destruct H as [Hf Hfs].
  destruct (typed_field_discovered f st Hf) as [st1 ->]. simpl. auto.
Qed.

(** Every well-formed table is discovered. *)
Lemma discover_table_total (base_id : string) (base_name table : value) :
  well_formed_table table = true ->
  exists e, discover_table base_id base_name table = Ok e.
Proof.
  destruct table as [| | | | | |d]; try discriminate. unfold well_formed_table.
  destruct (dict_get d "name") as [n|] eqn:Hn; [|discriminate].
  destruct (dict_get d "id") as [i|] eqn:Hi; [|discriminate].
  destruct (dict_get d "fields") as [fl|] eqn:Hf; [|discriminate].
  destruct fl as [| | | | |fs|]; try discriminate. intros Hfs.
  unfold discover_table, getkey, getitem. rewrite Hn, Hf, Hi. simpl.
  match goal with
  | |- context [foldM discover_field ?st fs] =>
      destruct (typed_fields_discovered fs Hfs st) as [[cols meta] Hfold];
      rewrite Hfold
  end.
  simpl. eauto.
Qed.

(** A field named [id] takes the place of the declared [id] column. *)
Lemma id_field_replaces_id_column :
  exists e,
    discover_table "app1" VNone table_with_id_field = Ok e
    /\ dict_get (schema_properties e) "id" = Some (declared "number" VNone).
Proof. eexists. split; reflexivity. Qed.

End CatalogBuilder.

(* ================================================================= *)
(** ** The selection resolver *)

Module SelectionResolver.
Import Py Singer Airtable Spec PyFacts.

Definition picked (m : value) (c : string) : Prop :=
  exists md, column_annotation m c md
             /\ marked_selected md = true
             /\ records_source_field md = true.

Lemma selected_with_field_entry (e md : list (string * value)) :
  dict_get e "metadata" = Some (VDict md) ->
  selected_with_field (VDict e)
  = Ok (marked_selected md && records_source_field md).
Proof.
  intros Hmd. unfold selected_with_field, getkey, getitem. rewrite Hmd.
  simpl. unfold marked_selected, records_source_field, dict_has.
  destruct (dict_get md "selected") as [v|]; simpl; [|reflexivity].
  destruct (truthy v); reflexivity.
Qed.

Lemma column_annotation_inv (e : list (string * value)) (bc : value)
  (md : list (string * value)) :
  dict_get e "breadcrumb" = Some bc ->
  dict_get e "metadata" = Some (VDict md) ->
  forall c md',
    column_annotation (VDict e) c md' ->
    str_in "properties" bc = Ok true
    /\ getitem bc (VInt 1) = Ok (VStr c) /\ md' = md.
Proof.
  intros Hbc Hmd c md' (e' & bc' & He & Hbc' & Hp & Hc & Hmd').
  injection He as <-. rewrite Hbc in Hbc'. injection Hbc' as <-.
  rewrite Hmd in Hmd'. injection Hmd' as <-. auto.
Qed.

Lemma select_column_skip (d e : list (string * value)) (bc : value)
  (md : list (string * value)) (cols : list (string * value))
  (fields : list value) :
  dict_get e "breadcrumb" = Some bc ->
  dict_get e "metadata" = Some (VDict md) ->
  str_in "properties" bc = Ok false
  \/ (str_in "properties" bc = Ok true
      /\ marked_selected md && records_source_field md = false) ->
  select_column (VDict d) (cols, fields) (VDict e) = Ok (cols, fields).
Proof.
  intros Hbc Hmd Hcase. unfold select_column.
  rewrite (getkey_dict e "breadcrumb" bc Hbc). cbn [bind].
  destruct Hcase as [Hp | [Hp Hpick]]; rewrite Hp; cbn [bind negb].
  - reflexivity.
  - rewrite (selected_with_field_entry e md Hmd), Hpick. reflexivity.
Qed.

Lemma select_column_pick (d sch props e : list (string * value)) (bc : value)
  (md : list (string * value)) (c : string) (fld frag : value)
  (cols : list (string * value)) (fields : list value) :
  dict_get d "schema" = Some (VDict sch) ->
  dict_get sch "properties" = Some (VDict props) ->
  dict_get e "breadcrumb" = Some bc ->
  dict_get e "metadata" = Some (VDict md) ->
  str_in "properties" bc = Ok true ->
  marked_selected md && records_source_field md = true ->
  getitem bc (VInt 1) = Ok (VStr c) ->
  dict_get md "airtable_field" = Some fld ->
  dict_get props c = Some frag ->
  select_column (VDict d) (cols, fields) (VDict e)
  = Ok (dict_set cols c frag, (fields ++ [fld])%list).
Proof.
  intros Hsch Hprops Hbc Hmd Hp Hpick Hc Hf Hfrag. unfold select_column.
  rewrite (getkey_dict e "breadcrumb" bc Hbc). cbn [bind].
  rewrite Hp. cbn [bind negb].
  rewrite (selected_with_field_entry e md Hmd), Hpick. cbn [bind].
  rewrite Hc. cbn [bind].
  rewrite (getkey_dict e "metadata" _ Hmd). cbn [bind].
  rewrite (getkey_dict md "airtable_field" fld Hf). cbn [bind].
  rewrite (getkey_dict d "schema" _ Hsch). cbn [bind].
  rewrite (getkey_dict sch "properties" _ Hprops). cbn [bind].
  change (getitem (VDict props) (VStr c)) with (getkey (VDict props) c).
  rewrite (getkey_dict props c frag Hfrag). reflexivity.
Qed.

(** One entry either leaves the selection as it is, and then selects no
    column, or selects the column it annotates with its schema fragment. *)
Lemma select_column_step (d sch props : list (string * value)) (m : value)
  (cols : list (string * value)) (fields : list value) :
  dict_get d "schema" = Some (VDict sch) ->
  dict_get sch "properties" = Some (VDict props) ->
  annotation_entry props m = true ->
  (select_column (VDict d) (cols, fields) m = Ok (cols, fields)
   /\ forall c, ~ picked m c)
  \/ (exists c frag fld,
        picked m c
        /\ (forall c', picked m c' -> c' = c)
        /\ dict_get props c = Some frag
        /\ select_column (VDict d) (cols, fields) m
           = Ok (dict_set cols c frag, (fields ++ [fld])%list)).
Proof.
  intros Hsch Hprops Hm.
  destruct m as [| | | | | |e]; try discriminate. unfold annotation_entry in Hm.
  destruct (dict_get e "breadcrumb") as [bc|] eqn:Hbc; [|discriminate].
  destruct (dict_get e "metadata") as [mdv|] eqn:Hmd; [|discriminate].
  destruct mdv as [| | | | | |md]; try discriminate.
  pose proof (column_annotation_inv e bc md Hbc Hmd) as Hdet.
  destruct (str_in "properties" bc) as [[|]|] eqn:Hp; [| |discriminate Hm].
  - destruct (getitem bc (VInt 1)) as [cv|] eqn:Hc; [|discriminate Hm].
    destruct cv as [| | | |c| |]; try discriminate Hm.
    destruct (marked_selected md && records_source_field md) eqn:Hpick.
    + right. simpl in Hm.
      destruct (andb_prop _ _ Hpick) as [Hsel Hfld].
      pose proof Hfld as Hfld'. unfold records_source_field, dict_has in Hfld'.
      destruct (dict_get md "airtable_field") as [fld|] eqn:Hf; [|discriminate].
      pose proof Hm as Hm'. unfold dict_has in Hm'.
      destruct (dict_get props c) as [frag|] eqn:Hfrag; [|discriminate].
      exists c, frag, fld. split; [|split; [|split]].
      * exists md. split; [|auto]. exists e, bc. auto.
      * intros c' (md' & Hann & _).
        destruct (Hdet _ _ Hann) as (_ & Hc' & _). congruence.
      * exact Hfrag.
      * exact (select_column_pick d sch props e bc md c fld frag cols fields
                 Hsch Hprops Hbc Hmd Hp Hpick Hc Hf Hfrag).
    + left. split.
      * apply (select_column_skip d e bc md cols fields Hbc Hmd). auto.
      * intros c' (md' & Hann & Hsel & Hfld).
        destruct (Hdet _ _ Hann) as (_ & _ & ->).
        rewrite Hsel, Hfld in Hpick. discriminate.
  - left. split.
    + apply (select_column_skip d e bc md cols fields Hbc Hmd). auto.
    + intros c' (md' & Hann & _).
      destruct (Hdet _ _ Hann) as (Hp' & _). congruence.
Qed.

Lemma select_columns_fold (d sch props : list (string * value)) :
  dict_get d "schema" = Some (VDict sch) ->
  dict_get sch "properties" = Some (VDict props) ->
  forall ms cols0 fields0,
    forallb (annotation_entry props) ms = true ->
    exists cols fields,
      foldM (select_column (VDict d)) (cols0, fields0) ms = Ok (cols, fields)
      /\ (forall c, dict_has cols c = true <->
                    dict_has cols0 c = true \/ exists m, In m ms /\ picked m c)
      /\ (forall c frag, dict_get cols c = Some frag ->
                         dict_get cols0 c = Some frag
                         \/ dict_get props c = Some frag).
Proof.
  intros Hsch Hprops ms.
  induction ms as [|m ms IH]; intros cols0 fields0 Hms.
  - exists cols0, fields0. simpl. split; [reflexivity|]. split.
    + intros c. split; [auto|]. intros [H|(m & [] & _)]. exact H.
    + auto.
  - simpl in Hms. apply andb_true_iff in Hms. destruct Hms as [Hm Hms].
    destruct (select_column_step d sch props m cols0 fields0 Hsch Hprops Hm)
      as [[Hstep Hno] | (c0 & frag0 & fld & Hpick & Huniq & Hfrag & Hstep)].
    + destruct (IH cols0 fields0 Hms) as (cols & fields & Hfold & Hin & Hfr).
      exists cols, fields. cbn [foldM]. rewrite Hstep. cbn [bind].
      split; [exact Hfold|]. split; [|exact Hfr].
      intros c. rewrite Hin. split.
      * intros [H|(m' & Hm' & Hp)]; [auto|]. right. exists m'. simpl. auto.
      * intros [H|(m' & [<-|Hm'] & Hp)]; [auto| |].
        -- now apply Hno in Hp.
        -- right. eauto.
    + destruct (IH (dict_set cols0 c0 frag0) (fields0 ++ [fld])%list Hms)
        as (cols & fields & Hfold & Hin & Hfr).
      exists cols, fields. cbn [foldM]. rewrite Hstep. cbn [bind].
      split; [exact Hfold|]. split.
      * intros c. rewrite Hin, dict_has_set. split.
        -- intros [H|(m' & Hm' & Hp)].
           ++ apply orb_true_iff in H. destruct H as [H|H]; [|auto].
              apply String.eqb_eq in H. subst c. right. exists m. simpl. auto.
           ++ right. exists m'. simpl. auto.
        -- intros [H|(m' & [<-|Hm'] & Hp)].
           ++ left. rewrite H. apply orb_true_r.
           ++ left. rewrite (Huniq c Hp), String.eqb_refl. reflexivity.
           ++ right. eauto.
      * intros c frag Hget. destruct (Hfr c frag Hget) as [H|H]; [|auto].
        destruct (String.eqb c0 c) eqn:E.
        -- apply String.eqb_eq in E. subst c.
           rewrite dict_get_set_same in H. injection H as <-. auto.
        -- apply String.eqb_neq in E.
           rewrite (dict_get_set_other _ _ _ _ E) in H. auto.
Qed.

Lemma stream_descriptor_inv (s : value) :
  stream_descriptor s = true ->
  exists d ms sch props,
    s = VDict d
    /\ dict_get d "metadata" = Some (VList ms)
    /\ dict_get d "schema" = Some (VDict sch)
    /\ dict_get sch "properties" = Some (VDict props)
    /\ forallb (annotation_entry props) ms = true
    /\ metadata_of s = ms
    /\ properties_of s = props.
Proof.
  destruct s as [| | | | | |d]; try discriminate. unfold stream_descriptor.
  destruct (dict_get d "metadata") as [mv|] eqn:Hmeta; [|discriminate].
  destruct mv as [| | | | |ms|]; try discriminate.
  destruct (dict_get d "schema") as [sv|] eqn:Hsch; [|discriminate].
  destruct sv as [| | | | | |sch]; try discriminate.
  destruct (dict_get sch "properties") as [pv|] eqn:Hprops; [|discriminate].
  destruct pv as [| | | | | |props]; try discriminate.
  intros Hms. exists d, ms, sch, props.
  unfold metadata_of, properties_of.
  rewrite (getkey_dict d "metadata" _ Hmeta), (getkey_dict d "schema" _ Hsch),
    (getkey_dict sch "properties" _ Hprops).
  auto 10.
Qed.

(** C5.  On a stream descriptor the selection resolver returns a mapping
    that holds a column exactly when an annotation entry of that column
    marks it selected (truthy) and records a source-field-name; entries
    lacking either are passed over without an error; and the fragment stored
    for a column is the one the declared schema holds for it. *)
Theorem selected_columns (s : value) :
  stream_descriptor s = true ->
  exists cols fields,
    _find_selected_columns s = Ok (cols, fields)
    /\ (forall c, dict_has cols c = true <->
                  exists m md, In m (metadata_of s)
                               /\ column_annotation m c md
                               /\ marked_selected md = true
                               /\ records_source_field md = true)
    /\ (forall c frag, dict_get cols c = Some frag ->
                       dict_get (properties_of s) c = Some frag).
Proof.
  destruct s as [| | | | | |d]; try discriminate. unfold stream_descriptor.
  destruct (dict_get d "metadata") as [mv|] eqn:Hmeta; [|discriminate].
  destruct mv as [| | | | |ms|]; try discriminate.
  destruct (dict_get d "schema") as [sv|] eqn:Hsch; [|discriminate].
  destruct sv as [| | | | | |sch]; try discriminate.
  destruct (dict_get sch "properties") as [pv|] eqn:Hprops; [|discriminate].
  destruct pv as [| | | | | |props]; try discriminate.
  intros Hms.
  destruct (select_columns_fold d sch props Hsch Hprops ms [] [] Hms)
    as (cols & fields & Hfold & Hin & Hfr).
  exists cols, fields.
  unfold _find_selected_columns, metadata_of, properties_of, getkey, getitem.
  rewrite Hmeta, Hsch. simpl. rewrite Hprops. split; [exact Hfold|]. split.
  - intros c. rewrite Hin. split.
    + intros [H|(m & Hm & md & Hp)]; [discriminate|]. eauto.
    + intros (m & md & Hm & Hp). right. exists m. split; [exact Hm|].
      exists md. exact Hp.
  - intros c frag Hget. destruct (Hfr c frag Hget) as [H|H]; [discriminate|auto].
Qed.

Lemma selected_columns_witness :
  exists cols fields,
    _find_selected_columns orders_stream = Ok (cols, fields)
    /\ (forall c, dict_has cols c = true <->
                  exists m md, In m (metadata_of orders_stream)
                               /\ column_annotation m c md
                               /\ marked_selected md = true
                               /\ records_source_field md = true)
    /\ (forall c frag, dict_get cols c = Some frag ->
                       dict_get (properties_of orders_stream) c = Some frag).
Proof. apply (selected_columns orders_stream). reflexivity. Defined.

(** On the sample catalog: [Amount] is selected, [c_1Code] is not. *)
Lemma orders_selection :
  _find_selected_columns orders_stream
  = Ok ([("Amount", number_column)], [VStr "Amount"]).
Proof. reflexivity. Qed.

End SelectionResolver.

(* ================================================================= *)
(** ** The record mapper *)

Module RecordMapper.
Import Py Singer Airtable Spec PyFacts.

(** *** Coercion *)

(** C4, as amended.  Under declared type string: an int becomes its decimal
    text (42 gives "42"); a float becomes the text of its repr (3.14 gives
    "3.14"); a boolean, an array or an object becomes its JSON text as
    [json.dumps] writes it, with the separators [", "] and [": "] (true
    gives "true", the array [1,2] gives "[1, 2]").  A text, and any value
    under a declared type other than string, pass through unchanged. *)
Theorem cast_type_string :
  (forall n, cast_type (VInt n) (VStr "string") = VStr (str_of_int n)
             /\ option_map Z.of_int (NilEmpty.int_of_string (str_of_int n))
                = Some n)
  /\ cast_type (VInt 42) (VStr "string") = VStr "42"
  /\ (forall r, cast_type (VFloat r) (VStr "string") = VStr r)
  /\ cast_type (VFloat "3.14") (VStr "string") = VStr "3.14"
  /\ (forall b, cast_type (VBool b) (VStr "string")
                = VStr (if b then "true" else "false"))
  /\ (forall l, cast_type (VList l) (VStr "string")
                = VStr (json_dumps (VList l)))
  /\ (forall d, cast_type (VDict d) (VStr "string")
                = VStr (json_dumps (VDict d)))
  /\ cast_type (VList [VInt 1; VInt 2]) (VStr "string") = VStr "[1, 2]"
  /\ (forall s t, cast_type (VStr s) t = VStr s)
  /\ (forall v t, eq_str t "string" = false -> cast_type v t = v).
Proof.
  split; [|split; [|split; [|split; [|split; [|split; [|split; [|split;
    [|split]]]]]]]].
  - intros n. split; [reflexivity | apply str_of_int_decimal].
  - reflexivity.
  - reflexivity.
  - reflexivity.
  - intros [|]; reflexivity.
  - reflexivity.
  - reflexivity.
  - reflexivity.
  - intros s t. unfold cast_type. simpl. now rewrite andb_false_r.
  - intros v t Ht. unfold cast_type. now rewrite Ht.
Qed.

Lemma cast_type_string_witness :
  cast_type (VInt 10) (VStr "number") = VInt 10
  /\ cast_type (VList [VInt 1; VInt 2]) (VStr "string") = VStr "[1, 2]".
Proof.
  split.
  - apply cast_type_string. reflexivity.
  - apply cast_type_string.
Defined.

(** C4, as stated, fails on its own example: the text for the array [1,2]
    has a space after the comma. *)
Lemma cast_type_array_text :
  cast_type (VList [VInt 1; VInt 2]) (VStr "string") = VStr "[1, 2]"
  /\ cast_type (VList [VInt 1; VInt 2]) (VStr "string") <> VStr "[1,2]".
Proof. split; [reflexivity | discriminate]. Qed.

(** *** One record *)

Lemma map_column_inv (schema metadata r : value) (row : list (string * value))
  (col : value) (row' : list (string * value)) :
  map_column schema metadata r row col = Ok row' ->
  exists name v,
    col = VStr name
    /\ column_value schema metadata r col = Ok v
    /\ row' = dict_set row name v.
Proof.
  unfold map_column. intros H. inv_bind H. injection H as <-.
  destruct col; try discriminate. simpl in Ha0. injection Ha0 as <-. eauto.
Qed.

(** The row after the loop over the columns: its keys are those it had and
    the columns, and a value in it was there before or is the value of its
    column. *)
Lemma map_columns_fold (schema metadata r : value) (cols : list value) :
  forall row0 row,
    foldM (map_column schema metadata r) row0 cols = Ok row ->
    (forall c, dict_has row c = true <->
               dict_has row0 c = true \/ In (VStr c) cols)
    /\ (forall c v, dict_get row c = Some v ->
                    dict_get row0 c = Some v
                    \/ (In (VStr c) cols
                        /\ column_value schema metadata r (VStr c) = Ok v)).
Proof.
  induction cols as [|col cols IH]; intros row0 row H.
  - simpl in H. injection H as <-. split.
    + intros c. split; [auto | intros [H|[]]; exact H].
    + auto.
  - cbn [foldM] in H. apply bind_Ok in H. destruct H as (row1 & Hstep & H).
    apply map_column_inv in Hstep.
    destruct Hstep as (name & v1 & -> & Hv1 & ->).
    destruct (IH _ _ H) as [Hkeys Hvals]. split.
    + intros c. rewrite Hkeys, dict_has_set. split.
      * intros [Hc|Hc]; [|right; right; exact Hc].
        apply orb_true_iff in Hc. destruct Hc as [Hc|Hc]; [|auto].
        apply String.eqb_eq in Hc. subst. right. left. reflexivity.
      * intros [Hc|[Hc|Hc]].
        -- left. rewrite Hc. apply orb_true_r.
        -- injection Hc as ->. left. now rewrite String.eqb_refl.
        -- auto.
    + intros c v Hget. destruct (Hvals c v Hget) as [Hc|[Hc Hv]].
      * destruct (String.eqb name c) eqn:E.
        -- apply String.eqb_eq in E. subst c.
           rewrite dict_get_set_same in Hc. injection Hc as <-.
           right. split; [left; reflexivity | exact Hv1].
        -- apply String.eqb_neq in E.
           rewrite (dict_get_set_other _ _ _ _ E) in Hc. auto.
      * right. split; [right; exact Hc | exact Hv].
Qed.

Lemma map_record_inv (schema metadata r out : value) :
  map_record schema metadata r = Ok out ->
  exists cols row id,
    iterate schema = Ok cols
    /\ foldM (map_column schema metadata r) [] cols = Ok row
    /\ getkey r "id" = Ok id
    /\ out = VDict (dict_set row "id" id).
Proof.
  unfold map_record. intros H. inv_bind H. injection H as <-. eauto 8.
Qed.

Lemma map_records_inv (stream records : value) (rows : list value) :
  _map_records stream records = Ok rows ->
  exists sch schema metadata rs,
    getkey stream "schema" = Ok sch
    /\ getkey sch "properties" = Ok schema
    /\ getkey stream "metadata" = Ok metadata
    /\ iterate records = Ok rs
    /\ Forall2 (fun r out => map_record schema metadata r = Ok out) rs rows.
Proof.
  unfold _map_records. intros H. inv_bind H.
  apply mapM_Forall2 in H. eauto 10.
Qed.


(** The value of a column other than [id] in an output record. *)
Lemma map_record_value (schema metadata r : value) (cols : list value)
  (row : list (string * value)) (c : string) :
  iterate schema = Ok cols ->
  map_record schema metadata r = Ok (VDict row) ->
  In (VStr c) cols -> c <> "id" ->
  exists v, column_value schema metadata r (VStr c) = Ok v
            /\ dict_get row c = Some v.
Proof.
  intros Hcols H Hin Hne. apply map_record_inv in H.
  destruct H as (cols' & row0 & id & Hcols' & Hfold & _ & Hout).
  rewrite Hcols in Hcols'. injection Hcols' as <-. injection Hout as ->.
  destruct (map_columns_fold _ _ _ _ _ _ Hfold) as [Hkeys Hvals].
  assert (Hhas : dict_has row0 c = true) by (apply Hkeys; auto).
  unfold dict_has in Hhas.
  destruct (dict_get row0 c) as [v|] eqn:Hget; [|discriminate].
  destruct (Hvals c v Hget) as [Hc|[_ Hv]]; [discriminate|].
  exists v. split; [exact Hv|].
  rewrite dict_get_set_other; [exact Hget | auto].
Qed.

(** The [id] of an output record is the [id] of the raw record. *)
Lemma map_record_id (schema metadata r out : value) :
  map_record schema metadata r = Ok out ->
  exists id, getkey r "id" = Ok id /\ getkey out "id" = Ok id.
Proof.
  intros H. apply map_record_inv in H.
  destruct H as (cols & row & id & _ & _ & Hid & ->).
  exists id. split; [exact Hid|].
  apply getkey_dict, dict_get_set_same.
Qed.

(** *** The mapper returns on well-formed input *)

Lemma annotates_entry (e : list (string * value)) (bc : value) (col : string) :
  dict_get e "breadcrumb" = Some bc ->
  annotates (VDict e) col
  = (is_property <- str_in "properties" bc ;;
     if is_property then
       name <- getitem bc (VInt 1) ;; Ok (eq_str name col)
     else Ok false).
Proof.
  intros Hbc. unfold annotates. cbn [str_in bind]. unfold dict_has.
  rewrite Hbc, (getkey_dict e "breadcrumb" bc Hbc). cbn [bind].
  destruct (str_in "properties" bc) as [[|]|]; reflexivity.
Qed.

Lemma has_airtable_field_entry (e md : list (string * value)) :
  dict_get e "metadata" = Some (VDict md) ->
  has_airtable_field (VDict e) = Ok (records_source_field md).
Proof.
  intros Hmd. unfold has_airtable_field. cbn [str_in bind]. unfold dict_has.
  rewrite Hmd, (getkey_dict e "metadata" _ Hmd). reflexivity.
Qed.

(** On the metadata of a stream descriptor the per-column lookup returns
    none found or a text. *)
Lemma find_column_total (props : list (string * value)) (col : string)
  (ms : list value) :
  forallb (annotation_entry props) ms = true ->
  forallb text_source_field ms = true ->
  exists found, find_column_in col ms = Ok found
                /\ (found = VNone \/ exists s, found = VStr s).
Proof.
  induction ms as [|m ms IH]; cbn [forallb find_column_in]; intros Ha Ht.
  - eauto.
  - apply andb_true_iff in Ha. destruct Ha as [Hm Hms].
    apply andb_true_iff in Ht. destruct Ht as [Htm Htms].
    destruct m as [| | | | | |e]; try discriminate.
    unfold annotation_entry in Hm. unfold text_source_field in Htm.
    destruct (dict_get e "breadcrumb") as [bc|] eqn:Hbc; [|discriminate].
    destruct (dict_get e "metadata") as [mdv|] eqn:Hmd; [|discriminate].
    destruct mdv as [| | | | | |md]; try discriminate.
    rewrite (annotates_entry e bc col Hbc).
    destruct (str_in "properties" bc) as [[|]|]; [| |discriminate Hm];
      cbn [bind]; [|auto].
    destruct (getitem bc (VInt 1)) as [cv|]; [|discriminate Hm].
    destruct cv as [| | | |c| |]; try discriminate Hm. cbn [bind eq_str].
    destruct (String.eqb c col); [|auto].
    rewrite (has_airtable_field_entry e md Hmd). cbn [bind].
    unfold records_source_field, dict_has.
    destruct (dict_get md "airtable_field") as [fld|] eqn:Hf; [|eauto].
    rewrite (getkey_dict e "metadata" _ Hmd). cbn [bind].
    rewrite (getkey_dict md "airtable_field" _ Hf).
    destruct fld; try discriminate Htm. eauto.
Qed.

Lemma column_value_total (props : list (string * value)) (ms : list value)
  (r cd : value) (c : string) :
  forallb (annotation_entry props) ms = true ->
  forallb text_source_field ms = true ->
  raw_record r = true ->
  dict_get props c = Some cd ->
  column_def cd = true ->
  exists v, column_value (VDict props) (VList ms) r (VStr c) = Ok v.
Proof.
  intros Ha Ht Hr Hc Hcd.
  destruct (find_column_total props c ms Ha Ht) as (found & Hfound & Hshape).
  destruct r as [| | | | | |rd]; try discriminate. unfold raw_record in Hr.
  destruct (dict_get rd "id"); [|discriminate].
  destruct (dict_get rd "fields") as [fv|] eqn:Hfields; [|discriminate].
  destruct fv as [| | | | | |fd]; try discriminate.
  destruct cd as [| | | | | |cdd]; try discriminate. unfold column_def in Hcd.
  destruct (dict_get cdd "type") as [ty|] eqn:Hty; [|discriminate].
  destruct (getitem ty (VInt 1)) as [rt|] eqn:Hrt; [|discriminate].
  unfold column_value.
  change (getitem (VDict props) (VStr c)) with (getkey (VDict props) c).
  rewrite (getkey_dict props c _ Hc). cbn [bind].
  rewrite (getkey_dict cdd "type" _ Hty). cbn [bind].
  rewrite Hrt. cbn [bind as_key].
  unfold _find_column. cbn [iterate bind]. rewrite Hfound. cbn [bind].
  rewrite (getkey_dict rd "fields" _ Hfields). cbn [bind].
  assert (Hkey : exists k, py_or found (VStr c) = VStr k).
  { unfold py_or. destruct Hshape as [->|[k ->]]; simpl; [eauto|].
    destruct (String.eqb k ""); simpl; eauto. }
  destruct Hkey as [k ->]. cbn [get_method bind].
  destruct (dict_get fd k) as [[]|]; eauto.
Qed.

Lemma dict_get_In {V} (d : list (string * V)) (k : string) (v : V) :
  dict_get d k = Some v -> In (k, v) d.
Proof.
  induction d as [|[k' v'] d IH]; simpl; [discriminate|].
  destruct (String.eqb k' k) eqn:E.
  - apply String.eqb_eq in E. subst. intros H. injection H as <-. auto.
  - auto.
Qed.

Lemma dict_get_key {V} (d : list (string * V)) (k : string) :
  In k (map fst d) -> exists v, dict_get d k = Some v.
Proof.
  induction d as [|[k' v'] d IH]; simpl; [intros []|].
  intros [<-|H].
  - rewrite String.eqb_refl. eauto.
  - destruct (String.eqb k' k); eauto.
Qed.

Lemma map_columns_total (props : list (string * value)) (ms : list value)
  (r : value) :
  forallb (annotation_entry props) ms = true ->
  forallb text_source_field ms = true ->
  raw_record r = true ->
  forallb (fun kv => column_def (snd kv)) props = true ->
  forall (keys : list string) row0,
    incl keys (map fst props) ->
    exists row,
      foldM (map_column (VDict props) (VList ms) r) row0 (map VStr keys)
      = Ok row.
Proof.
  intros Ha Ht Hr Hcds keys.
  induction keys as [|k keys IH]; intros row0 Hincl; cbn [map foldM].
  - eauto.
  - assert (Hk : In k (map fst props)) by (apply Hincl; left; reflexivity).
    destruct (dict_get_key props k Hk) as [cd Hcd].
    assert (Hdef : column_def cd = true).
    { rewrite forallb_forall in Hcds.
      exact (Hcds (k, cd) (dict_get_In props k cd Hcd)). }
    destruct (column_value_total props ms r cd k Ha Ht Hr Hcd Hdef) as [v Hv].
    unfold map_column at 1. rewrite Hv. cbn [bind as_key].
    apply IH. intros x Hx. apply Hincl. right. exact Hx.
Qed.

Lemma map_record_total (props : list (string * value)) (ms : list value)
  (r : value) :
  forallb (annotation_entry props) ms = true ->
  forallb text_source_field ms = true ->
  forallb (fun kv => column_def (snd kv)) props = true ->
  raw_record r = true ->
  exists out, map_record (VDict props) (VList ms) r = Ok out.
Proof.
  intros Ha Ht Hcds Hr.
  destruct (map_columns_total props ms r Ha Ht Hr Hcds (map fst props) []
              (incl_refl _)) as [row Hrow].
  unfold map_record. cbn [iterate bind].
  rewrite <- (map_map fst VStr props), Hrow. cbn [bind].
  destruct r as [| | | | | |rd]; try discriminate. unfold raw_record in Hr.
  destruct (dict_get rd "id") as [id|] eqn:Hid; [|discriminate].
  rewrite (getkey_dict rd "id" _ Hid). cbn [bind]. eauto.
Qed.

(** The mapper returns one output record for each raw record. *)
Lemma map_records_total (stream : value) (rs : list value) :
  mappable_stream stream = true ->
  forallb raw_record rs = true ->
  exists rows, _map_records stream (VList rs) = Ok rows
               /\ List.length rows = List.length rs.
Proof.
  unfold mappable_stream. intros Hs Hrs.
  apply andb_true_iff in Hs. destruct Hs as [Hs Ht].
  apply andb_true_iff in Hs. destruct Hs as [Hs Hcds].
  destruct (SelectionResolver.stream_descriptor_inv stream Hs)
    as (d & ms & sch & props & -> & Hmeta & Hsch & Hprops & Ha & Hms & Hps).
  rewrite Hms in Ht. rewrite Hps in Hcds.
  unfold _map_records.
  rewrite (getkey_dict d "schema" _ Hsch). cbn [bind].
  rewrite (getkey_dict sch "properties" _ Hprops). cbn [bind].
  rewrite (getkey_dict d "metadata" _ Hmeta). cbn [bind iterate].
  apply mapM_total. rewrite forallb_forall in Hrs. apply Forall_forall.
  intros r Hr. apply (map_record_total props ms r Ha Ht Hcds (Hrs r Hr)).
Qed.

(** *** Output records *)

Lemma schema_columns_eq (stream sch schema : value) (cols : list value) :
  getkey stream "schema" = Ok sch ->
  getkey sch "properties" = Ok schema ->
  iterate schema = Ok cols ->
  schema_columns stream = cols.
Proof. unfold schema_columns. now intros -> -> ->. Qed.

Lemma map_records_rows (stream records : value) (rows : list value)
  (P : value -> value -> Prop) :
  _map_records stream records = Ok rows ->
  (forall schema metadata r cols row,
      getkey stream "metadata" = Ok metadata ->
      iterate schema = Ok cols ->
      schema_columns stream = cols ->
      map_record schema metadata r = Ok (VDict row) ->
      P r (VDict row)) ->
  Forall2 P (records_of records) rows.
Proof.
  intros H HP. apply map_records_inv in H.
  destruct H as (sch & schema & metadata & rs & Hsch & Hprops & Hmeta & Hrs & Hall).
  unfold records_of. rewrite Hrs. clear Hrs.
  induction Hall as [|r out rs rows Hr _ IH]; [constructor|].
  constructor; [|exact IH].
  destruct (map_record_inv _ _ _ _ Hr) as (cols & row & id & Hcols & _ & _ & ->).
  apply (HP schema metadata r cols); auto.
  exact (schema_columns_eq stream sch schema cols Hsch Hprops Hcols).
Qed.




Lemma column_value_null (schema metadata r : value) (col source : string)
  (found v : value) (fd : list (string * value)) :
  _find_column col metadata = Ok found ->
  py_or found (VStr col) = VStr source ->
  getkey r "fields" = Ok (VDict fd) ->
  absent_or_null fd source ->
  column_value schema metadata r (VStr col) = Ok v ->
  v = VNone.
Proof.
  intros Hfound Hsrc Hfields Hnull H. unfold column_value in H. inv_bind H.
  simpl in Ha2. injection Ha2 as <-.
  rewrite Hfound in Ha3. injection Ha3 as <-.
  rewrite Hfields in Ha4. injection Ha4 as <-.
  rewrite Hsrc in Ha5. cbn [get_method] in Ha5.
  destruct Hnull as [Hn|Hn]; rewrite Hn in Ha5; injection Ha5 as <-;
    now injection H.
Qed.

(** C8, as amended.  For every column other than [id], selected or not, whose
    raw value is absent from the record's fields or null there, the value in
    the output record is null, whatever type the schema declares: nothing is
    coerced. *)
Theorem null_raw_value (stream : value) :
  (forall records rows metadata,
      _map_records stream records = Ok rows ->
      getkey stream "metadata" = Ok metadata ->
      Forall2 (fun r out =>
                 forall col found source fd,
                   In (VStr col) (schema_columns stream) ->
                   col <> "id" ->
                   _find_column col metadata = Ok found ->
                   py_or found (VStr col) = VStr source ->
                   getkey r "fields" = Ok (VDict fd) ->
                   absent_or_null fd source ->
                   getkey out col = Ok VNone)
              (records_of records) rows)
  /\ (mappable_stream stream = true ->
      forall rs, forallb raw_record rs = true ->
                 exists rows, _map_records stream (VList rs) = Ok rows
                              /\ List.length rows = List.length rs).
Proof.
  split.
  - intros records rows metadata H Hmeta.
    apply (map_records_rows stream records rows _ H).
    intros schema metadata' r cols row Hmeta' Hcols Hsc Hr
           col found source fd Hin Hne Hfound Hsrc Hfields Hnull.
    rewrite Hmeta in Hmeta'. injection Hmeta' as <-. rewrite Hsc in Hin.
    destruct (map_record_value schema metadata r cols row col Hcols Hr Hin Hne)
      as (v & Hv & Hget).
    rewrite (column_value_null _ _ _ _ _ _ _ _ Hfound Hsrc Hfields Hnull Hv)
      in Hget.
    exact (getkey_dict row col VNone Hget).
  - intros Hs rs Hrs. exact (map_records_total stream rs Hs Hrs).
Qed.

Lemma null_raw_value_witness :
  getkey (VDict [("id", VStr "rec1"); ("Amount", VNone); ("c_1Code", VNone)])
         "Amount" = Ok VNone
  /\ exists rows,
      _map_records orders_stream (VList [record "rec1" [("Amount", VNone)]])
      = Ok rows
      /\ List.length rows = 1%nat.
Proof.
  split.
  - pose proof (proj1 (null_raw_value orders_stream)
                      (VList [record "rec1" [("Amount", VNone)]])
                      [VDict [("id", VStr "rec1"); ("Amount", VNone);
                              ("c_1Code", VNone)]]
                      (VList (metadata_of orders_stream))
                      eq_refl eq_refl) as H.
    cbv [records_of iterate] in H.
    apply Forall2_cons_iff in H. destruct H as [H _].
    apply (H "Amount" (VStr "Amount") "Amount" [("Amount", VNone)]).
    + simpl. auto.
    + discriminate.
    + reflexivity.
    + reflexivity.
    + reflexivity.
    + right. reflexivity.
  - apply (proj2 (null_raw_value orders_stream)); reflexivity.
Defined.

(** C8, as stated, fails for a selected column named [id]: its raw value is
    absent and the output record holds the record id under [id]. *)
Lemma selected_id_column_not_null :
  exists cols fields row,
    _find_selected_columns stream_with_id_field = Ok (cols, fields)
    /\ dict_has cols "id" = true
    /\ _find_column "id" (VList (metadata_of stream_with_id_field))
       = Ok (VStr "id")
    /\ absent_or_null [("Amount", VInt 10)] "id"
    /\ _map_records stream_with_id_field
         (VList [record "rec1" [("Amount", VInt 10)]]) = Ok [VDict row]
    /\ dict_get row "id" = Some (VStr "rec1").
Proof.
  do 3 eexists.
  split; [reflexivity | split; [reflexivity | split; [reflexivity |]]].
  split; [left; reflexivity | split; reflexivity].
Qed.

(** Every output record is the mapping of its raw record under the
    stream's schema and metadata. *)
Lemma map_records_each (stream records sch schema metadata : value)
  (rows : list value) (P : value -> value -> Prop) :
  getkey stream "schema" = Ok sch ->
  getkey sch "properties" = Ok schema ->
  getkey stream "metadata" = Ok metadata ->
  _map_records stream records = Ok rows ->
  (forall r out, map_record schema metadata r = Ok out -> P r out) ->
  Forall2 P (records_of records) rows.
Proof.
  intros Hsch Hprops Hmeta H HP. apply map_records_inv in H.
  destruct H as (sch' & schema' & metadata' & rs
                 & Hsch' & Hprops' & Hmeta' & Hrs & Hall).
  rewrite Hsch in Hsch'. injection Hsch' as <-.
  rewrite Hprops in Hprops'. injection Hprops' as <-.
  rewrite Hmeta in Hmeta'. injection Hmeta' as <-.
  unfold records_of. rewrite Hrs.
  exact (Forall2_impl _ HP Hall).
Qed.

(** The value a record holds for one of the columns of the schema: that of
    the column, or the record id when the column is [id]. *)
Lemma map_record_column (schema metadata r out : value) (cols : list value)
  (c : string) :
  iterate schema = Ok cols ->
  In (VStr c) cols ->
  map_record schema metadata r = Ok out ->
  exists v, column_value schema metadata r (VStr c) = Ok v
            /\ getkey out c
               = if String.eqb c "id" then getkey r "id" else Ok v.
Proof.
  intros Hcols Hin H. apply map_record_inv in H.
  destruct H as (cols' & row & id & Hcols' & Hfold & Hid & ->).
  rewrite Hcols in Hcols'. injection Hcols' as <-.
  destruct (map_columns_fold _ _ _ _ _ _ Hfold) as [Hkeys Hvals].
  assert (Hhas : dict_has row c = true) by (apply Hkeys; auto).
  unfold dict_has in Hhas.
  destruct (dict_get row c) as [v|] eqn:Hget; [|discriminate].
  destruct (Hvals c v Hget) as [Hc|[_ Hv]]; [discriminate|].
  exists v. split; [exact Hv|].
  destruct (String.eqb_spec c "id") as [->|Hne].
  - rewrite Hid. apply getkey_dict, dict_get_set_same.
  - apply getkey_dict. rewrite dict_get_set_other; [exact Hget | auto].
Qed.

(** C10.  When the per-column lookup finds no source-field-name for an
    output column, the mapper reads the raw value under the output column
    name itself.  The column's value is the one read under that name; in
    every output record the mapper produces, the read under that name went
    through and the column is there, with the value read (for a column
    named [id], with the record id written over it at the end of the
    record); and on a well-formed stream and raw records the mapper does
    return such records, one for each raw record. *)
Theorem find_column_fallback (metadata : value) (col : string) :
  _find_column col metadata = Ok VNone ->
  (forall schema r,
      column_value schema metadata r (VStr col)
      = read_under schema r col (VStr col))
  /\ (forall schema r cols out,
        iterate schema = Ok cols ->
        In (VStr col) cols ->
        map_record schema metadata r = Ok out ->
        exists v,
          read_under schema r col (VStr col) = Ok v
          /\ getkey out col
             = if String.eqb col "id" then getkey r "id" else Ok v)
  /\ (forall stream,
        getkey stream "metadata" = Ok metadata ->
        In (VStr col) (schema_columns stream) ->
        (forall sch schema records rows,
            getkey stream "schema" = Ok sch ->
            getkey sch "properties" = Ok schema ->
            _map_records stream records = Ok rows ->
            Forall2 (fun r out =>
                       exists v,
                         read_under schema r col (VStr col) = Ok v
                         /\ getkey out col
                            = if String.eqb col "id" then getkey r "id"
                              else Ok v)
                    (records_of records) rows)
        /\ (mappable_stream stream = true ->
            forall rs,
              forallb raw_record rs = true ->
              exists rows,
                _map_records stream (VList rs) = Ok rows
                /\ Forall2 (fun r out =>
                              exists v,
                                read_under (VDict (properties_of stream)) r
                                           col (VStr col) = Ok v
                                /\ getkey out col
                                   = if String.eqb col "id"
                                     then getkey r "id"
                                     else Ok v)
                           rs rows)).
Proof.
  intros Hfound.
  assert (Heq : forall schema r,
             column_value schema metadata r (VStr col)
             = read_under schema r col (VStr col)).
  { intros schema r. unfold column_value, read_under.
    destruct (getitem schema (VStr col)) as [col_def|]; [|reflexivity].
    cbn [bind]. destruct (getkey col_def "type") as [ty|]; [|reflexivity].
    cbn [bind]. destruct (getitem ty (VInt 1)) as [rt|]; [|reflexivity].
    cbn [bind as_key]. rewrite Hfound. reflexivity. }
  assert (Hrow : forall schema r cols out,
             iterate schema = Ok cols ->
             In (VStr col) cols ->
             map_record schema metadata r = Ok out ->
             exists v,
               read_under schema r col (VStr col) = Ok v
               /\ getkey out col
                  = if String.eqb col "id" then getkey r "id" else Ok v).
  { intros schema r cols out Hcols Hin Hr. rewrite <- Heq.
    exact (map_record_column schema metadata r out cols col Hcols Hin Hr). }
  split; [exact Heq | split; [exact Hrow|]].
  intros stream Hmeta Hin.
  assert (Hrows : forall sch schema records rows,
             getkey stream "schema" = Ok sch ->
             getkey sch "properties" = Ok schema ->
             _map_records stream records = Ok rows ->
             Forall2 (fun r out =>
                        exists v,
                          read_under schema r col (VStr col) = Ok v
                          /\ getkey out col
                             = if String.eqb col "id" then getkey r "id"
                               else Ok v)
                     (records_of records) rows).
  { intros sch schema records rows Hsch Hprops H.
    apply (map_records_each stream records sch schema metadata rows _
             Hsch Hprops Hmeta H).
    intros r out Hr.
    destruct (map_record_inv _ _ _ _ Hr) as (cols & _ & _ & Hcols & _).
    rewrite (schema_columns_eq stream sch schema cols Hsch Hprops Hcols)
      in Hin.
    exact (Hrow schema r cols out Hcols Hin Hr). }
  split; [exact Hrows|].
  intros Hs rs Hrs.
  destruct (map_records_total stream rs Hs Hrs) as (rows & H & _).
  exists rows. split; [exact H|].
  unfold mappable_stream in Hs.
  apply andb_true_iff in Hs. destruct Hs as [Hs _].
  apply andb_true_iff in Hs. destruct Hs as [Hs _].
  destruct (SelectionResolver.stream_descriptor_inv stream Hs)
    as (d & ms & sch & props & Hd & _ & Hsch & Hprops & _ & _ & Hps).
  rewrite Hps. subst stream.
  exact (Hrows (VDict sch) (VDict props) (VList rs) rows
           (getkey_dict d "schema" _ Hsch)
           (getkey_dict sch "properties" _ Hprops) H).
Qed.

Lemma find_column_fallback_witness :
  column_value (VDict (properties_of stream_without_annotation))
               (VList (metadata_of stream_without_annotation))
               (record "rec1" [("Notes", VInt 5)]) (VStr "Notes")
  = read_under (VDict (properties_of stream_without_annotation))
               (record "rec1" [("Notes", VInt 5)]) "Notes" (VStr "Notes")
  /\ exists rows,
      _map_records stream_without_annotation
                   (VList [record "rec1" [("Notes", VInt 5)]]) = Ok rows
      /\ Forall2 (fun r out =>
                    exists v,
                      read_under
                        (VDict (properties_of stream_without_annotation))
                        r "Notes" (VStr "Notes") = Ok v
                      /\ getkey out "Notes"
                         = if String.eqb "Notes" "id" then getkey r "id"
                           else Ok v)
                 [record "rec1" [("Notes", VInt 5)]] rows.
Proof.
  pose proof (find_column_fallback
                (VList (metadata_of stream_without_annotation)) "Notes"
                eq_refl)
    as (Hvalue & _ & Hstream).
  split.
  - apply Hvalue.
  - apply (proj2 (Hstream stream_without_annotation eq_refl
                          (or_intror (or_introl eq_refl))));
      reflexivity.
Defined.

(** On that record the column [Notes] holds the raw value read under
    [Notes], coerced to text. *)
Lemma unannotated_column_row :
  _map_records stream_without_annotation
    (VList [record "rec1" [("Notes", VInt 5)]])
  = Ok [VDict [("id", VStr "rec1"); ("Notes", VStr "5")]].
Proof. reflexivity. Qed.

(** The lookup finds none when no entry annotates the column. *)
Lemma find_column_none (col : string) (ms : list value) :
  (forall m, In m ms -> annotates m col = Ok false) ->
  _find_column col (VList ms) = Ok VNone.
Proof.
  unfold _find_column. cbn [iterate bind].
  induction ms as [|m ms IH]; intros H; cbn [find_column_in]; [reflexivity|].
  rewrite (H m (or_introl eq_refl)). cbn [bind].
  apply IH. intros m' Hm'. apply H. right. exact Hm'.
Qed.

(** *** The id column *)

(** C3, as amended.  For every table with no field named [id], the schema
    the catalog builder produces holds an [id] column of declared type
    string, included automatically; and in every output record the mapper
    produces, [id] holds the raw record's id as it is, whichever columns are
    selected. *)
Theorem id_column_and_record_id :
  (forall base_id base_name table e,
      no_id_field table = true ->
      discover_table base_id base_name table = Ok e ->
      dict_get (schema_properties e) "id" = Some id_schema)
  /\ (forall base_id base_name table,
        well_formed_table table = true ->
        exists e, discover_table base_id base_name table = Ok e)
  /\ (forall stream records rows,
        _map_records stream records = Ok rows ->
        Forall2 (fun r out =>
                   exists id, getkey r "id" = Ok id /\ getkey out "id" = Ok id)
                (records_of records) rows)
  /\ (forall stream rs,
        mappable_stream stream = true ->
        forallb raw_record rs = true ->
        exists rows, _map_records stream (VList rs) = Ok rows
                     /\ List.length rows = List.length rs).
Proof.
  split; [|split; [|split]].
  - intros base_id base_name table e Hno H.
    exact (CatalogBuilder.discover_table_id_column _ _ _ _ Hno H).
  - intros base_id base_name table Hwf.
    exact (CatalogBuilder.discover_table_total base_id base_name table Hwf).
  - intros stream records rows H.
    apply (map_records_rows stream records rows _ H).
    intros schema metadata r cols row _ _ _ Hr.
    exact (map_record_id schema metadata r _ Hr).
  - intros stream rs Hs Hrs. exact (map_records_total stream rs Hs Hrs).
Qed.

Lemma id_column_and_record_id_witness :
  (forall e,
      discover_table "app1" VNone
        (table_of [field "Amount" "number"; field "1Code" "singleLineText"])
      = Ok e ->
      dict_get (schema_properties e) "id" = Some id_schema)
  /\ Forall2 (fun r out =>
                exists id, getkey r "id" = Ok id /\ getkey out "id" = Ok id)
             [record "rec1" [("Amount", VInt 10)]]
             [VDict [("id", VStr "rec1"); ("Amount", VInt 10);
                     ("c_1Code", VNone)]].
Proof.
  split.
  - intros e.
    apply (proj1 id_column_and_record_id "app1" VNone
                 (table_of [field "Amount" "number";
                            field "1Code" "singleLineText"]) e).
    reflexivity.
  - apply (proj1 (proj2 (proj2 id_column_and_record_id)) orders_stream
                 (VList [record "rec1" [("Amount", VInt 10)]])).
    reflexivity.
Defined.

End RecordMapper.

(* ================================================================= *)
(** ** The sync driver *)

Module SyncDriver.
Import Py Singer Airtable Spec PyFacts.

Section Driver.
Variable slugify : string -> string.
Variable records_url : string.

(** A page without records leaves [offset] as it was: the loop asks for
    the same page again. *)
Lemma paginate_empty_page (responses : nat -> response) (fuel : nat)
  (stream : value) (base_id table table_slug : string)
  (fields : list value) (offset : value) (counter : nat)
  (status : Z) (content records : value) :
  truthy offset = true ->
  responses (S counter) = mkResponse status (Some content) ->
  ((400 <=? status) && (status <? 600))%Z = false ->
  get_method content (VStr "records") = Ok records ->
  truthy records = false ->
  paginate records_url responses (S fuel) stream (VStr base_id)
           table table_slug fields offset counter
  = io_bind
      (emit (Get (mkRequest
                    (VStr (records_url ++ base_id)) table
                    ((if truthy (VList fields)
                      then [("fields[]", VList fields)] else [])
                     ++ [("offset", offset)])%list
                    (S counter))))
      (fun _ => paginate records_url responses fuel stream
                         (VStr base_id) table table_slug fields offset
                         (S counter)).
Proof.
  intros Hoff Hresp Hstatus Hrecords Hempty.
  cbn [paginate]. rewrite Hoff. unfold get_response.
  cbn [str_add lift io_bind emit fst snd]. rewrite Hoff, Hresp.
  rewrite session_result_ok by exact Hstatus.
  cbn [lift io_bind fst snd app status_code]. rewrite Hstatus.
  unfold json_get. cbn [lift body io_bind fst snd]. rewrite Hrecords.
  cbn [lift io_bind fst snd]. rewrite Hempty.
  destruct (paginate records_url responses fuel stream
                     (VStr base_id) table table_slug fields offset
                     (S counter)) as [t o].
  reflexivity.
Qed.

Lemma paginate_stalled (fuel counter : nat) :
  paginate records_url stalled_api fuel orders_stream (VStr "app1")
           "Orders" (slugify "Orders") [VStr "Amount"] (VStr "itr1") counter
  = (retries records_url (S counter) fuel, OutOfFuel).
Proof.
  revert counter. induction fuel as [|fuel IH]; intros counter.
  - reflexivity.
  - rewrite (paginate_empty_page stalled_api fuel orders_stream "app1"
               "Orders" (slugify "Orders") [VStr "Amount"] (VStr "itr1")
               counter 200
               (VDict [("records", VList []); ("offset", VStr "itr2")])
               (VList []));
      try reflexivity.
    rewrite IH. reflexivity.
Qed.

(** C6 fails on the code.  After a first page with a record and a
    continuation token, pages without records do not stop the loop: the
    token is only replaced inside [if records], so the driver asks for the
    same page again, and against an upstream that keeps answering with
    empty pages it never finishes, whatever the bound on the number of
    iterations. *)
Theorem empty_page_never_stops (fuel : nat) :
  sync_stream slugify records_url stalled_api fuel orders_stream
  = (([Get (orders_request records_url [] 0);
       WriteSchema (slugify "Orders") orders_schema (VList []);
       WriteRecords (slugify "Orders") [orders_row "rec1" 10]]
       ++ retries records_url 1 fuel)%list,
     OutOfFuel).
Proof.
  change (sync_stream slugify records_url stalled_api fuel orders_stream)
    with (io_bind
            ([Get (orders_request records_url [] 0);
              WriteSchema (slugify "Orders") orders_schema (VList []);
              WriteRecords (slugify "Orders") [orders_row "rec1" 10]],
             Done tt)
            (fun _ : unit =>
               paginate records_url stalled_api fuel orders_stream
                        (VStr "app1") "Orders" (slugify "Orders")
                        [VStr "Amount"] (VStr "itr1") 0)).
  rewrite paginate_stalled. reflexivity.
Qed.

(** Two pages, the second without a token: three records in page order,
    two requests. *)
Lemma two_pages_sync (fuel : nat) :
  sync_stream slugify records_url two_pages_api (S fuel) orders_stream
  = ([Get (orders_request records_url [] 0);
      WriteSchema (slugify "Orders") orders_schema (VList []);
      WriteRecords (slugify "Orders")
                   [orders_row "rec1" 10; orders_row "rec2" 20];
      Get (orders_request records_url [("offset", VStr "itr1")] 1);
      WriteRecords (slugify "Orders") [orders_row "rec3" 30]],
     Done tt).
Proof. destruct fuel; reflexivity. Qed.

(** A first page without records ends the stream with nothing written. *)
Lemma empty_first_page_sync (fuel : nat) :
  sync_stream slugify records_url (fun _ => page [] (VStr "itr1")) fuel
              orders_stream
  = ([Get (orders_request records_url [] 0)], Done tt).
Proof. reflexivity. Qed.
End Driver.

End SyncDriver.

(* ================================================================= *)
(** ** The catalog that discovery produces *)

Module CatalogFacts.
Import Py Singer Airtable Spec PyFacts.

(** *** Compiled metadata *)

Lemma list_eqb_eq (l1 l2 : list string) : list_eqb l1 l2 = true <-> l1 = l2.
Proof.
  unfold list_eqb. revert l2.
  induction l1 as [|a l1 IH]; intros [|b l2]; simpl; split;
    try discriminate; try reflexivity.
  - intros H. apply andb_true_iff in H. destruct H as [Hlen H].
    apply andb_true_iff in H. destruct H as [Hab H].
    apply String.eqb_eq in Hab. subst b. f_equal.
    apply IH. now rewrite Hlen, H.
  - intros H. injection H as -> ->. rewrite String.eqb_refl. simpl.
    apply (IH l2). reflexivity.
Qed.

Lemma breadcrumb_eqb_eq (a b : breadcrumb) :
  breadcrumb_eqb a b = true <-> a = b.
Proof.
  destruct a as [s|l1], b as [t|l2]; simpl.
  - rewrite String.eqb_eq. split; [now intros -> | now intros [= ->]].
  - split; discriminate.
  - split; discriminate.
  - rewrite list_eqb_eq. split; [now intros -> | now intros [= ->]].
Qed.

Lemma breadcrumb_eqb_refl (a : breadcrumb) : breadcrumb_eqb a a = true.
Proof. now apply breadcrumb_eqb_eq. Qed.

Lemma breadcrumb_eqb_neq (a b : breadcrumb) :
  a <> b -> breadcrumb_eqb a b = false.
Proof.
  intros Hne. destruct (breadcrumb_eqb a b) eqn:E; [|reflexivity].
  apply breadcrumb_eqb_eq in E. contradiction.
Qed.

Lemma compiled_get_update_same (meta : compiled) (bc : breadcrumb)
  (k : string) (v : value) :
  exists md, compiled_get (compiled_update meta bc k v) bc = Some md
             /\ dict_get md k = Some v
             /\ forall k', k <> k' ->
                           dict_get md k'
                           = match compiled_get meta bc with
                             | Some md0 => dict_get md0 k'
                             | None => None
                             end.
Proof.
  induction meta as [|[b md0] meta IH]; simpl.
  - rewrite breadcrumb_eqb_refl. eexists. split; [reflexivity|]. simpl.
    rewrite String.eqb_refl. split; [reflexivity|].
    intros k' Hne. apply String.eqb_neq in Hne. now rewrite Hne.
  - destruct (breadcrumb_eqb b bc) eqn:E; simpl; rewrite E.
    + eexists. split; [reflexivity|]. split.
      * apply dict_get_set_same.
      * intros k' Hne. now apply dict_get_set_other.
    + exact IH.
Qed.

Lemma compiled_get_update_other (meta : compiled) (bc bc' : breadcrumb)
  (k : string) (v : value) :
  bc <> bc' ->
  compiled_get (compiled_update meta bc k v) bc' = compiled_get meta bc'.
Proof.
  intros Hne. induction meta as [|[b md0] meta IH]; simpl.
  - now rewrite (breadcrumb_eqb_neq bc bc' Hne).
  - destruct (breadcrumb_eqb b bc) eqn:E; simpl.
    + apply breadcrumb_eqb_eq in E. subst b.
      now rewrite (breadcrumb_eqb_neq bc bc' Hne).
    + now rewrite IH.
Qed.

Lemma write_Ok (meta meta' : compiled) (bc : breadcrumb) (k : string)
  (v : value) :
  write meta bc k v = Ok meta' ->
  meta' = compiled_update meta bc k v /\ v <> VNone.
Proof.
  unfold write. destruct v; try discriminate;
    intros H; injection H as <-; split; (reflexivity || discriminate).
Qed.

(** *** One field, in full *)

Lemma discover_field_inv cols meta (f : value) cols' meta' :
  discover_field (cols, meta) f = Ok (cols', meta') ->
  exists name c col_schema ty meta1,
    getkey f "name" = Ok name
    /\ field_name name = Ok (VStr c)
    /\ column_schema f = Ok col_schema
    /\ cols' = dict_set cols c col_schema
    /\ config_type f = Ok ty
    /\ truthy ty = true
    /\ name <> VNone
    /\ (meta1 = meta
        \/ meta1 = compiled_update meta (column_breadcrumb c) "inclusion"
                                   (VStr "available"))
    /\ meta' = compiled_update
                 (compiled_update meta1 (column_breadcrumb c) "airtable_type" ty)
                 (column_breadcrumb c) "airtable_field" name.
Proof.
  unfold discover_field. intros H. inv_bind H.
  injection H as <- <-.
  destruct a0; try discriminate. simpl in Ha2. injection Ha2 as <-.
  apply write_Ok in Ha6. destruct Ha6 as [-> Hty].
  apply write_Ok in Ha7. destruct Ha7 as [-> Hname].
  assert (Htruthy : truthy a5 = true).
  { unfold py_or in Hty. destruct (truthy a5); [reflexivity | congruence]. }
  unfold py_or. rewrite Htruthy.
  exists a, s, a1, a5, a4.
  split; [exact Ha|]. split; [exact Ha0|]. split; [exact Ha1|].
  split; [reflexivity|]. split; [exact Ha5|]. split; [exact Htruthy|].
  split; [exact Hname|]. split; [|reflexivity].
  destruct a3; [|injection Ha4 as <-; auto].
  apply bind_Ok in Ha4. destruct Ha4 as (ty' & _ & Ha4).
  destruct (in_strs ty' pk_types).
  - apply write_Ok in Ha4. destruct Ha4 as [-> _]. auto.
  - injection Ha4 as <-. auto.
Qed.

Lemma compiled_update_Forall (P : breadcrumb * list (string * value) -> Prop)
  (meta : compiled) (bc : breadcrumb) (k : string) (v : value) :
  Forall P meta ->
  P (bc, [(k, v)]) ->
  (forall b md, P (b, md) -> P (b, dict_set md k v)) ->
  Forall P (compiled_update meta bc k v).
Proof.
  intros Hall Hnew Hset. induction Hall as [|[b md] meta Hb Hrest IH]; simpl.
  - constructor; [exact Hnew | constructor].
  - destruct (breadcrumb_eqb b bc); constructor; auto.
Qed.

(** What one discovered field does to the two accumulators. *)
Lemma discover_field_effect cols meta (f : value) cols' meta' :
  discover_field (cols, meta) f = Ok (cols', meta') ->
  exists name c col_schema ty,
    getkey f "name" = Ok name
    /\ output_name f = Ok (VStr c)
    /\ column_schema f = Ok col_schema
    /\ config_type f = Ok ty
    /\ cols' = dict_set cols c col_schema
    /\ column_annotation_of meta' c "airtable_field" = name
    /\ column_annotation_of meta' c "airtable_type" = ty
    /\ (forall bc, bc <> column_breadcrumb c ->
                   compiled_get meta' bc = compiled_get meta bc)
    /\ (forall P : breadcrumb * list (string * value) -> Prop,
          Forall P meta ->
          (forall k v, In k ["inclusion"; "airtable_type"; "airtable_field"] ->
                       P (column_breadcrumb c, [(k, v)])
                       /\ forall b md, P (b, md) -> P (b, dict_set md k v)) ->
          Forall P meta').
Proof.
  intros H. apply discover_field_inv in H.
  destruct H as (name & c & sch & ty & meta1 & Hname & Hfn & Hsch & -> & Hty
                 & _ & _ & Hmeta1 & ->).
  exists name, c, sch, ty.
  split; [exact Hname|]. split; [unfold output_name; now rewrite Hname|].
  split; [exact Hsch|]. split; [exact Hty|]. split; [reflexivity|].
  set (bc := column_breadcrumb c).
  set (m2 := compiled_update meta1 bc "airtable_type" ty).
  destruct (compiled_get_update_same m2 bc "airtable_field" name)
    as (md & Hget & Hfield & Hrest).
  destruct (compiled_get_update_same meta1 bc "airtable_type" ty)
    as (md2 & Hget2 & Htype & _).
  split; [|split; [|split]].
  - unfold column_annotation_of. fold bc. now rewrite Hget, Hfield.
  - unfold column_annotation_of. fold bc. rewrite Hget.
    rewrite (Hrest "airtable_type") by discriminate.
    unfold m2. now rewrite Hget2, Htype.
  - intros bc' Hne.
    rewrite compiled_get_update_other by (intro; subst; contradiction).
    unfold m2.
    rewrite compiled_get_update_other by (intro; subst; contradiction).
    destruct Hmeta1 as [->| ->]; [reflexivity|].
    apply compiled_get_update_other. intro; subst; contradiction.
  - intros P Hall HP.
    assert (Hm1 : Forall P meta1).
    { destruct Hmeta1 as [->| ->]; [exact Hall|].
      destruct (HP "inclusion" (VStr "available")) as [Hnew Hset];
        [simpl; auto|].
      apply compiled_update_Forall; auto. }
    destruct (HP "airtable_type" ty) as [Hnew2 Hset2]; [simpl; auto|].
    destruct (HP "airtable_field" name) as [Hnew3 Hset3]; [simpl; auto|].
    apply compiled_update_Forall; auto.
    apply compiled_update_Forall; auto.
Qed.

Lemma foldM_app {A B} (body : A -> B -> res A) (xs ys : list B) (a : A) :
  foldM body a (xs ++ ys) = bind (foldM body a xs) (fun a' => foldM body a' ys).
Proof.
  revert a. induction xs as [|x xs IH]; intros a; simpl; [reflexivity|].
  destruct (body a x) as [a1|e]; simpl; [apply IH | reflexivity].
Qed.

(** *** The fields of a table *)

(** The columns after the loop are those before it and the output names of
    the fields. *)
Lemma discover_fields_columns (fs : list value) :
  forall cols0 meta0 cols meta,
    foldM discover_field (cols0, meta0) fs = Ok (cols, meta) ->
    forall c, dict_has cols c = true <->
              dict_has cols0 c = true
              \/ exists f, In f fs /\ output_name f = Ok (VStr c).
Proof.
  induction fs as [|f fs IH]; intros cols0 meta0 cols meta H c.
  - simpl in H. injection H as <- <-.
    split; [auto | intros [H|(f & [] & _)]; exact H].
  - cbn [foldM] in H. apply bind_Ok in H. destruct H as ([cols1 meta1] & Hf & H).
    destruct (discover_field_effect _ _ _ _ _ Hf)
      as (name & c1 & sch & ty & _ & Hout & _ & _ & -> & _).
    rewrite (IH _ _ _ _ H c), dict_has_set. split.
    + intros [Hc|(g & Hg & Hgc)].
      * apply orb_true_iff in Hc. destruct Hc as [Hc|Hc]; [|auto].
        apply String.eqb_eq in Hc. subst c1. right. exists f. simpl. auto.
      * right. exists g. simpl. auto.
    + intros [Hc|(g & [<-|Hg] & Hgc)].
      * left. rewrite Hc. apply orb_true_r.
      * left. rewrite Hout in Hgc. injection Hgc as ->.
        now rewrite String.eqb_refl.
      * right. eauto.
Qed.

(** Fields with other output names leave a column and its annotations as
    they are. *)
Lemma discover_fields_frame (fs : list value) (c : string) :
  (forall f, In f fs -> output_name f <> Ok (VStr c)) ->
  forall cols0 meta0 cols meta,
    foldM discover_field (cols0, meta0) fs = Ok (cols, meta) ->
    dict_get cols c = dict_get cols0 c
    /\ compiled_get meta (column_breadcrumb c)
       = compiled_get meta0 (column_breadcrumb c).
Proof.
  induction fs as [|f fs IH]; intros Hno cols0 meta0 cols meta H.
  - simpl in H. injection H as <- <-. auto.
  - cbn [foldM] in H. apply bind_Ok in H. destruct H as ([cols1 meta1] & Hf & H).
    destruct (discover_field_effect _ _ _ _ _ Hf)
      as (name & c1 & sch & ty & _ & Hout & _ & _ & -> & _ & _ & Hother & _).
    assert (Hne : c1 <> c).
    { intros ->. exact (Hno f (or_introl eq_refl) Hout). }
    destruct (IH (fun g Hg => Hno g (or_intror Hg)) _ _ _ _ H) as [Hcols Hmeta].
    rewrite Hcols, Hmeta. split.
    + now apply dict_get_set_other.
    + apply Hother. unfold column_breadcrumb. congruence.
Qed.

(** Breadcrumbs other than those of columns are not touched. *)
Lemma discover_fields_other (fs : list value) (bc : breadcrumb) :
  (forall c, bc <> column_breadcrumb c) ->
  forall cols0 meta0 cols meta,
    foldM discover_field (cols0, meta0) fs = Ok (cols, meta) ->
    compiled_get meta bc = compiled_get meta0 bc.
Proof.
  intros Hbc. induction fs as [|f fs IH]; intros cols0 meta0 cols meta H.
  - simpl in H. now injection H as <- <-.
  - cbn [foldM] in H. apply bind_Ok in H. destruct H as ([cols1 meta1] & Hf & H).
    destruct (discover_field_effect _ _ _ _ _ Hf)
      as (name & c1 & sch & ty & _ & _ & _ & _ & _ & _ & _ & Hother & _).
    rewrite (IH _ _ _ _ H). apply Hother, Hbc.
Qed.

(** A property of the entries of compiled metadata that every write of the
    loop keeps is kept by the loop. *)
Lemma discover_fields_Forall (P : breadcrumb * list (string * value) -> Prop) :
  (forall c k v, In k ["inclusion"; "airtable_type"; "airtable_field"] ->
                 P (column_breadcrumb c, [(k, v)])
                 /\ forall b md, P (b, md) -> P (b, dict_set md k v)) ->
  forall fs cols0 meta0 cols meta,
    foldM discover_field (cols0, meta0) fs = Ok (cols, meta) ->
    Forall P meta0 -> Forall P meta.
Proof.
  intros HP fs. induction fs as [|f fs IH]; intros cols0 meta0 cols meta H Hall.
  - simpl in H. now injection H as <- <-.
  - cbn [foldM] in H. apply bind_Ok in H. destruct H as ([cols1 meta1] & Hf & H).
    destruct (discover_field_effect _ _ _ _ _ Hf)
      as (name & c1 & sch & ty & _ & _ & _ & _ & _ & _ & _ & _ & Hkeep).
    apply (IH _ _ _ _ H). apply Hkeep; [exact Hall|]. intros k v Hk.
    exact (HP c1 k v Hk).
Qed.

(** The last field with a given output name decides the column. *)
Lemma discover_fields_last (pre post : list value) (f : value) (c : string) :
  output_name f = Ok (VStr c) ->
  (forall g, In g post -> output_name g <> Ok (VStr c)) ->
  forall cols0 meta0 cols meta,
    foldM discover_field (cols0, meta0) (pre ++ f :: post) = Ok (cols, meta) ->
    exists name col_schema ty,
      getkey f "name" = Ok name
      /\ column_schema f = Ok col_schema
      /\ config_type f = Ok ty
      /\ dict_get cols c = Some col_schema
      /\ column_annotation_of meta c "airtable_field" = name
      /\ column_annotation_of meta c "airtable_type" = ty.
Proof.
  intros Hout Hpost cols0 meta0 cols meta H.
  rewrite foldM_app in H. apply bind_Ok in H. destruct H as ([cols1 meta1] & _ & H).
  cbn [foldM] in H. apply bind_Ok in H. destruct H as ([cols2 meta2] & Hf & H).
  destruct (discover_field_effect _ _ _ _ _ Hf)
    as (name & c1 & sch & ty & Hname & Hout1 & Hsch & Hty & -> & Hfield & Htype & _).
  rewrite Hout in Hout1. injection Hout1 as <-.
  destruct (discover_fields_frame post c Hpost _ _ _ _ H) as [Hcols Hmeta].
  exists name, sch, ty.
  split; [exact Hname|]. split; [exact Hsch|]. split; [exact Hty|].
  split; [|split].
  - rewrite Hcols. apply dict_get_set_same.
  - unfold column_annotation_of in *. now rewrite Hmeta.
  - unfold column_annotation_of in *. now rewrite Hmeta.
Qed.

(** *** One table *)

Lemma discover_table_inv (base_id : string) (base_name table : value)
  (e : CatalogEntry) :
  discover_table base_id base_name table = Ok e ->
  exists meta,
    foldM discover_field
          ([("id", id_schema)],
           [(BTuple [], [("inclusion", VStr "available")]);
            (BStr "database_name", [("base_id", VStr base_id)])])
          (table_fields table)
    = Ok (schema_properties e, meta)
    /\ metadata e = to_list meta
    /\ getkey table "id" = Ok (tap_stream_id e)
    /\ getkey table "name" = Ok (stream e)
    /\ Singer.table e = stream e
    /\ key_properties e = []
    /\ database e = py_or base_name (VStr base_id).
Proof.
  unfold discover_table, table_fields. intros H. simpl in H. inv_bind H.
  destruct a2 as [cols meta]. inv_bind H. injection H as <-. simpl.
  rewrite Ha0, Ha1. exists meta. auto 10.
Qed.

(** X1.  The columns of a discovered schema are [id] and the output column
    names of the table's fields: none is dropped and none is made up. *)
Theorem discovered_columns (base_id : string) (base_name table : value)
  (e : CatalogEntry) :
  discover_table base_id base_name table = Ok e ->
  forall c, dict_has (schema_properties e) c = true <->
            c = "id"
            \/ exists f, In f (table_fields table)
                         /\ output_name f = Ok (VStr c).
Proof.
  intros H c. destruct (discover_table_inv _ _ _ _ H) as (meta & Hfold & _).
  rewrite (discover_fields_columns _ _ _ _ _ Hfold c).
  assert (Hid : dict_has [("id", id_schema)] c = String.eqb "id" c).
  { unfold dict_has, dict_get. now destruct (String.eqb "id" c). }
  rewrite Hid, String.eqb_eq. split.
  - intros [<-|Hc]; auto.
  - intros [->|Hc]; auto.
Qed.

Lemma discovered_columns_witness :
  exists e,
    discover_table "app1" VNone two_field_table = Ok e
    /\ dict_has (schema_properties e) "c_1Code" = true
    /\ dict_has (schema_properties e) "1Code" = false.
Proof.
  destruct (discover_table "app1" VNone two_field_table) as [e|err] eqn:H;
    [|vm_compute in H; discriminate H].
  exists e. split; [reflexivity|].
  pose proof (discovered_columns "app1" VNone two_field_table e H) as Hcols.
  split.
  - apply Hcols. right. exists (field "1Code" "singleLineText").
    split; [simpl; auto | reflexivity].
  - destruct (dict_has (schema_properties e) "1Code") eqn:E; [|reflexivity].
    apply Hcols in E. destruct E as [E|(f & Hf & Hout)]; [discriminate E|].
    simpl in Hf.
    destruct Hf as [<-|[<-|[]]]; vm_compute in Hout; discriminate Hout.
Defined.

(** On the metadata list of a catalog the per-column lookup reads the
    [airtable_field] stored under the column's breadcrumb. *)
Lemma find_column_compiled (c : string) (meta : compiled) :
  Forall (fun en => catalog_breadcrumb (fst en) = true) meta ->
  find_column_in c (to_list meta)
  = Ok (column_annotation_of meta c "airtable_field").
Proof.
  unfold column_annotation_of.
  induction 1 as [|[b md] meta Hb _ IH]; [reflexivity|].
  cbn [to_list map find_column_in fst snd compiled_get].
  rewrite (RecordMapper.annotates_entry
             [("breadcrumb", breadcrumb_value b); ("metadata", VDict md)]
             (breadcrumb_value b) c eq_refl).
  simpl in Hb.
  destruct b as [s|[|p [|x [|y l]]]]; try discriminate Hb.
  - apply String.eqb_eq in Hb. subst s. exact IH.
  - exact IH.
  - apply String.eqb_eq in Hb. subst p.
    cbn [breadcrumb_value map str_in existsb eq_str bind]. simpl String.eqb.
    cbn [orb bind].
    rewrite (RecordMapper.has_airtable_field_entry
               [("breadcrumb", VList [VStr "properties"; VStr x]);
                ("metadata", VDict md)] md eq_refl).
    rewrite (getkey_dict
               [("breadcrumb", VList [VStr "properties"; VStr x]);
                ("metadata", VDict md)] "metadata" (VDict md) eq_refl).
    change (getitem (VList [VStr "properties"; VStr x]) (VInt 1))
      with (Ok (VStr x)).
    assert (Heq : breadcrumb_eqb (BTuple ["properties"; x]) (column_breadcrumb c)
                  = String.eqb x c).
    { unfold column_breadcrumb, breadcrumb_eqb, list_eqb. simpl.
      apply andb_true_r. }
    rewrite Heq. cbn [bind eq_str].
    destruct (String.eqb x c); cbn [bind]; [|exact IH].
    unfold records_source_field, dict_has.
    destruct (dict_get md "airtable_field") as [v|] eqn:Hv; cbn [bind].
    + now rewrite (getkey_dict md "airtable_field" v Hv).
    + reflexivity.
Qed.

Lemma discovered_breadcrumbs (base_id : string) (base_name table : value)
  (e : CatalogEntry) (meta : compiled) :
  foldM discover_field
        ([("id", id_schema)],
         [(BTuple [], [("inclusion", VStr "available")]);
          (BStr "database_name", [("base_id", VStr base_id)])])
        (table_fields table)
  = Ok (schema_properties e, meta) ->
  Forall (fun en => catalog_breadcrumb (fst en) = true) meta.
Proof.
  intros Hfold.
  apply (discover_fields_Forall
           (fun en => catalog_breadcrumb (fst en) = true)) in Hfold.
  - exact Hfold.
  - intros c k v _. split; [reflexivity | auto].
  - repeat constructor.
Qed.

(** X2.  The last field with a given output column name decides the column:
    the schema holds that field's declared type under the name, and the
    per-column lookup on the catalog's metadata gives that field's source
    name back.  With distinct output names this is every field. *)
Theorem last_field_decides_column (base_id : string) (base_name table : value)
  (e : CatalogEntry) (pre post : list value) (f : value) (c : string) :
  discover_table base_id base_name table = Ok e ->
  table_fields table = (pre ++ f :: post)%list ->
  output_name f = Ok (VStr c) ->
  (forall g, In g post -> output_name g <> Ok (VStr c)) ->
  exists name col_schema,
    getkey f "name" = Ok name
    /\ column_schema f = Ok col_schema
    /\ dict_get (schema_properties e) c = Some col_schema
    /\ _find_column c (VList (metadata e)) = Ok name.
Proof.
  intros H Hfs Hout Hpost.
  destruct (discover_table_inv _ _ _ _ H) as (meta & Hfold & Hmeta & _).
  pose proof (discovered_breadcrumbs _ base_name _ _ _ Hfold) as Hshape.
  rewrite Hfs in Hfold.
  destruct (discover_fields_last pre post f c Hout Hpost _ _ _ _ Hfold)
    as (name & sch & ty & Hname & Hsch & _ & Hcol & Hfield & _).
  exists name, sch.
  split; [exact Hname|]. split; [exact Hsch|]. split; [exact Hcol|].
  unfold _find_column. cbn [iterate bind].
  now rewrite Hmeta, (find_column_compiled c meta Hshape), Hfield.
Qed.

Lemma last_field_decides_column_witness :
  exists e name col_schema,
    discover_table "app1" VNone colliding_table = Ok e
    /\ getkey (field "1Code" "singleLineText") "name" = Ok name
    /\ column_schema (field "1Code" "singleLineText") = Ok col_schema
    /\ dict_get (schema_properties e) "c_1Code" = Some col_schema
    /\ _find_column "c_1Code" (VList (metadata e)) = Ok name.
Proof.
  destruct (discover_table "app1" VNone colliding_table) as [e|err] eqn:H;
    [|vm_compute in H; discriminate H].
  destruct (last_field_decides_column "app1" VNone colliding_table e
              [field "c_1Code" "number"] [] (field "1Code" "singleLineText")
              "c_1Code" H eq_refl eq_refl (fun g (Hg : In g []) => match Hg with end))
    as (name & col_schema & Hname & Hsch & Hcol & Hfind).
  exists e, name, col_schema. auto.
Defined.

(** The metadata of a discovered entry holds no [selected] annotation. *)
Lemma discovered_unselected (base_id : string) (table : value)
  (e : CatalogEntry) (meta : compiled) :
  foldM discover_field
        ([("id", id_schema)],
         [(BTuple [], [("inclusion", VStr "available")]);
          (BStr "database_name", [("base_id", VStr base_id)])])
        (table_fields table)
  = Ok (schema_properties e, meta) ->
  Forall (fun en => dict_has (snd en) "selected" = false) meta.
Proof.
  intros Hfold.
  apply (discover_fields_Forall
           (fun en => dict_has (snd en) "selected" = false)) in Hfold.
  - exact Hfold.
  - intros c k v Hk. split.
    + simpl in Hk. destruct Hk as [<-|[<-|[<-|[]]]]; reflexivity.
    + intros b md Hmd. simpl in *. rewrite dict_has_set, Hmd.
      destruct Hk as [<-|[<-|[<-|[]]]]; reflexivity.
  - repeat constructor.
Qed.

Lemma select_nothing (d : list (string * value)) (meta : compiled) :
  Forall (fun en => dict_has (snd en) "selected" = false) meta ->
  forall acc, foldM (select_column (VDict d)) acc (to_list meta) = Ok acc.
Proof.
  induction 1 as [|[b md] meta Hb _ IH]; intros [cols fields]; [reflexivity|].
  cbn [to_list map foldM fst snd].
  rewrite (SelectionResolver.select_column_skip d
             [("breadcrumb", breadcrumb_value b); ("metadata", VDict md)]
             (breadcrumb_value b) md cols fields eq_refl eq_refl).
  - cbn [bind]. apply IH.
  - simpl in Hb.
    assert (Hsel : marked_selected md = false).
    { unfold marked_selected. unfold dict_has in Hb.
      now destruct (dict_get md "selected"). }
    rewrite Hsel. simpl.
    destruct b as [s|l]; simpl.
    + destruct (substring_of "properties" s); auto.
    + destruct (existsb (fun x => eq_str x "properties") (map VStr l)); auto.
Qed.

(** X3.  Discovery marks no column selected: on the metadata of a discovered
    entry the selection resolver returns no column and no field name, so a
    sync of the catalog as discovered asks for unrestricted pages. *)
Theorem discovery_selects_nothing (base_id : string) (base_name table : value)
  (e : CatalogEntry) (stream : value) :
  discover_table base_id base_name table = Ok e ->
  carries_metadata stream e ->
  _find_selected_columns stream = Ok ([], []).
Proof.
  intros H Hmeta. unfold carries_metadata in Hmeta.
  destruct (discover_table_inv _ _ _ _ H) as (meta & Hfold & Hlist & _).
  destruct stream as [| | | | | |d]; try discriminate Hmeta.
  unfold _find_selected_columns. rewrite Hmeta. cbn [bind iterate].
  rewrite Hlist.
  exact (select_nothing d meta (discovered_unselected _ _ _ _ Hfold) ([], [])).
Qed.

Lemma discovery_selects_nothing_witness :
  exists e,
    discover_table "app1" VNone two_field_table = Ok e
    /\ _find_selected_columns (VDict [("metadata", VList (metadata e))])
       = Ok ([], []).
Proof.
  destruct (discover_table "app1" VNone two_field_table) as [e|err] eqn:H;
    [|vm_compute in H; discriminate H].
  exists e. split; [reflexivity|].
  apply (discovery_selects_nothing "app1" VNone two_field_table e _ H).
  reflexivity.
Defined.

(** The scan for the base id finds what is stored under the breadcrumb
    [database_name]. *)
Lemma find_base_id_compiled (d : list (string * value)) (meta : compiled) :
  dict_get d "metadata" = Some (VList (to_list meta)) ->
  _find_base_id (VDict d)
  = match compiled_get meta (BStr "database_name") with
    | Some md => getkey (VDict md) "base_id"
    | None => Raise (PyException "catalog schema is missing base id")
    end.
Proof.
  intros Hmeta. unfold _find_base_id.
  rewrite (getkey_dict d "metadata" _ Hmeta). cbn [bind iterate].
  clear Hmeta. induction meta as [|[b md] meta IH]; [reflexivity|].
  cbn [to_list map fst snd compiled_get]. cbn [str_in]. unfold dict_has.
  cbn [dict_get String.eqb Ascii.eqb Bool.eqb bind].
  rewrite (getkey_dict
             [("breadcrumb", breadcrumb_value b); ("metadata", VDict md)]
             "breadcrumb" (breadcrumb_value b) eq_refl).
  cbn [bind].
  destruct b as [s|l]; cbn [breadcrumb_value eq_str breadcrumb_eqb].
  - destruct (String.eqb s "database_name"); cbn [bind].
    + now rewrite (getkey_dict
                     [("breadcrumb", VStr s); ("metadata", VDict md)]
                     "metadata" (VDict md) eq_refl).
    + exact IH.
  - exact IH.
Qed.

(** X4.  The base id that discovery writes is the one sync finds: on the
    metadata of a discovered entry [_find_base_id] returns the base id the
    table was discovered under. *)
Theorem discovered_base_id (base_id : string) (base_name table : value)
  (e : CatalogEntry) (stream : value) :
  discover_table base_id base_name table = Ok e ->
  carries_metadata stream e ->
  _find_base_id stream = Ok (VStr base_id).
Proof.
  intros H Hmeta. unfold carries_metadata in Hmeta.
  destruct (discover_table_inv _ _ _ _ H) as (meta & Hfold & Hlist & _).
  destruct stream as [| | | | | |d]; try discriminate Hmeta.
  rewrite Hlist in Hmeta.
  assert (Hd : dict_get d "metadata" = Some (VList (to_list meta))).
  { unfold getkey, getitem in Hmeta.
    destruct (dict_get d "metadata"); [now injection Hmeta as -> | discriminate]. }
  rewrite (find_base_id_compiled d meta Hd).
  rewrite (discover_fields_other _ (BStr "database_name")
             (fun c => ltac:(discriminate)) _ _ _ _ Hfold).
  reflexivity.
Qed.

Lemma discovered_base_id_witness :
  exists e,
    discover_table "app1" VNone two_field_table = Ok e
    /\ _find_base_id (VDict [("metadata", VList (metadata e))])
       = Ok (VStr "app1").
Proof.
  destruct (discover_table "app1" VNone two_field_table) as [e|err] eqn:H;
    [|vm_compute in H; discriminate H].
  exists e. split; [reflexivity|].
  apply (discovered_base_id "app1" VNone two_field_table e _ H).
  reflexivity.
Defined.

(** X5.  A catalog without an entry under the breadcrumb [database_name]
    has no base id: [_find_base_id] raises its exception. *)
Theorem missing_base_id (d : list (string * value)) (ms : list value) :
  dict_get d "metadata" = Some (VList ms) ->
  forallb other_entry ms = true ->
  _find_base_id (VDict d)
  = Raise (PyException "catalog schema is missing base id").
Proof.
  intros Hmeta Hms. unfold _find_base_id.
  rewrite (getkey_dict d "metadata" _ Hmeta). cbn [bind iterate].
  clear Hmeta. induction ms as [|m ms IH]; [reflexivity|].
  cbn [forallb] in Hms. apply andb_true_iff in Hms. destruct Hms as [Hm Hms].
  destruct m as [| | | | | |en]; try discriminate Hm.
  unfold other_entry in Hm. cbn [str_in]. unfold dict_has.
  destruct (dict_get en "breadcrumb") as [bc|] eqn:Hbc; cbn [bind].
  - rewrite (getkey_dict en "breadcrumb" bc Hbc). cbn [bind].
    apply negb_true_iff in Hm. rewrite Hm. exact (IH Hms).
  - exact (IH Hms).
Qed.

Lemma missing_base_id_witness :
  _find_base_id
    (VDict [("metadata",
             VList [VDict [("breadcrumb", VList []);
                           ("metadata", VDict [("inclusion", VStr "available")])];
                    annotation "Amount" [("airtable_field", VStr "Amount")]])])
  = Raise (PyException "catalog schema is missing base id").
Proof.
  apply (missing_base_id
           [("metadata",
             VList [VDict [("breadcrumb", VList []);
                           ("metadata", VDict [("inclusion", VStr "available")])];
                    annotation "Amount" [("airtable_field", VStr "Amount")]])]
           [VDict [("breadcrumb", VList []);
                   ("metadata", VDict [("inclusion", VStr "available")])];
            annotation "Amount" [("airtable_field", VStr "Amount")]]);
    reflexivity.
Defined.

(** *** One base *)

(** X6.  [discover_base] gives one entry for each table of the response, in
    the order of the tables; an entry carries its table's id and name, the
    base name or else the base id as database, and an empty key list. *)
Theorem discover_base_entries (body : value) (base_id : string)
  (base_name : value) (entries : list CatalogEntry) :
  discover_base body base_id base_name = Ok entries ->
  exists tables ts,
    getkey body "tables" = Ok tables
    /\ iterate tables = Ok ts
    /\ Forall2 (fun t e =>
                  getkey t "id" = Ok (tap_stream_id e)
                  /\ getkey t "name" = Ok (stream e)
                  /\ Singer.table e = stream e
                  /\ database e = py_or base_name (VStr base_id)
                  /\ key_properties e = [])
               ts entries.
Proof.
  unfold discover_base. intros H. inv_bind H.
  exists a, a0. split; [exact Ha|]. split; [exact Ha0|].
  apply mapM_Forall2 in H. clear Ha Ha0.
  induction H as [|t e ts es Ht _ IH]; [constructor|].
  constructor; [|exact IH].
  destruct (discover_table_inv _ _ _ _ Ht)
    as (meta & _ & _ & Hid & Hname & Htable & Hkeys & Hdb).
  auto.
Qed.

Lemma discover_base_entries_witness :
  exists entries,
    discover_base (VDict [("tables", VList [two_field_table; colliding_table])])
                  "app1" (VStr "Sales") = Ok entries
    /\ List.length entries = 2%nat.
Proof.
  destruct (discover_base
              (VDict [("tables", VList [two_field_table; colliding_table])])
              "app1" (VStr "Sales")) as [entries|err] eqn:H;
    [|vm_compute in H; discriminate H].
  exists entries. split; [reflexivity|].
  destruct (discover_base_entries _ _ _ _ H) as (tables & ts & Ht & Hts & Hall).
  injection Ht as <-. injection Hts as <-.
  apply Forall2_length in Hall. simpl in Hall. now rewrite <- Hall.
Defined.

(** *** Declared types and malformed tables *)

(** X21.  Whatever the field definition, a schema that [column_schema]
    returns declares type string or number behind null, carries no
    inclusion, and has a format only when the type is string: date-time or
    date. *)
Theorem column_schema_range (col_info : value) (s : Schema) :
  column_schema col_info = Ok s ->
  schema_inclusion s = VNone
  /\ ((schema_type s = VList [VStr "null"; VStr "number"]
       /\ schema_format s = VNone)
      \/ (schema_type s = VList [VStr "null"; VStr "string"]
          /\ (schema_format s = VNone
              \/ schema_format s = VStr "date-time"
              \/ schema_format s = VStr "date"))).
Proof.
  unfold column_schema. intros H. inv_bind H. injection H as <-.
  destruct a0 as [| | | |tag| |]; try (simpl; auto 6).
  unfold in_strs, existsb, eq_str.
  destruct (String.eqb tag "number") eqn:E1.
  { apply String.eqb_eq in E1. subst tag. simpl. auto 6. }
  destruct (String.eqb tag "autoNumber") eqn:E2.
  { apply String.eqb_eq in E2. subst tag. simpl. auto 6. }
  destruct (String.eqb tag "dateTime"), (String.eqb tag "date"); simpl; auto 6.
Qed.

Lemma column_schema_range_witness :
  schema_inclusion (declared "string" (VStr "date")) = VNone
  /\ ((schema_type (declared "string" (VStr "date"))
       = VList [VStr "null"; VStr "number"]
       /\ schema_format (declared "string" (VStr "date")) = VNone)
      \/ (schema_type (declared "string" (VStr "date"))
          = VList [VStr "null"; VStr "string"]
          /\ (schema_format (declared "string" (VStr "date")) = VNone
              \/ schema_format (declared "string" (VStr "date"))
                 = VStr "date-time"
              \/ schema_format (declared "string" (VStr "date"))
                 = VStr "date"))).
Proof.
  apply (column_schema_range (field "Day" "date")). reflexivity.
Defined.

(** X22.  A table object that lacks a key is not discovered: without [name]
    or without [fields] discovery raises [KeyError] at once; without [id] it
    raises [KeyError] only after all the fields have been processed. *)
Theorem table_missing_key (base_id : string) (base_name : value)
  (d : list (string * value)) :
  (dict_get d "name" = None ->
   discover_table base_id base_name (VDict d) = Raise (KeyError (VStr "name")))
  /\ (forall name,
        dict_get d "name" = Some name ->
        dict_get d "fields" = None ->
        discover_table base_id base_name (VDict d)
        = Raise (KeyError (VStr "fields")))
  /\ (forall name fs,
        dict_get d "name" = Some name ->
        dict_get d "fields" = Some (VList fs) ->
        forallb typed_field fs = true ->
        dict_get d "id" = None ->
        discover_table base_id base_name (VDict d)
        = Raise (KeyError (VStr "id"))).
Proof.
  split; [|split].
  - intros Hname. unfold discover_table, getkey, getitem. now rewrite Hname.
  - intros name Hname Hfields. unfold discover_table, getkey, getitem.
    rewrite Hname. simpl. now rewrite Hfields.
  - intros name fs Hname Hfields Hfs Hid.
    unfold discover_table, getkey, getitem. rewrite Hname, Hfields, Hid. simpl.
    match goal with
    | |- context [foldM discover_field ?st fs] =>
        destruct (CatalogBuilder.typed_fields_discovered fs Hfs st)
          as [[cols meta] Hfold];
        rewrite Hfold
    end.
    reflexivity.
Qed.

Lemma table_missing_key_witness :
  discover_table "app1" VNone
    (VDict [("name", VStr "Orders"); ("fields", VList [field "Amount" "number"])])
  = Raise (KeyError (VStr "id")).
Proof.
  apply (proj2 (proj2 (table_missing_key "app1" VNone
                         [("name", VStr "Orders");
                          ("fields", VList [field "Amount" "number"])]))
           (VStr "Orders") [field "Amount" "number"]); reflexivity.
Defined.

End CatalogFacts.

(* ================================================================= *)
(** ** More on the selection resolver *)

Module SelectionFacts.
Import Py Singer Airtable Spec PyFacts.

Lemma select_fields_fold (d sch props : list (string * value)) :
  dict_get d "schema" = Some (VDict sch) ->
  dict_get sch "properties" = Some (VDict props) ->
  forall ms cols0 fields0,
    forallb (annotation_entry props) ms = true ->
    exists cols,
      foldM (select_column (VDict d)) (cols0, fields0) ms
      = Ok (cols, (fields0 ++ selected_source_fields ms)%list).
Proof.
  intros Hsch Hprops ms.
  induction ms as [|m ms IH]; intros cols0 fields0 Hms.
  - exists cols0. simpl. now rewrite app_nil_r.
  - cbn [forallb] in Hms. apply andb_true_iff in Hms. destruct Hms as [Hm Hms].
    destruct m as [| | | | | |e]; try discriminate Hm.
    unfold annotation_entry in Hm.
    unfold selected_source_fields. cbn [flat_map selecting_entry].
    fold (selected_source_fields ms).
    destruct (dict_get e "breadcrumb") as [bc|] eqn:Hbc; [|discriminate].
    destruct (dict_get e "metadata") as [mdv|] eqn:Hmd; [|discriminate].
    destruct mdv as [| | | | | |md]; try discriminate.
    cbn [foldM].
    destruct (str_in "properties" bc) as [[|]|] eqn:Hp; [| |discriminate Hm].
    + destruct (getitem bc (VInt 1)) as [cv|] eqn:Hc; [|discriminate Hm].
      destruct cv as [| | | |c| |]; try discriminate Hm.
      destruct (marked_selected md) eqn:Hsel.
      * unfold records_source_field, dict_has in Hm.
        destruct (dict_get md "airtable_field") as [fld|] eqn:Hf.
        -- simpl in Hm. unfold dict_has in Hm.
           destruct (dict_get props c) as [frag|] eqn:Hfrag; [|discriminate].
           rewrite (SelectionResolver.select_column_pick d sch props e bc md c
                      fld frag cols0 fields0 Hsch Hprops Hbc Hmd Hp).
           ++ cbn [bind].
              destruct (IH (dict_set cols0 c frag) (fields0 ++ [fld])%list Hms)
                as [cols Hfold].
              exists cols. rewrite Hfold. now rewrite <- app_assoc.
           ++ unfold records_source_field, dict_has. now rewrite Hsel, Hf.
           ++ exact Hc.
           ++ exact Hf.
           ++ exact Hfrag.
        -- rewrite (SelectionResolver.select_column_skip d e bc md cols0 fields0
                      Hbc Hmd).
           ++ cbn [bind app]. apply IH, Hms.
           ++ right. split; [exact Hp|].
              unfold records_source_field, dict_has. rewrite Hf.
              apply andb_false_r.
      * rewrite (SelectionResolver.select_column_skip d e bc md cols0 fields0
                   Hbc Hmd).
        -- cbn [bind app]. apply IH, Hms.
        -- right. split; [exact Hp|]. now rewrite Hsel.
    + rewrite (SelectionResolver.select_column_skip d e bc md cols0 fields0
                 Hbc Hmd) by auto.
      cbn [bind app]. apply IH, Hms.
Qed.

(** X7.  The list of source fields the resolver returns holds, in the order
    of the metadata list, the recorded source-field-name of every entry that
    selects a column: one name for each such entry. *)
Theorem selected_fields_in_order (s : value) :
  stream_descriptor s = true ->
  exists cols,
    _find_selected_columns s
    = Ok (cols, selected_source_fields (metadata_of s)).
Proof.
  intros Hs.
  destruct (SelectionResolver.stream_descriptor_inv s Hs)
    as (d & ms & sch & props & -> & Hmeta & Hsch & Hprops & Ha & Hms & _).
  rewrite Hms. unfold _find_selected_columns.
  rewrite (getkey_dict d "metadata" _ Hmeta). cbn [bind iterate].
  exact (select_fields_fold d sch props Hsch Hprops ms [] [] Ha).
Qed.

Lemma selected_fields_in_order_witness :
  exists cols,
    _find_selected_columns stream_with_id_field
    = Ok (cols, [VStr "id"; VStr "Amount"]).
Proof. apply (selected_fields_in_order stream_with_id_field). reflexivity. Defined.

(** X8.  A catalog that selects a column its schema does not hold is
    refused: the resolver raises [KeyError] with the column name at the
    first such entry. *)
Theorem selected_column_without_schema (d sch props e md : list (string * value))
  (pre post : list value) (bc : value) (c : string) :
  dict_get d "metadata" = Some (VList (pre ++ VDict e :: post)) ->
  dict_get d "schema" = Some (VDict sch) ->
  dict_get sch "properties" = Some (VDict props) ->
  forallb (annotation_entry props) pre = true ->
  dict_get e "breadcrumb" = Some bc ->
  str_in "properties" bc = Ok true ->
  getitem bc (VInt 1) = Ok (VStr c) ->
  dict_get e "metadata" = Some (VDict md) ->
  marked_selected md = true ->
  records_source_field md = true ->
  dict_get props c = None ->
  _find_selected_columns (VDict d) = Raise (KeyError (VStr c)).
Proof.
  intros Hmeta Hsch Hprops Hpre Hbc Hp Hc Hmd Hsel Hfld Hnone.
  unfold _find_selected_columns.
  rewrite (getkey_dict d "metadata" _ Hmeta). cbn [bind iterate].
  rewrite CatalogFacts.foldM_app.
  destruct (select_fields_fold d sch props Hsch Hprops pre [] [] Hpre)
    as [cols ->].
  cbn [bind foldM]. unfold select_column.
  rewrite (getkey_dict e "breadcrumb" bc Hbc). cbn [bind].
  rewrite Hp. cbn [bind negb].
  rewrite (SelectionResolver.selected_with_field_entry e md Hmd), Hsel, Hfld.
  cbn [andb bind]. rewrite Hc. cbn [bind].
  rewrite (getkey_dict e "metadata" _ Hmd). cbn [bind].
  unfold records_source_field, dict_has in Hfld.
  destruct (dict_get md "airtable_field") as [fld|] eqn:Hf; [|discriminate].
  rewrite (getkey_dict md "airtable_field" fld Hf). cbn [bind].
  rewrite (getkey_dict d "schema" _ Hsch). cbn [bind].
  rewrite (getkey_dict sch "properties" _ Hprops). cbn [bind].
  unfold getitem. now rewrite Hnone.
Qed.

Lemma selected_column_without_schema_witness :
  _find_selected_columns
    (VDict [("metadata",
             VList [annotation "Gone" [("airtable_field", VStr "Gone");
                                       ("selected", VBool true)]]);
            ("schema", VDict [("properties", VDict [("id", string_column)])])])
  = Raise (KeyError (VStr "Gone")).
Proof.
  apply (selected_column_without_schema
           [("metadata",
             VList [annotation "Gone" [("airtable_field", VStr "Gone");
                                       ("selected", VBool true)]]);
            ("schema", VDict [("properties", VDict [("id", string_column)])])]
           [("properties", VDict [("id", string_column)])]
           [("id", string_column)]
           [("breadcrumb", VList [VStr "properties"; VStr "Gone"]);
            ("metadata", VDict [("airtable_field", VStr "Gone");
                                ("selected", VBool true)])]
           [("airtable_field", VStr "Gone"); ("selected", VBool true)]
           [] [] (VList [VStr "properties"; VStr "Gone"]) "Gone");
    reflexivity.
Defined.

(** X9.  The per-column lookup is decided by the first entry that annotates
    the column: it returns the source-field-name that entry records, and
    none when that entry records no name, whatever later entries hold. *)
Theorem find_column_first_match (col : string) (pre post : list value)
  (m : value) :
  (forall p, In p pre -> annotates p col = Ok false) ->
  annotates m col = Ok true ->
  (forall md fld,
      has_airtable_field m = Ok true ->
      getkey m "metadata" = Ok md ->
      getkey md "airtable_field" = Ok fld ->
      _find_column col (VList (pre ++ m :: post)) = Ok fld)
  /\ (has_airtable_field m = Ok false ->
      _find_column col (VList (pre ++ m :: post)) = Ok VNone).
Proof.
  intros Hpre Hm. unfold _find_column. cbn [iterate bind].
  assert (Hskip : find_column_in col (pre ++ m :: post)
                  = find_column_in col (m :: post)).
  { induction pre as [|p pre IH]; [reflexivity|].
    cbn [app find_column_in]. rewrite (Hpre p (or_introl eq_refl)). cbn [bind].
    apply IH. intros q Hq. apply Hpre. right. exact Hq. }
  rewrite Hskip. cbn [find_column_in]. rewrite Hm. cbn [bind]. split.
  - intros md fld -> Hmd Hfld. cbn [bind]. rewrite Hmd. cbn [bind]. exact Hfld.
  - intros ->. reflexivity.
Qed.

Lemma find_column_first_match_witness :
  _find_column "Amount"
    (VList [annotation "Code" [("airtable_field", VStr "Code")];
            annotation "Amount" [("airtable_type", VStr "number")];
            annotation "Amount" [("airtable_field", VStr "Total")]])
  = Ok VNone.
Proof.
  apply (find_column_first_match "Amount"
           [annotation "Code" [("airtable_field", VStr "Code")]]
           [annotation "Amount" [("airtable_field", VStr "Total")]]
           (annotation "Amount" [("airtable_type", VStr "number")])).
  - intros p [<-|[]]. reflexivity.
  - reflexivity.
  - reflexivity.
Defined.

End SelectionFacts.

(* ================================================================= *)
(** ** More on the record mapper *)

Module MapperFacts.
Import Py Singer Airtable Spec PyFacts.

(** X10.  A raw value that is present and not null is read under the
    column's source name (the recorded one, or else the column name) and
    stored in the output record coerced to the type the schema declares for
    the column. *)
Theorem present_raw_value (schema metadata r : value) (cols : list value)
  (row fd : list (string * value)) (col source : string) (found v : value) :
  iterate schema = Ok cols ->
  In (VStr col) cols ->
  col <> "id" ->
  map_record schema metadata r = Ok (VDict row) ->
  _find_column col metadata = Ok found ->
  py_or found (VStr col) = VStr source ->
  getkey r "fields" = Ok (VDict fd) ->
  dict_get fd source = Some v ->
  v <> VNone ->
  exists col_def ty requested_type,
    getitem schema (VStr col) = Ok col_def
    /\ getkey col_def "type" = Ok ty
    /\ getitem ty (VInt 1) = Ok requested_type
    /\ dict_get row col = Some (cast_type v requested_type).
Proof.
  intros Hcols Hin Hne Hr Hfound Hsrc Hfields Hv Hnn.
  destruct (RecordMapper.map_record_value schema metadata r cols row col
              Hcols Hr Hin Hne) as (out & Hout & Hget).
  unfold column_value in Hout. inv_bind Hout.
  simpl in Ha2. injection Ha2 as <-.
  rewrite Hfound in Ha3. injection Ha3 as <-.
  rewrite Hfields in Ha4. injection Ha4 as <-.
  rewrite Hsrc in Ha5. cbn [get_method] in Ha5. rewrite Hv in Ha5.
  injection Ha5 as <-.
  exists a, a0, a1.
  split; [exact Ha|]. split; [exact Ha0|]. split; [exact Ha1|].
  rewrite Hget. destruct v; [congruence | | | | | |]; now injection Hout as <-.
Qed.

Lemma present_raw_value_witness :
  exists col_def ty requested_type,
    getitem (VDict (properties_of orders_stream)) (VStr "c_1Code") = Ok col_def
    /\ getkey col_def "type" = Ok ty
    /\ getitem ty (VInt 1) = Ok requested_type
    /\ dict_get [("id", VStr "rec1"); ("Amount", VNone); ("c_1Code", VStr "7")]
                "c_1Code"
       = Some (cast_type (VInt 7) requested_type).
Proof.
  apply (present_raw_value (VDict (properties_of orders_stream))
           (VList (metadata_of orders_stream))
           (record "rec1" [("1Code", VInt 7)])
           [VStr "id"; VStr "Amount"; VStr "c_1Code"]
           [("id", VStr "rec1"); ("Amount", VNone); ("c_1Code", VStr "7")]
           [("1Code", VInt 7)] "c_1Code" "1Code" (VStr "1Code") (VInt 7)).
  - reflexivity.
  - simpl. auto.
  - discriminate.
  - reflexivity.
  - reflexivity.
  - reflexivity.
  - reflexivity.
  - reflexivity.
  - discriminate.
Defined.

(** X11.  Under declared type string [cast_type] always returns a text, and
    under every declared type coercing twice is coercing once. *)
Theorem cast_type_text_idempotent :
  (forall v, is_str (cast_type v (VStr "string")) = true)
  /\ (forall v t, cast_type (cast_type v t) t = cast_type v t).
Proof.
  assert (Htext : forall v, is_str (cast_type v (VStr "string")) = true).
  { intros v. destruct v; reflexivity. }
  split; [exact Htext|].
  intros v t. destruct (eq_str t "string") eqn:Ht.
  - destruct t; try discriminate Ht. simpl in Ht.
    apply String.eqb_eq in Ht. subst s.
    specialize (Htext v). destruct (cast_type v (VStr "string")) eqn:E;
      try discriminate Htext.
    unfold cast_type. simpl. reflexivity.
  - unfold cast_type. rewrite Ht. reflexivity.
Qed.

(** X12.  A page is mapped as a whole or not at all: when one of its
    records has no [id], [_map_records] returns no rows. *)
Theorem record_without_id (stream records r : value) (e : exn) :
  In r (records_of records) ->
  getkey r "id" = Raise e ->
  forall rows, _map_records stream records <> Ok rows.
Proof.
  intros Hin Hid rows H.
  destruct (RecordMapper.map_records_inv _ _ _ H)
    as (sch & schema & metadata & rs & _ & _ & _ & Hrs & Hall).
  unfold records_of in Hin. rewrite Hrs in Hin. clear Hrs H. revert Hin.
  induction Hall as [|r' out rs' rows' Hr _ IH]; intros Hin; [contradiction|].
  destruct Hin as [->|Hin]; [|exact (IH Hin)].
  destruct (RecordMapper.map_record_id _ _ _ _ Hr) as (id & Hid' & _).
  congruence.
Qed.

Lemma record_without_id_witness :
  exists e,
    _map_records orders_stream
      (VList [record "rec1" [("Amount", VInt 10)];
              VDict [("fields", VDict [("Amount", VInt 20)])]])
    = Raise e.
Proof.
  destruct (_map_records orders_stream
              (VList [record "rec1" [("Amount", VInt 10)];
                      VDict [("fields", VDict [("Amount", VInt 20)])]]))
    as [rows|e] eqn:H; [exfalso | eauto].
  apply (record_without_id orders_stream
           (VList [record "rec1" [("Amount", VInt 10)];
                   VDict [("fields", VDict [("Amount", VInt 20)])]])
           (VDict [("fields", VDict [("Amount", VInt 20)])])
           (KeyError (VStr "id"))
           (or_intror (or_introl eq_refl)) eq_refl rows H).
Defined.

End MapperFacts.

(* ================================================================= *)
(** ** More on the sync driver *)

Module SyncFacts.
Import Py Singer Airtable Spec PyFacts.

Lemma io_bind_lift {A B} (c : res A) (k : A -> io B) :
  io_bind (lift c) k
  = match c with
    | Ok a => k a
    | Raise e => ([], Failed e)
    end.
Proof.
  destruct c as [a|e]; unfold io_bind; simpl; [|reflexivity].
  now destruct (k a).
Qed.

Lemma io_bind_emit {B} (ev : event) (k : unit -> io B) :
  io_bind (emit ev) k = (ev :: fst (k tt), snd (k tt)).
Proof. reflexivity. Qed.

Lemma io_bind_Done {A B} (t : list event) (a : A) (k : A -> io B) :
  io_bind (t, Done a) k = ((t ++ fst (k a))%list, snd (k a)).
Proof. reflexivity. Qed.

Lemma io_bind_Failed {A B} (t : list event) (e : exn) (k : A -> io B) :
  io_bind (t, Failed e) k = (t, Failed e).
Proof. reflexivity. Qed.

Section Runs.
Variable slugify : string -> string.
Variable records_url : string.
Variable responses : nat -> response.

(** [get_response] makes its call, which raises when the session gave up,
    and then raises on an error status. *)
Lemma get_response_text (base table : string) (fields : list value)
  (token : value) (counter : nat) :
  get_response records_url responses (VStr base) table fields token counter
  = ([Get (page_request records_url base table fields token counter)],
     if gave_up (responses counter)
     then Failed RetryError
     else if error_status (responses counter)
          then Failed (HTTPError (status_code (responses counter)))
          else Done (responses counter)).
Proof.
  unfold get_response, session_result, gave_up, error_status, page_request.
  cbn [str_add lift]. rewrite io_bind_Done. cbn [app]. rewrite io_bind_emit.
  destruct (existsb (Z.eqb (status_code (responses counter)))
                    status_forcelist);
    [reflexivity|].
  rewrite io_bind_lift.
  destruct ((400 <=? status_code (responses counter))%Z
            && (status_code (responses counter) <? 600)%Z); reflexivity.
Qed.

Lemma get_response_ok (base table : string) (fields : list value)
  (token : value) (counter : nat) :
  error_status (responses counter) = false ->
  get_response records_url responses (VStr base) table fields token counter
  = ([Get (page_request records_url base table fields token counter)],
     Done (responses counter)).
Proof.
  intros Hstatus. rewrite get_response_text, Hstatus.
  rewrite (not_gave_up _ Hstatus). reflexivity.
Qed.

(** The run of a stream up to its first request. *)
Lemma sync_stream_start (fuel : nat) (stream schema : value)
  (base table : string) (cols : list (string * value)) (fields : list value) :
  sync_ready stream schema base table cols fields ->
  sync_stream slugify records_url responses fuel stream
  = io_bind
      (get_response records_url responses (VStr base) table fields VNone 0)
      (fun response =>
         io_bind (lift (json_get response "records"))
           (fun records =>
              if truthy records then
                io_bind (lift (getkey schema "id"))
                  (fun id_schema =>
                     io_bind (lift (getkey stream "key_properties"))
                       (fun key_properties =>
                          io_bind
                            (emit (WriteSchema
                                     (slugify table)
                                     (VDict [("properties",
                                              VDict (dict_set cols "id"
                                                              id_schema))])
                                     key_properties))
                            (fun _ =>
                               io_bind (lift (_map_records stream records))
                                 (fun rows =>
                                    io_bind
                                      (emit (WriteRecords (slugify table) rows))
                                      (fun _ =>
                                         io_bind
                                           (lift (json_get response "offset"))
                                           (fun offset =>
                                              paginate records_url responses
                                                fuel stream (VStr base) table
                                                (slugify table) fields offset
                                                0))))))
              else ([], Done tt))).
Proof.
  intros ((sch & Hsch & Hprops) & Hbase & Htable & Hsel).
  unfold sync_stream.
  rewrite Hsch, io_bind_lift. rewrite Hprops, io_bind_lift.
  rewrite Hbase, io_bind_lift. rewrite Htable, io_bind_lift.
  cbn [as_key]. rewrite io_bind_lift. rewrite Hsel, io_bind_lift.
  reflexivity.
Qed.

(** X13.  A failed call is fatal.  When the session gave up on the first
    request (its last answer still has a status of the force list: 429,
    500, 502, 503 or 504) the run ends with [RetryError] after that one
    call and nothing is written; on any other status from 400 to 599 it
    ends with [HTTPError] in the same way.  On a later request the loop
    ends likewise, and no records of that page are written. *)
Theorem http_error_aborts (fuel : nat) (stream schema : value)
  (base table : string) (cols : list (string * value)) (fields : list value) :
  sync_ready stream schema base table cols fields ->
  ((gave_up (responses 0) = true ->
    sync_stream slugify records_url responses fuel stream
    = ([Get (page_request records_url base table fields VNone 0)],
       Failed RetryError))
   /\ (gave_up (responses 0) = false ->
       error_status (responses 0) = true ->
       sync_stream slugify records_url responses fuel stream
       = ([Get (page_request records_url base table fields VNone 0)],
          Failed (HTTPError (status_code (responses 0))))))
  /\ (forall token counter,
        truthy token = true ->
        (gave_up (responses (S counter)) = true ->
         paginate records_url responses (S fuel) stream (VStr base) table
                  (slugify table) fields token counter
         = ([Get (page_request records_url base table fields token
                               (S counter))],
            Failed RetryError))
        /\ (gave_up (responses (S counter)) = false ->
            error_status (responses (S counter)) = true ->
            paginate records_url responses (S fuel) stream (VStr base) table
                     (slugify table) fields token counter
            = ([Get (page_request records_url base table fields token
                                  (S counter))],
               Failed (HTTPError (status_code (responses (S counter))))))).
Proof.
  intros Hready. split; [split|].
  - intros Hup. rewrite (sync_stream_start fuel _ _ _ _ _ _ Hready).
    rewrite get_response_text, Hup. reflexivity.
  - intros Hup Herr. rewrite (sync_stream_start fuel _ _ _ _ _ _ Hready).
    rewrite get_response_text, Hup, Herr. reflexivity.
  - intros token counter Htoken. split.
    + intros Hup. cbn [paginate]. rewrite Htoken.
      rewrite get_response_text, Hup. reflexivity.
    + intros Hup Herr. cbn [paginate]. rewrite Htoken.
      rewrite get_response_text, Hup, Herr. reflexivity.
Qed.

(** X14.  A first page without records ends the stream at once: one request
    is made, no schema is registered and no records are written, whether or
    not the page carries a continuation token. *)
Theorem empty_first_page (fuel : nat) (stream schema : value)
  (base table : string) (cols : list (string * value)) (fields : list value)
  (records : value) :
  sync_ready stream schema base table cols fields ->
  error_status (responses 0) = false ->
  json_get (responses 0) "records" = Ok records ->
  truthy records = false ->
  sync_stream slugify records_url responses fuel stream
  = ([Get (page_request records_url base table fields VNone 0)], Done tt).
Proof.
  intros Hready Hstatus Hrecords Hempty.
  rewrite (sync_stream_start fuel _ _ _ _ _ _ Hready).
  rewrite (get_response_ok _ _ _ _ _ Hstatus), io_bind_Done.
  rewrite Hrecords, io_bind_lift, Hempty. reflexivity.
Qed.

(** One page with records: it is requested with the current token, its
    rows are written, and the loop goes on with the token of the page. *)
Lemma paginate_good_page (fuel : nat) (stream : value) (base table : string)
  (fields : list value) (token token' : value) (rows : list value)
  (counter : nat) :
  truthy token = true ->
  page_ok stream (responses (S counter)) rows token' ->
  paginate records_url responses (S fuel) stream (VStr base) table
           (slugify table) fields token counter
  = (Get (page_request records_url base table fields token (S counter))
       :: WriteRecords (slugify table) rows
       :: fst (paginate records_url responses fuel stream (VStr base) table
                        (slugify table) fields token' (S counter)),
     snd (paginate records_url responses fuel stream (VStr base) table
                   (slugify table) fields token' (S counter))).
Proof.
  intros Htoken (Hstatus & records & Hrecords & Hfull & Hrows & Hnext).
  cbn [paginate]. rewrite Htoken.
  rewrite (get_response_ok _ _ _ _ _ Hstatus), io_bind_Done.
  rewrite Hrecords, io_bind_lift, Hfull.
  rewrite Hrows, io_bind_lift, io_bind_emit.
  rewrite Hnext, io_bind_lift. reflexivity.
Qed.

Lemma paginate_pages (stream : value) (base table : string)
  (fields : list value) (rows : nat -> list value) (tokens : nat -> value) :
  forall count counter fuel,
    (count <= fuel)%nat ->
    (forall k, (counter < k <= counter + count)%nat ->
               page_ok stream (responses k) (rows k) (tokens k)) ->
    (forall k, (counter <= k < counter + count)%nat ->
               truthy (tokens k) = true) ->
    truthy (tokens (counter + count)%nat) = false ->
    paginate records_url responses fuel stream (VStr base) table
             (slugify table) fields (tokens counter) counter
    = (later_pages records_url base table (slugify table) fields rows tokens
                   (S counter) count,
       Done tt).
Proof.
  induction count as [|count IH]; intros counter fuel Hfuel Hpages Hmore Hlast.
  - rewrite Nat.add_0_r in Hlast.
    destruct fuel; cbn [paginate]; rewrite Hlast; reflexivity.
  - destruct fuel as [|fuel]; [lia|].
    rewrite (paginate_good_page fuel stream base table fields (tokens counter)
               (tokens (S counter)) (rows (S counter)) counter).
    + rewrite (IH (S counter) fuel).
      * reflexivity.
      * lia.
      * intros k Hk. apply Hpages. lia.
      * intros k Hk. apply Hmore. lia.
      * replace (S counter + count)%nat with (counter + S count)%nat by lia.
        exact Hlast.
    + apply Hmore. lia.
    + apply Hpages. lia.
Qed.

(** X15.  Pagination runs to the end.  When pages 0 to [n] carry records,
    the first [n] of them a continuation token and page [n] none, the run
    finishes after [n + 1] requests: the schema (the selected columns and
    [id]) is registered once after the first request, and the rows of every
    page are written in page order, each later page requested with the
    token of the page before it. *)
Theorem pagination_completes (fuel n : nat) (stream schema : value)
  (base table : string) (cols : list (string * value)) (fields : list value)
  (id_column key_properties : value)
  (rows : nat -> list value) (tokens : nat -> value) :
  sync_ready stream schema base table cols fields ->
  getkey schema "id" = Ok id_column ->
  getkey stream "key_properties" = Ok key_properties ->
  (forall k, (k <= n)%nat ->
             page_ok stream (responses k) (rows k) (tokens k)) ->
  (forall k, (k < n)%nat -> truthy (tokens k) = true) ->
  truthy (tokens n) = false ->
  (n <= fuel)%nat ->
  sync_stream slugify records_url responses fuel stream
  = (Get (page_request records_url base table fields VNone 0)
       :: WriteSchema (slugify table)
                      (VDict [("properties",
                               VDict (dict_set cols "id" id_column))])
                      key_properties
       :: WriteRecords (slugify table) (rows 0%nat)
       :: later_pages records_url base table (slugify table) fields rows
                      tokens 1 n,
     Done tt).
Proof.
  intros Hready Hid Hkeys Hpages Hmore Hlast Hfuel.
  rewrite (sync_stream_start fuel _ _ _ _ _ _ Hready).
  destruct (Hpages 0%nat (Nat.le_0_l n))
    as (Hstatus & records & Hrecords & Hfull & Hrows & Hnext).
  rewrite (get_response_ok _ _ _ _ _ Hstatus), io_bind_Done.
  rewrite Hrecords, io_bind_lift, Hfull.
  rewrite Hid, io_bind_lift. rewrite Hkeys, io_bind_lift.
  rewrite io_bind_emit. rewrite Hrows, io_bind_lift, io_bind_emit.
  rewrite Hnext, io_bind_lift.
  rewrite (paginate_pages stream base table fields rows tokens n 0 fuel Hfuel).
  - reflexivity.
  - intros k Hk. apply Hpages. lia.
  - intros k Hk. apply Hmore. lia.
  - exact Hlast.
Qed.

(** *** The order of the writes *)

Lemma quiet_app (t1 t2 : list event) :
  quiet (t1 ++ t2) = quiet t1 && quiet t2.
Proof. apply forallb_app. Qed.

Lemma quiet_bind {A B} (c : io A) (k : A -> io B) :
  quiet (fst c) = true ->
  (forall a, quiet (fst (k a)) = true) ->
  quiet (fst (io_bind c k)) = true.
Proof.
  intros Hc Hk. unfold io_bind. destruct (snd c); cbn [fst]; [|exact Hc..].
  now rewrite quiet_app, Hc, Hk.
Qed.

Lemma quiet_lift {A} (c : res A) : quiet (fst (lift c)) = true.
Proof. now destruct c. Qed.

Lemma quiet_get_response (base_id : value) (table : string)
  (fields : list value) (token : value) (counter : nat) :
  quiet (fst (get_response records_url responses base_id table fields token
                           counter)) = true.
Proof.
  unfold get_response.
  apply quiet_bind; [apply quiet_lift | intros base].
  apply quiet_bind; [reflexivity | intros _].
  apply quiet_bind; [apply quiet_lift | intros response].
  match goal with |- context [if ?b then _ else _] => destruct b end;
    apply quiet_lift.
Qed.

(** The loop over the later pages never registers a schema. *)
Lemma paginate_quiet (stream base_id : value) (table table_slug : string)
  (fields : list value) :
  forall fuel token counter,
    quiet (fst (paginate records_url responses fuel stream base_id table
                         table_slug fields token counter)) = true.
Proof.
  induction fuel as [|fuel IH]; intros token counter; cbn [paginate];
    destruct (truthy token); try reflexivity.
  apply quiet_bind; [apply quiet_get_response | intros response].
  apply quiet_bind; [apply quiet_lift | intros records].
  destruct (truthy records); [|apply IH].
  apply quiet_bind; [apply quiet_lift | intros rows].
  apply quiet_bind; [reflexivity | intros _].
  apply quiet_bind; [apply quiet_lift | intros offset].
  apply IH.
Qed.

Lemma quiet_ordered (t : list event) : quiet t = true -> ordered true t = true.
Proof.
  induction t as [|[r|s sch k|s rows] t IH]; simpl; intros H;
    try discriminate; auto.
Qed.

(** X16.  In every run of a stream, whatever the catalog entry and the
    responses, and however the run ends, the writes are in order: the schema
    is registered at most once, and no records are written before it. *)
Theorem writes_in_order (fuel : nat) (stream : value) :
  ordered false (fst (sync_stream slugify records_url responses fuel stream))
  = true.
Proof.
  unfold sync_stream.
  repeat (rewrite io_bind_lift;
          match goal with
          | |- context [match ?c with Ok _ => _ | Raise _ => _ end] =>
              destruct c as [?|?]; [|reflexivity]
          end).
  match goal with
  | |- context [let '(_, _) := ?p in _] => destruct p as [col_defs fields]
  end.
  unfold get_response.
  rewrite io_bind_lift.
  match goal with
  | |- context [match ?c with Ok _ => _ | Raise _ => _ end] =>
      destruct c as [base|?]; [|reflexivity]
  end.
  rewrite io_bind_emit. rewrite io_bind_lift.
  match goal with
  | |- context [match ?c with Ok _ => _ | Raise _ => _ end] =>
      destruct c as [response|?]; [|reflexivity]
  end.
  match goal with
  | |- context [if ?b then lift (Raise _) else _] => destruct b
  end; [reflexivity|].
  cbn [lift fst snd]. rewrite io_bind_Done. cbn [app fst snd ordered].
  rewrite io_bind_lift.
  match goal with
  | |- context [match ?c with Ok _ => _ | Raise _ => _ end] =>
      destruct c as [records|?]; [|reflexivity]
  end.
  destruct (truthy records); [|reflexivity].
  repeat (rewrite io_bind_lift;
          match goal with
          | |- context [match ?c with Ok _ => _ | Raise _ => _ end] =>
              destruct c as [?|?]; [|reflexivity]
          end).
  rewrite io_bind_emit. cbn [fst ordered negb andb].
  rewrite io_bind_emit. cbn [fst ordered andb].
  apply quiet_ordered, paginate_quiet.
Qed.

End Runs.

(** The sample stream is ready for its first request. *)
Lemma orders_ready :
  sync_ready orders_stream (VDict (properties_of orders_stream)) "app1"
             "Orders" [("Amount", number_column)] [VStr "Amount"].
Proof.
  split; [eexists; split; reflexivity|].
  split; [reflexivity|]. split; reflexivity.
Qed.

Lemma http_error_aborts_witness :
  sync_stream (fun s => s) "https://api.airtable.com/v0/"
              (fun _ => mkResponse 404 None) 3 orders_stream
  = ([Get (page_request "https://api.airtable.com/v0/" "app1" "Orders"
                        [VStr "Amount"] VNone 0)],
     Failed (HTTPError 404))
  /\ sync_stream (fun s => s) "https://api.airtable.com/v0/"
                 (fun _ => mkResponse 503 None) 3 orders_stream
     = ([Get (page_request "https://api.airtable.com/v0/" "app1" "Orders"
                           [VStr "Amount"] VNone 0)],
        Failed RetryError)
  /\ paginate "https://api.airtable.com/v0/"
              (fun _ => mkResponse 429 None) 3 orders_stream (VStr "app1")
              "Orders" "Orders" [VStr "Amount"] (VStr "itr1") 0
     = ([Get (page_request "https://api.airtable.com/v0/" "app1" "Orders"
                           [VStr "Amount"] (VStr "itr1") 1)],
        Failed RetryError).
Proof.
  split; [|split].
  - apply (proj2 (proj1 (http_error_aborts
                           (fun s => s) "https://api.airtable.com/v0/"
                           (fun _ => mkResponse 404 None) 3 _ _ _ _ _ _
                           orders_ready)));
      reflexivity.
  - apply (proj1 (proj1 (http_error_aborts
                           (fun s => s) "https://api.airtable.com/v0/"
                           (fun _ => mkResponse 503 None) 3 _ _ _ _ _ _
                           orders_ready))).
    reflexivity.
  - apply (proj1 (proj2 (http_error_aborts
                           (fun s => s) "https://api.airtable.com/v0/"
                           (fun _ => mkResponse 429 None) 2 _ _ _ _ _ _
                           orders_ready)
                        (VStr "itr1") 0%nat eq_refl)).
    reflexivity.
Defined.

Lemma empty_first_page_witness :
  sync_stream (fun s => s) "https://api.airtable.com/v0/"
              (fun _ => page [] (VStr "itr1")) 3 orders_stream
  = ([Get (page_request "https://api.airtable.com/v0/" "app1" "Orders"
                        [VStr "Amount"] VNone 0)],
     Done tt).
Proof.
  apply (empty_first_page (fun s => s) "https://api.airtable.com/v0/"
           (fun _ => page [] (VStr "itr1")) 3 _ _ _ _ _ _ (VList [])
           orders_ready); reflexivity.
Defined.

Lemma pagination_completes_witness :
  sync_stream (fun s => s) "https://api.airtable.com/v0/" two_pages_api 1
              orders_stream
  = ([Get (page_request "https://api.airtable.com/v0/" "app1" "Orders"
                        [VStr "Amount"] VNone 0);
      WriteSchema "Orders" orders_schema (VList []);
      WriteRecords "Orders" [orders_row "rec1" 10; orders_row "rec2" 20];
      Get (page_request "https://api.airtable.com/v0/" "app1" "Orders"
                        [VStr "Amount"] (VStr "itr1") 1);
      WriteRecords "Orders" [orders_row "rec3" 30]],
     Done tt).
Proof.
  apply (pagination_completes (fun s => s) "https://api.airtable.com/v0/"
           two_pages_api 1 1 orders_stream _ "app1" "Orders" _ _
           string_column (VList [])
           (fun k => match k with
                     | O => [orders_row "rec1" 10; orders_row "rec2" 20]
                     | S _ => [orders_row "rec3" 30]
                     end)
           (fun k => match k with O => VStr "itr1" | S _ => VNone end)
           orders_ready).
  - reflexivity.
  - reflexivity.
  - intros [|[|k]] Hk; [| |lia].
    + split; [reflexivity|]. eexists. repeat split; reflexivity.
    + split; [reflexivity|]. eexists. repeat split; reflexivity.
  - intros [|k] Hk; [reflexivity | lia].
  - reflexivity.
  - lia.
Defined.

End SyncFacts.

(* ================================================================= *)
(** ** Discovery runs *)

Module DiscoveryRun.
Import Py Singer Airtable Spec PyFacts.

Lemma disc_bind_lift {A B} (c : res A) (k : A -> disc B) (n : nat) :
  disc_bind (disc_lift c) k n
  = match c with
    | Ok a => k a n
    | Raise e => ([], Raise e)
    end.
Proof.
  destruct c as [a|e]; unfold disc_bind, disc_lift; simpl; [|reflexivity].
  now destruct (k a n).
Qed.

Lemma disc_bind_get {B} (R : nat -> response) (url token : value)
  (k : response -> disc B) (n : nat) :
  disc_bind (session_get R url token) k n
  = if gave_up (R n)
    then ([mkMetaRequest url token], Raise RetryError)
    else (mkMetaRequest url token :: fst (k (R n) (S n)),
          snd (k (R n) (S n))).
Proof.
  unfold disc_bind, session_get, session_result, gave_up.
  destruct (existsb (Z.eqb (status_code (R n))) status_forcelist);
    reflexivity.
Qed.

Lemma disc_bind_val {A B} (c : disc A) (k : A -> disc B) (n n' : nat)
  (t : list meta_request) (a : A) :
  c n = (t, Ok (a, n')) ->
  disc_bind c k n = ((t ++ fst (k a n'))%list, snd (k a n')).
Proof. unfold disc_bind. now intros ->. Qed.

Lemma disc_bind_err {A B} (c : disc A) (k : A -> disc B) (n : nat)
  (t : list meta_request) (e : exn) :
  c n = (t, Raise e) -> disc_bind c k n = (t, Raise e).
Proof. unfold disc_bind. now intros ->. Qed.

Lemma flat_map_shift {A} (f : nat -> list A) (l : list nat) :
  flat_map f (map S l) = flat_map (fun i => f (S i)) l.
Proof.
  induction l as [|i l IH]; simpl; [reflexivity | now rewrite IH].
Qed.

Lemma override_dict (d : list (string * value)) (key : string) (cur : value) :
  override (VDict d) key cur = Ok (configured d key cur).
Proof.
  unfold override, configured, getkey, getitem. cbn [str_in bind].
  unfold dict_has. now destruct (dict_get d key).
Qed.

Lemma apply_config_dict (d : list (string * value)) :
  __apply_config class_defaults (VDict d)
  = match dict_get d "token" with
    | Some token => Ok (settings_of d token)
    | None => Raise (KeyError (VStr "token"))
    end.
Proof.
  unfold __apply_config. rewrite !override_dict. cbn [bind].
  unfold getkey, getitem. now destruct (dict_get d "token").
Qed.

Lemma status_ok_not_gave_up (r : response) :
  raise_for_status r = Ok tt -> gave_up r = false.
Proof.
  intros H. apply not_gave_up. unfold raise_for_status in H.
  unfold error_status.
  destruct ((400 <=? status_code r)%Z && (status_code r <? 600)%Z);
    [discriminate H | reflexivity].
Qed.

Section Upstream.
Variable R : nat -> response.

(** X17.  The token is required: a configuration without [token] ends
    discovery with [KeyError] before any request is made. *)
Theorem discovery_needs_token (d : list (string * value)) (n : nat) :
  dict_get d "token" = None ->
  run_discovery R (VDict d) n = ([], Raise (KeyError (VStr "token"))).
Proof.
  intros Htoken. unfold run_discovery.
  now rewrite disc_bind_lift, apply_config_dict, Htoken.
Qed.

(** A base is discovered with at most one request. *)
Lemma discover_base_request_once (s : settings) (base_id base_name : value)
  (n : nat) :
  (List.length (fst (discover_base_request R s base_id base_name n)) <= 1)%nat.
Proof.
  unfold discover_base_request.
  rewrite disc_bind_lift. destruct (str_add "discover base " base_id); [|simpl; lia].
  rewrite disc_bind_lift.
  match goal with
  | |- context [match ?c with Ok _ => _ | Raise _ => _ end] =>
      destruct c; [|simpl; lia]
  end.
  rewrite disc_bind_get. destruct (gave_up (R n)); [simpl; lia|].
  cbn [fst List.length].
  rewrite disc_bind_lift.
  destruct (raise_for_status (R n)); [|simpl; lia].
  rewrite disc_bind_lift. destruct (json (R n)); [|simpl; lia].
  unfold disc_lift. simpl. lia.
Qed.

(** X18.  With [validate_only] set and no [base_ids], discovery stops after
    the first listed base: the run is the listing request followed by the
    discovery of that base alone, at most two requests, and its result is
    that of the first base whatever other bases are listed. *)
Theorem validate_only_first_base (d : list (string * value)) (token v : value)
  (id name : value) (rest : list (value * value)) (n : nat) :
  dict_get d "token" = Some token ->
  dict_get d "base_ids" = None ->
  dict_get d "validate_only" = Some v ->
  truthy v = true ->
  __get_base_ids R (settings_of d token) n
  = ([mkMetaRequest (cls_metadata_url (settings_of d token)) token],
     Ok ((id, name) :: rest, S n)) ->
  fst (run_discovery R (VDict d) n)
  = mkMetaRequest (cls_metadata_url (settings_of d token)) token
      :: fst (discover_base_request R (settings_of d token) id name (S n))
  /\ snd (run_discovery R (VDict d) n)
     = snd (discover_base_request R (settings_of d token) id name (S n))
  /\ (List.length (fst (run_discovery R (VDict d) n)) <= 2)%nat.
Proof.
  intros Htoken Hids Hv Htruthy Hlist.
  assert (Hrun : run_discovery R (VDict d) n
                 = (mkMetaRequest (cls_metadata_url (settings_of d token)) token
                      :: fst (discover_base_request R (settings_of d token)
                                                    id name (S n)),
                    snd (discover_base_request R (settings_of d token)
                                               id name (S n)))).
  { unfold run_discovery.
    rewrite disc_bind_lift, apply_config_dict, Htoken.
    rewrite disc_bind_lift. cbn [str_in]. unfold dict_has. rewrite Hids.
    rewrite (disc_bind_val _ _ _ _ _ _ Hlist). cbn [discover_listed app].
    destruct (discover_base_request R (settings_of d token) id name (S n))
      as [t [[found n']|e]] eqn:E; cbn [fst snd].
    - rewrite (disc_bind_val _ _ _ _ _ _ E).
      rewrite disc_bind_lift. cbn [get_method]. rewrite Hv, Htruthy.
      unfold disc_ret. cbn [fst snd app]. now rewrite app_nil_r.
    - now rewrite (disc_bind_err _ _ _ _ _ E). }
  rewrite Hrun. cbn [fst snd List.length].
  pose proof (discover_base_request_once (settings_of d token) id name (S n)).
  repeat split; lia.
Qed.

Lemma apply_config_validate_only (d : list (string * value)) (v : value) :
  __apply_config class_defaults (VDict (dict_set d "validate_only" v))
  = __apply_config class_defaults (VDict d).
Proof.
  rewrite !apply_config_dict. unfold settings_of, configured.
  now rewrite !dict_get_set_other by discriminate.
Qed.

(** X19.  With [base_ids] in the configuration, [validate_only] is not
    consulted: setting it to any value leaves the run as it was. *)
Theorem validate_only_ignored_with_base_ids (d : list (string * value))
  (v : value) (n : nat) :
  dict_has d "base_ids" = true ->
  run_discovery R (VDict (dict_set d "validate_only" v)) n
  = run_discovery R (VDict d) n.
Proof.
  intros Hids. unfold run_discovery.
  rewrite !disc_bind_lift, apply_config_validate_only.
  destruct (__apply_config class_defaults (VDict d)) as [s|e]; [|reflexivity].
  rewrite !disc_bind_lift. cbn [str_in].
  rewrite dict_has_set, Hids, orb_true_r.
  rewrite !disc_bind_lift. unfold getkey, getitem.
  rewrite dict_get_set_other by discriminate. reflexivity.
Qed.

(** One base discovered from a good response. *)
Lemma discover_base_request_ok (s : settings) (u b : string)
  (content : value) (found : list CatalogEntry) (n : nat) :
  cls_metadata_url s = VStr u ->
  raise_for_status (R n) = Ok tt ->
  json (R n) = Ok content ->
  discover_base content b VNone = Ok found ->
  discover_base_request R s (VStr b) VNone n
  = ([base_request u (cls_token s) b], Ok (found, S n)).
Proof.
  intros Hu Hstatus Hjson Hfound. unfold discover_base_request.
  rewrite disc_bind_lift. cbn [str_add]. rewrite disc_bind_lift, Hu.
  cbn [str_add]. rewrite disc_bind_get, (status_ok_not_gave_up _ Hstatus).
  cbn [fst snd].
  rewrite disc_bind_lift, Hstatus. rewrite disc_bind_lift, Hjson.
  unfold disc_lift. now rewrite Hfound.
Qed.

Lemma discover_given_all (s : settings) (u : string) :
  cls_metadata_url s = VStr u ->
  forall (bs : list string) (contents : nat -> value)
         (found : nat -> list CatalogEntry) (entries : list CatalogEntry)
         (n : nat),
    (forall i b, nth_error bs i = Some b ->
                 raise_for_status (R (n + i)) = Ok tt
                 /\ json (R (n + i)) = Ok (contents i)
                 /\ discover_base (contents i) b VNone = Ok (found i)) ->
    discover_given R s (map VStr bs) entries n
    = (map (base_request u (cls_token s)) bs,
       Ok ((entries ++ flat_map found (seq 0 (List.length bs)))%list,
           (n + List.length bs)%nat)).
Proof.
  intros Hu bs.
  induction bs as [|b bs IH]; intros contents found entries n Hall.
  - cbn. now rewrite app_nil_r, Nat.add_0_r.
  - cbn [map discover_given].
    destruct (Hall 0%nat b eq_refl) as (Hstatus & Hjson & Hfound).
    rewrite Nat.add_0_r in Hstatus, Hjson.
    rewrite (disc_bind_val _ _ _ _ _ _
               (discover_base_request_ok s u b (contents 0%nat) (found 0%nat) n
                  Hu Hstatus Hjson Hfound)).
    rewrite (IH (fun i => contents (S i)) (fun i => found (S i))).
    + assert (Hshift : flat_map found (seq 1 (List.length bs))
                       = flat_map (fun i => found (S i))
                                  (seq 0 (List.length bs))).
      { rewrite <- seq_shift. apply flat_map_shift. }
      cbn [fst snd app List.length seq flat_map].
      rewrite Hshift, <- app_assoc.
      now replace (S n + List.length bs)%nat with (n + S (List.length bs))%nat
        by lia.
    + intros i b' Hi.
      replace (S n + i)%nat with (n + S i)%nat by lia.
      exact (Hall (S i) b' Hi).
Qed.

(** X20.  With [base_ids] in the configuration no listing is requested: when
    every base answers with a body that is discovered, the run makes one
    request for each base id, in order, to the metadata URL followed by the
    id, and returns the entries of the bases in that order. *)
Theorem explicit_base_ids (d : list (string * value)) (token : value)
  (u : string) (bs : list string) (contents : nat -> value)
  (found : nat -> list CatalogEntry) (n : nat) :
  dict_get d "token" = Some token ->
  dict_get d "base_ids" = Some (VList (map VStr bs)) ->
  configured d "metadata_url" (cls_metadata_url class_defaults) = VStr u ->
  (forall i b, nth_error bs i = Some b ->
               raise_for_status (R (n + i)) = Ok tt
               /\ json (R (n + i)) = Ok (contents i)
               /\ discover_base (contents i) b VNone = Ok (found i)) ->
  run_discovery R (VDict d) n
  = (map (base_request u token) bs,
     Ok (flat_map found (seq 0 (List.length bs)), (n + List.length bs)%nat)).
Proof.
  intros Htoken Hids Hu Hall. unfold run_discovery.
  rewrite disc_bind_lift, apply_config_dict, Htoken.
  rewrite disc_bind_lift. cbn [str_in]. unfold dict_has. rewrite Hids.
  rewrite disc_bind_lift, (getkey_dict d "base_ids" _ Hids).
  rewrite disc_bind_lift. cbn [iterate].
  exact (discover_given_all (settings_of d token) u Hu bs contents found [] n
           Hall).
Qed.

(** What the call for a base and [raise_for_status] after it raise. *)
Lemma discover_base_request_error (s : settings) (u b : string) (e : exn)
  (n : nat) :
  cls_metadata_url s = VStr u ->
  (if gave_up (R n) then Raise RetryError else raise_for_status (R n))
  = Raise e ->
  discover_base_request R s (VStr b) VNone n
  = ([base_request u (cls_token s) b], Raise e).
Proof.
  intros Hu Hfail. unfold discover_base_request.
  rewrite disc_bind_lift. cbn [str_add]. rewrite disc_bind_lift, Hu.
  cbn [str_add]. rewrite disc_bind_get.
  destruct (gave_up (R n)).
  - injection Hfail as <-. reflexivity.
  - cbn [fst snd]. now rewrite disc_bind_lift, Hfail.
Qed.

Lemma discover_given_fail (s : settings) (u b : string) (post : list string)
  (e : exn) :
  cls_metadata_url s = VStr u ->
  forall (pre : list string) (contents : nat -> value)
         (found : nat -> list CatalogEntry) (entries : list CatalogEntry)
         (n : nat),
    (forall i b', nth_error pre i = Some b' ->
                  raise_for_status (R (n + i)) = Ok tt
                  /\ json (R (n + i)) = Ok (contents i)
                  /\ discover_base (contents i) b' VNone = Ok (found i)) ->
    (if gave_up (R (n + List.length pre)) then Raise RetryError
     else raise_for_status (R (n + List.length pre))) = Raise e ->
    discover_given R s (map VStr (pre ++ b :: post)) entries n
    = (map (base_request u (cls_token s)) (pre ++ [b]), Raise e).
Proof.
  intros Hu pre.
  induction pre as [|b0 pre IH]; intros contents found entries n Hall Hfail.
  - rewrite Nat.add_0_r in Hfail. cbn [app map discover_given].
    now rewrite (disc_bind_err _ _ _ _ _
                   (discover_base_request_error s u b e n Hu Hfail)).
  - cbn [app map discover_given].
    destruct (Hall 0%nat b0 eq_refl) as (Hstatus & Hjson & Hfound).
    rewrite Nat.add_0_r in Hstatus, Hjson.
    rewrite (disc_bind_val _ _ _ _ _ _
               (discover_base_request_ok s u b0 (contents 0%nat)
                  (found 0%nat) n Hu Hstatus Hjson Hfound)).
    rewrite (IH (fun i => contents (S i)) (fun i => found (S i))).
    + reflexivity.
    + intros i b' Hi.
      replace (S n + i)%nat with (n + S i)%nat by lia.
      exact (Hall (S i) b' Hi).
    + replace (S n + List.length pre)%nat
        with (n + List.length (b0 :: pre))%nat by (simpl; lia).
      exact Hfail.
Qed.

Lemma run_discovery_fail (d : list (string * value)) (token : value)
  (u b : string) (pre post : list string) (contents : nat -> value)
  (found : nat -> list CatalogEntry) (e : exn) (n : nat) :
  dict_get d "token" = Some token ->
  dict_get d "base_ids" = Some (VList (map VStr (pre ++ b :: post))) ->
  configured d "metadata_url" (cls_metadata_url class_defaults) = VStr u ->
  (forall i b', nth_error pre i = Some b' ->
                raise_for_status (R (n + i)) = Ok tt
                /\ json (R (n + i)) = Ok (contents i)
                /\ discover_base (contents i) b' VNone = Ok (found i)) ->
  (if gave_up (R (n + List.length pre)) then Raise RetryError
   else raise_for_status (R (n + List.length pre))) = Raise e ->
  run_discovery R (VDict d) n
  = (map (base_request u token) (pre ++ [b]), Raise e).
Proof.
  intros Htoken Hids Hu Hall Hfail. unfold run_discovery.
  rewrite disc_bind_lift, apply_config_dict, Htoken.
  rewrite disc_bind_lift. cbn [str_in]. unfold dict_has. rewrite Hids.
  rewrite disc_bind_lift, (getkey_dict d "base_ids" _ Hids).
  rewrite disc_bind_lift. cbn [iterate].
  exact (discover_given_fail (settings_of d token) u b post e Hu pre contents
           found [] n Hall Hfail).
Qed.

(** X23.  A failing base ends the whole discovery.  When the bases before
    it were discovered and the session gave up on its call (the last answer
    still has a status of the force list: 429, 500, 502, 503 or 504), the
    run raises [RetryError] after the call for that base; when its answer
    has any other status from 400 to 599, the run raises [HTTPError] there.
    Either way the run returns no entries and calls for none of the bases
    after it. *)
Theorem failing_base_aborts (d : list (string * value)) (token : value)
  (u b : string) (pre post : list string) (contents : nat -> value)
  (found : nat -> list CatalogEntry) (n : nat) :
  dict_get d "token" = Some token ->
  dict_get d "base_ids" = Some (VList (map VStr (pre ++ b :: post))) ->
  configured d "metadata_url" (cls_metadata_url class_defaults) = VStr u ->
  (forall i b', nth_error pre i = Some b' ->
                raise_for_status (R (n + i)) = Ok tt
                /\ json (R (n + i)) = Ok (contents i)
                /\ discover_base (contents i) b' VNone = Ok (found i)) ->
  (gave_up (R (n + List.length pre)) = true ->
   run_discovery R (VDict d) n
   = (map (base_request u token) (pre ++ [b]), Raise RetryError))
  /\ (gave_up (R (n + List.length pre)) = false ->
      error_status (R (n + List.length pre)) = true ->
      run_discovery R (VDict d) n
      = (map (base_request u token) (pre ++ [b]),
         Raise (HTTPError (status_code (R (n + List.length pre)))))).
Proof.
  intros Htoken Hids Hu Hall. split.
  - intros Hup.
    apply (run_discovery_fail d token u b pre post contents found RetryError
             n Htoken Hids Hu Hall).
    now rewrite Hup.
  - intros Hup Herr.
    apply (run_discovery_fail d token u b pre post contents found _ n
             Htoken Hids Hu Hall).
    rewrite Hup. unfold raise_for_status. unfold error_status in Herr.
    now rewrite Herr.
Qed.

End Upstream.

Lemma failing_base_aborts_witness :
  run_discovery (fun _ => mkResponse 403 None)
    (VDict [("token", VStr "key");
            ("base_ids", VList [VStr "app1"; VStr "app2"])]) 0
  = ([base_request "https://api.airtable.com/v2/meta/" (VStr "key") "app1"],
     Raise (HTTPError 403))
  /\ run_discovery (fun k => match k with
                            | O => tables_response [two_field_table]
                            | S _ => mkResponse 502 None
                            end)
       (VDict [("token", VStr "key");
               ("base_ids", VList [VStr "app1"; VStr "app2"; VStr "app3"])])
       0
     = ([base_request "https://api.airtable.com/v2/meta/" (VStr "key") "app1";
         base_request "https://api.airtable.com/v2/meta/" (VStr "key") "app2"],
        Raise RetryError).
Proof.
  split.
  - apply (proj2 (failing_base_aborts (fun _ => mkResponse 403 None)
                    [("token", VStr "key");
                     ("base_ids", VList [VStr "app1"; VStr "app2"])]
                    (VStr "key") "https://api.airtable.com/v2/meta/" "app1"
                    [] ["app2"] (fun _ => VNone) (fun _ => []) 0
                    eq_refl eq_refl eq_refl
                    ltac:(intros [|i] b' Hi; discriminate Hi)));
      reflexivity.
  - destruct (discover_base (VDict [("tables", VList [two_field_table])])
                            "app1" VNone) as [entries|e] eqn:Hfound;
      [|vm_compute in Hfound; discriminate Hfound].
    apply (proj1 (failing_base_aborts
                    (fun k => match k with
                              | O => tables_response [two_field_table]
                              | S _ => mkResponse 502 None
                              end)
                    [("token", VStr "key");
                     ("base_ids",
                      VList [VStr "app1"; VStr "app2"; VStr "app3"])]
                    (VStr "key") "https://api.airtable.com/v2/meta/" "app2"
                    ["app1"] ["app3"]
                    (fun _ => VDict [("tables", VList [two_field_table])])
                    (fun _ => entries) 0
                    eq_refl eq_refl eq_refl
                    ltac:(intros [|[|i]] b' Hi;
                          [injection Hi as <-;
                           split; [reflexivity|split;
                                   [reflexivity|exact Hfound]]
                          | discriminate Hi | discriminate Hi]))).
    reflexivity.
Defined.

Lemma discovery_needs_token_witness :
  run_discovery two_bases_api (VDict [("base_ids", VList [VStr "app1"])]) 0
  = ([], Raise (KeyError (VStr "token"))).
Proof.
  apply (discovery_needs_token two_bases_api
           [("base_ids", VList [VStr "app1"])] 0).
  reflexivity.
Defined.

Lemma validate_only_first_base_witness :
  (List.length
     (fst (run_discovery two_bases_api
             (VDict [("token", VStr "key"); ("validate_only", VBool true)]) 0))
   <= 2)%nat.
Proof.
  apply (validate_only_first_base two_bases_api
           [("token", VStr "key"); ("validate_only", VBool true)]
           (VStr "key") (VBool true) (VStr "app1") (VStr "Sales")
           [(VStr "app2", VStr "Stock")] 0);
    reflexivity.
Defined.

Lemma validate_only_ignored_with_base_ids_witness :
  run_discovery two_bases_api
    (VDict (dict_set [("token", VStr "key"); ("base_ids", VList [VStr "app1"])]
                     "validate_only" (VBool true))) 0
  = run_discovery two_bases_api
      (VDict [("token", VStr "key"); ("base_ids", VList [VStr "app1"])]) 0.
Proof.
  apply (validate_only_ignored_with_base_ids two_bases_api
           [("token", VStr "key"); ("base_ids", VList [VStr "app1"])]
           (VBool true) 0).
  reflexivity.
Defined.

Lemma explicit_base_ids_witness :
  fst (run_discovery (fun _ => tables_response [two_field_table])
         (VDict [("token", VStr "key");
                 ("base_ids", VList [VStr "app1"; VStr "app2"])]) 0)
  = [base_request "https://api.airtable.com/v2/meta/" (VStr "key") "app1";
     base_request "https://api.airtable.com/v2/meta/" (VStr "key") "app2"].
Proof.
  destruct (discover_base (VDict [("tables", VList [two_field_table])])
                          "app1" VNone) as [es1|] eqn:H1; [|discriminate H1].
  destruct (discover_base (VDict [("tables", VList [two_field_table])])
                          "app2" VNone) as [es2|] eqn:H2; [|discriminate H2].
  rewrite (explicit_base_ids (fun _ => tables_response [two_field_table])
             [("token", VStr "key");
              ("base_ids", VList [VStr "app1"; VStr "app2"])]
             (VStr "key") "https://api.airtable.com/v2/meta/"
             ["app1"; "app2"]
             (fun _ => VDict [("tables", VList [two_field_table])])
             (fun i => match i with O => es1 | S _ => es2 end) 0).
  - reflexivity.
  - reflexivity.
  - reflexivity.
  - reflexivity.
  - intros [|[|i]] b Hb.
    + injection Hb as <-. split; [reflexivity | split; [reflexivity | exact H1]].
    + injection Hb as <-. split; [reflexivity | split; [reflexivity | exact H2]].
    + destruct i; discriminate Hb.
Defined.

End DiscoveryRun.
